(** * ha_test_harness: a shallow embedding of scripts/ha_test_harness.py

    The harness is a command-line tool that drives the Home Assistant REST
    API.  Every subcommand is a short, strictly sequential series of HTTP
    calls, so the program is embedded as a computation in a small
    state-and-exception monad whose state is the chronological trace of
    observable events (HTTP exchanges, lines written to stdout and stderr).

    What lies outside the script is taken as data:
    - the Python library functions whose results the script only forwards
      ([float] of a string, [repr] of a float, [int] of a string,
      [datetime.fromisoformat], the local-time conversion behind
      [datetime.timestamp], [json.loads], the check of a url by
      [urllib.request.Request]) are the fields of [Runtime];
    - a [float] is an IEEE binary64: the values the script passes on are
      primitive floats, and the arithmetic of [datetime.timestamp] is that
      of the binary64 specification of the standard library ([SpecFloat]),
      which computes and which the primitive operations agree with;
    - the process environment, the wall clock and the remote server are the
      fields of [World]. *)

From Stdlib Require Import ZArith List String Ascii Bool Lia.
From Stdlib Require Import DecimalString Floats.PrimFloat Floats.SpecFloat Floats.FloatOps.
Import ListNotations.

Set Warnings "-register-all".

(* ================================================================== *)
(** ** Python strings *)

Module PyStr.

Local Open Scope string_scope.

(** [c in chars] for a one-character [c]. *)
Fixpoint mem (c : ascii) (chars : string) : bool :=
  match chars with
  | EmptyString => false
  | String d rest => Ascii.eqb c d || mem c rest
  end.

(** [s.rstrip(chars)]: drop the longest suffix made of characters of
    [chars]. *)
Fixpoint rstrip (chars : string) (s : string) : string :=
  match s with
  | EmptyString => EmptyString
  | String c rest =>
      match rstrip chars rest with
      | EmptyString => if mem c chars then EmptyString else String c EmptyString
      | kept => String c kept
      end
  end.

(** [s.split(sep, 1)[0]] for a one-character separator: the text before
    the first occurrence of [sep], or all of [s] when there is none. *)
Fixpoint split1_head (sep : ascii) (s : string) : string :=
  match s with
  | EmptyString => EmptyString
  | String c rest =>
      if Ascii.eqb c sep then EmptyString else String c (split1_head sep rest)
  end.

(** [c.lower()] on the ASCII range.  The only use is the membership test
    of [_set_input_boolean], whose three candidates are ASCII. *)
Definition lower_ascii (c : ascii) : ascii :=
  let n := nat_of_ascii c in
  if (65 <=? n)%nat && (n <=? 90)%nat then ascii_of_nat (n + 32) else c.

Fixpoint lower (s : string) : string :=
  match s with
  | EmptyString => EmptyString
  | String c rest => String (lower_ascii c) (lower rest)
  end.

(** [value in {...}] for a set literal of strings. *)
Fixpoint in_set (s : string) (set : list string) : bool :=
  match set with
  | [] => false
  | x :: rest => String.eqb s x || in_set s rest
  end.

(** [str(n)] for an [int]. *)
Definition of_Z (z : Z) : string := NilZero.string_of_int (Z.to_int z).

(** [s * n]: [n] copies of [s]. *)
Fixpoint repeat (s : string) (n : nat) : string :=
  match n with
  | O => EmptyString
  | S k => s ++ repeat s k
  end.

(** Truthiness of a [str | None] value: [None] and [""] are falsy. *)
Definition truthy (v : option string) : bool :=
  match v with
  | Some (String _ _) => true
  | _ => false
  end.

End PyStr.

(* ================================================================== *)
(** ** Python values, JSON payloads, dates *)

(** The values the script hands to [_set_by_domain]: the state labels are
    [str], a parsed [--energy-wh] is a [float], and the literal [0] of
    [default=0] and of [_init_helpers(args, 0)] is an [int].  A Python float
    is an IEEE binary64, that is, a primitive float. *)
Inductive PyVal : Type :=
| PNone
| PInt (z : Z)
| PFloat (f : float)
| PStr (s : string).

Inductive Json : Type :=
| JNull
| JBool (b : bool)
| JInt (z : Z)
| JFloat (f : float)
| JStr (s : string)
| JList (items : list Json)
| JDict (items : list (string * Json)).

(** A [dict] literal, in insertion order. *)
Definition dict := list (string * Json).

Definition json_of_val (v : PyVal) : Json :=
  match v with
  | PNone => JNull
  | PInt z => JInt z
  | PFloat f => JFloat f
  | PStr s => JStr s
  end.

(** [datetime]: the date is kept as its proleptic Gregorian ordinal
    ([toordinal()]), the time of day field by field.  [tzoffset] is [None]
    for a naive value and the UTC offset in microseconds for an aware one. *)
Record datetime : Type := mkDatetime {
  ordinal : Z;
  hour : Z;
  minute : Z;
  second : Z;
  microsecond : Z;
  tzoffset : option Z;
  fold : bool
}.

(** [timedelta], as its total number of microseconds. *)
Definition timedelta := Z.

Module Dt.
Local Open Scope Z_scope.

Definition US_PER_SECOND : Z := 1000000.
Definition US_PER_DAY : Z := 86400 * US_PER_SECOND.
Definition MAXORDINAL : Z := 3652059.
Definition MAX_DELTA_DAYS : Z := 999999999.
(** [datetime(1970, 1, 1).toordinal()] *)
Definition EPOCH_ORDINAL : Z := 719163.

(** A bound on the seconds [_mktime()] answers with.  The answer is
    [t - (local(u) - u)], where [t] counts the seconds from the epoch to
    the date and time fields, and [local(u)] those to the fields of the
    local time at an instant [u] that is [t], or a candidate answer, or
    one of these moved by a day; it is computed by building a [datetime],
    which fails outside the years 1 to 9999.  So every number involved is
    a few ranges of [datetime] away from the epoch at most. *)
Definition MAX_MKTIME : Z := 4 * MAXORDINAL * 86400.

(** [timedelta(dt.toordinal(), hours=..., minutes=..., seconds=...,
    microseconds=...)], the first step of [datetime.__add__]. *)
Definition to_us (dt : datetime) : Z :=
  ordinal dt * US_PER_DAY
  + (hour dt * 3600 + minute dt * 60 + second dt) * US_PER_SECOND
  + microsecond dt.

Definition days (td : timedelta) : Z := td / US_PER_DAY.
Definition seconds (td : timedelta) : Z := (td mod US_PER_DAY) / US_PER_SECOND.
Definition microseconds (td : timedelta) : Z := td mod US_PER_SECOND.

(** The range check every [timedelta] constructor ends with. *)
Definition in_range (td : timedelta) : bool :=
  (- MAX_DELTA_DAYS <=? days td) && (days td <=? MAX_DELTA_DAYS).

(** [now.replace(hour=0, minute=0, second=0, microsecond=0)] *)
Definition replace_time (dt : datetime) (h m s us : Z) : datetime :=
  {| ordinal := ordinal dt; hour := h; minute := m; second := s;
     microsecond := us; tzoffset := tzoffset dt; fold := fold dt |}.

(** Field ranges of a [datetime] object. *)
Definition valid (dt : datetime) : Prop :=
  1 <= ordinal dt <= MAXORDINAL /\ 0 <= hour dt < 24 /\ 0 <= minute dt < 60
  /\ 0 <= second dt < 60 /\ 0 <= microsecond dt < US_PER_SECOND.
End Dt.

(* ================================================================== *)
(** ** Exceptions, events, the monad *)

Inductive Exn : Type :=
| SystemExit (code : Z)
| RuntimeError (msg : string)
| ValueError
| OverflowError
| TypeError
| AttributeError
| OtherError (name : string).

(** How [datetime._mktime()] fails on a local time the platform cannot
    convert: [time.localtime] raises [OverflowError] or [OSError], and the
    [datetime] built from its answer raises [ValueError] when the year
    leaves 1 to 9999. *)
Inductive MktimeError : Type :=
| MktimeOverflow
| MktimeValue
| MktimeOS.

Definition mktime_exn (err : MktimeError) : Exn :=
  match err with
  | MktimeOverflow => OverflowError
  | MktimeValue => ValueError
  | MktimeOS => OtherError "OSError"
  end.

Record Request : Type := mkRequest {
  req_method : string;
  req_url : string;
  req_data : option dict;
  req_headers : list (string * string)
}.

(** What [urlopen] and [resp.read()] do with a request: a response object
    (status 2xx) with its body, an [HTTPError] with its status code and
    decoded body, a [URLError] with its reason, or an exception of another
    class, which the script does not catch. *)
Inductive Response : Type :=
| Resp2xx (body : string)
| RespHTTPError (code : Z) (detail : string)
| RespURLError (reason : string)
| RespRaises (name : string).

Inductive Event : Type :=
| EvHttp (req : Request) (resp : Response)
| EvStdout (line : string)
| EvStderr (line : string)
| EvTraceback (e : Exn).

Definition Trace := list Event.

Inductive Result (A : Type) : Type :=
| Returned (a : A)
| Raised (e : Exn).
Arguments Returned {A} a.
Arguments Raised {A} e.

Definition M (A : Type) : Type := Trace -> Result A * Trace.

Definition ret {A} (a : A) : M A := fun t => (Returned a, t).
Definition raise {A} (e : Exn) : M A := fun t => (Raised e, t).
Definition bind {A B} (m : M A) (k : A -> M B) : M B :=
  fun t => match m t with
           | (Returned a, t') => k a t'
           | (Raised e, t') => (Raised e, t')
           end.
Definition lift {A} (r : Result A) : M A := fun t => (r, t).
Definition emit (ev : Event) : M unit := fun t => (Returned tt, t ++ [ev]).
Definition get_trace : M Trace := fun t => (Returned t, t).

(** [print(line)] and [print(line, file=sys.stderr)] *)
Definition print (line : string) : M unit := emit (EvStdout line).
Definition eprint (line : string) : M unit := emit (EvStderr line).

Declare Scope py_scope.
Delimit Scope py_scope with py.
Notation "x <- m ;; k" := (bind m (fun x => k))
  (at level 100, m at next level, right associativity) : py_scope.
Notation "m ;;; k" := (bind m (fun _ => k))
  (at level 100, right associativity) : py_scope.

(** The requests of a trace, oldest first. *)
Fixpoint requests_of (t : Trace) : list Request :=
  match t with
  | [] => []
  | EvHttp req _ :: rest => req :: requests_of rest
  | _ :: rest => requests_of rest
  end.

(** The Python library functions the script relies on. *)
Record Runtime : Type := mkRuntime {
  (** [float(s)]; [None] stands for [ValueError] *)
  float_of_str : string -> option float;
  (** [repr(f)], which is also [str(f)] *)
  float_repr : float -> string;
  (** [int(s)]; [None] stands for [ValueError] *)
  int_of_str : string -> option Z;
  (** [datetime.fromisoformat(s)]; [None] stands for [ValueError] *)
  fromisoformat : string -> option datetime;
  (** [datetime._mktime()]: whole POSIX seconds of a naive local time;
      [None] stands for the exception of a date the platform cannot
      convert, which [mktime_error] names.  What is known of its answers
      is that they stay within [Dt.MAX_MKTIME] of the epoch. *)
  mktime : datetime -> option Z;
  mktime_range :
    forall dt s, mktime dt = Some s -> (Z.abs s <= Dt.MAX_MKTIME)%Z;
  mktime_error : datetime -> MktimeError;
  (** [json.loads(body.decode("utf-8"))]; [None] stands for the
      [ValueError] of an undecodable or malformed body *)
  json_loads : string -> option Json;
  (** [json.dumps(value, indent=2, sort_keys=True)] *)
  json_dumps : Json -> string;
  (** whether [request.Request(url, ...)] can be built; [false] stands for
      the [ValueError] of a url in which no type is found *)
  request_accepts : string -> bool;
  (** [repr(s)] for a [str] *)
  str_repr : string -> string;
  (** what [argparse] calls the parser of a subcommand ([prog]) and what
      its [print_usage] writes, without the final newline *)
  argparse_prog : string -> string;
  argparse_usage : string -> string
}.

(** The surroundings of one run of the process. *)
Record World : Type := mkWorld {
  (** [os.environ.get] *)
  environ : string -> option string;
  (** [datetime.now()] *)
  clock : datetime;
  (** [request.urlopen], given the requests already issued *)
  urlopen : list Request -> Request -> Response
}.

(* ================================================================== *)
(** ** The script *)

Local Open Scope string_scope.
Local Open Scope py_scope.

Definition DEFAULTS : list (string * string) :=
  [ ("energy_sensor", "sensor.test_energy_yesterday");
    ("status_entity", "input_select.test_status");
    ("lifetime_helper", "input_number.test_lifetime_energy");
    ("cycle_start_helper", "input_datetime.test_cycle_start");
    ("daily_active_helper", "input_number.test_daily_active_seconds");
    ("durations_helper", "input_text.test_cycle_durations");
    ("last_processed_helper", "input_text.test_last_processed_date");
    ("active_state", "running");
    ("inactive_state", "off") ].

(** [d[key]] on a [dict] of strings; every key the script looks up is
    present, so the [KeyError] branch is never taken. *)
Fixpoint getitem (d : list (string * string)) (key : string) : string :=
  match d with
  | [] => ""
  | (k, v) :: rest => if String.eqb k key then v else getitem rest key
  end.

(** The attributes of the [argparse] namespace.  The attributes a
    subcommand's parser does not define are left at [None]/[false]; no
    command reads them. *)
Record Args : Type := mkArgs {
  base_url : option string;
  token : option string;
  energy_sensor : string;
  energy_write_entity : option string;
  status_entity : string;
  lifetime_helper : string;
  cycle_start_helper : string;
  daily_active_helper : string;
  durations_helper : string;
  last_processed_helper : string;
  active_state : string;
  inactive_state : string;
  energy_wh : PyVal;
  duration_sec : option Z;
  start_iso : option string;
  init : bool
}.

(** [float(n)] for an [int]: the nearest binary64, [OverflowError] when
    that is not finite. *)
Definition float_of_Z (z : Z) : option float :=
  let f := SF2Prim (binary_normalize prec emax z 0 false) in
  if is_infinity f then None else Some f.

(** [req.add_header(key, val)] *)
Definition add_header (req : Request) (key val : string) : Request :=
  {| req_method := req_method req; req_url := req_url req;
     req_data := req_data req;
     req_headers := (req_headers req ++ [(key, val)])%list |}.


(** [timedelta(...)]: every constructor ends with the range check. *)
Definition timedelta_new (us : Z) : M timedelta :=
  if Dt.in_range us then ret us else raise OverflowError.

Definition timedelta_seconds (n : Z) : M timedelta :=
  timedelta_new (n * Dt.US_PER_SECOND)%Z.

Definition timedelta_minutes (n : Z) : M timedelta :=
  timedelta_new (n * 60 * Dt.US_PER_SECOND)%Z.

(** [dt - td], that is [dt + (-td)]: the operand is negated, added to the
    [timedelta] of the date and time fields, and the sum is split again
    with [divmod]; the date must stay within [1 .. MAXORDINAL]. *)
Definition datetime_sub (dt : datetime) (td : timedelta) : M datetime :=
  neg <- timedelta_new (- td)%Z ;;
  delta <- timedelta_new (Dt.to_us dt + neg)%Z ;;
  let rem := (Dt.seconds delta mod 3600)%Z in
  if ((0 <? Dt.days delta) && (Dt.days delta <=? Dt.MAXORDINAL))%Z then
    ret {| ordinal := Dt.days delta;
           hour := (Dt.seconds delta / 3600)%Z;
           minute := (rem / 60)%Z;
           second := (rem mod 60)%Z;
           microsecond := Dt.microseconds delta;
           tzoffset := tzoffset dt;
           fold := false |}
  else raise OverflowError.

(** *** Floats of [datetime.timestamp]

    [float(n)] for an [int]: the nearest binary64, ties to even,
    [OverflowError] when that is not finite. *)
Definition b64_of_int (z : Z) : Result spec_float :=
  match binary_normalize prec emax z 0 false with
  | S754_infinity _ => Raised OverflowError
  | f => Returned f
  end.

(** The literal [1e6]. *)
Definition b64_1e6 : spec_float := binary_normalize prec emax 1000000 0 false.

(** [n / 1e6] for an [int]: [n] becomes a float, then the floats are
    divided. *)
Definition int_over_1e6 (n : Z) : Result spec_float :=
  match b64_of_int n with
  | Returned f => Returned (SFdiv prec emax f b64_1e6)
  | Raised e => Raised e
  end.

(** [n + x] for an [int] and a [float]: [n] becomes a float, then the
    floats are added. *)
Definition int_plus_float (n : Z) (x : spec_float) : Result spec_float :=
  match b64_of_int n with
  | Returned f => Returned (SFadd prec emax f x)
  | Raised e => Raised e
  end.

(** An [int] as the float operand it is, before any rounding. *)
Definition b64_exact (z : Z) : spec_float :=
  match z with
  | Z0 => S754_zero false
  | Zpos m => S754_finite false m 0
  | Zneg m => S754_finite true m 0
  end.

(** [a / b] for two [int]s: the binary64 nearest to the quotient itself,
    with one rounding; [ZeroDivisionError] for a zero divisor and
    [OverflowError] when the nearest binary64 is not finite. *)
Definition int_truediv (a b : Z) : Result spec_float :=
  if (b =? 0)%Z then Raised (OtherError "ZeroDivisionError")
  else
    match SFdiv prec emax (b64_exact a) (b64_exact b) with
    | S754_infinity _ => Raised OverflowError
    | f => Returned f
    end.

(** [int(x)] for a [float]: truncation towards zero; [OverflowError] for
    an infinity and [ValueError] for a NaN. *)
Definition py_int (x : spec_float) : Result Z :=
  match x with
  | S754_zero _ => Returned 0%Z
  | S754_finite sx m e =>
      Returned (cond_Zopp sx (if (0 <=? e)%Z then (Zpos m * 2 ^ e)%Z
                              else (Zpos m / 2 ^ (- e))%Z))
  | S754_infinity _ => Raised OverflowError
  | S754_nan => Raised ValueError
  end.

Section Harness.

Variable rt : Runtime.
Variable w : World.

(** [float(value)] and [str(value)] *)
Definition float_conv (value : PyVal) : Result float :=
  match value with
  | PNone => Raised TypeError
  | PFloat f => Returned f
  | PInt z =>
      match float_of_Z z with
      | Some f => Returned f
      | None => Raised OverflowError
      end
  | PStr s =>
      match float_of_str rt s with
      | Some f => Returned f
      | None => Raised ValueError
      end
  end.

Definition py_float (value : PyVal) : M float := lift (float_conv value).

Definition py_str (value : PyVal) : string :=
  match value with
  | PNone => "None"
  | PInt z => PyStr.of_Z z
  | PFloat f => float_repr rt f
  | PStr s => s
  end.

Definition _require (value : option string) (label : string) : M string :=
  match value with
  | Some (String _ _ as v) => ret v
  | _ =>
      eprint ("Missing required value: " ++ label) ;;;
      raise (SystemExit 2)
  end.

Definition _base_url (args : Args) : M string :=
  _require (base_url args) "HA_BASE_URL or --base-url".

Definition _token (args : Args) : M string :=
  _require (token args) "HA_TOKEN or --token".

(** [request.Request(url, data=data, method=method)] *)
Definition Request_new (url : string) (data : option dict) (method : string)
  : M Request :=
  if request_accepts rt url then
    ret {| req_method := method; req_url := url; req_data := data;
           req_headers := [] |}
  else raise ValueError.

(** [request.urlopen(req, timeout=30)]: the exchange is recorded in the
    trace whatever its outcome. *)
Definition do_urlopen (req : Request) : M Response :=
  t <- get_trace ;;
  let resp := urlopen w (requests_of t) req in
  emit (EvHttp req resp) ;;;
  ret resp.

(** The payload stays structured: [req_data] stands for
    [json.dumps(payload).encode("utf-8")]. *)
Definition _request (args : Args) (method path : string)
           (payload : option dict) : M Json :=
  base <- _base_url args ;;
  let url := PyStr.rstrip "/" base ++ path in
  let data := payload in
  req <- Request_new url data method ;;
  tok <- _token args ;;
  let req := add_header req "Authorization" ("Bearer " ++ tok) in
  let req := add_header req "Content-Type" "application/json" in
  resp <- do_urlopen req ;;
  match resp with
  | Resp2xx body =>
      match body with
      | EmptyString => ret JNull
      | _ =>
          match json_loads rt body with
          | Some j => ret j
          | None => raise ValueError
          end
      end
  | RespHTTPError code detail =>
      raise (RuntimeError
               (method ++ " " ++ path ++ " failed: " ++ PyStr.of_Z code
                ++ " " ++ detail))
  | RespURLError reason =>
      raise (RuntimeError (method ++ " " ++ path ++ " failed: " ++ reason))
  | RespRaises name => raise (OtherError name)
  end.

Definition _domain (entity_id : string) : string :=
  PyStr.split1_head "." entity_id.

Definition _call_service (args : Args) (domain service : string)
           (data : dict) : M Json :=
  _request args "POST" ("/api/services/" ++ domain ++ "/" ++ service)
           (Some data).

Definition _set_state (args : Args) (entity_id : string) (state : PyVal)
           (attributes : option dict) : M Json :=
  let payload := [("state", JStr (py_str state))] in
  let payload :=
    match attributes with
    | Some (_ :: _ as a) => (payload ++ [("attributes", JDict a)])%list
    | _ => payload
    end in
  _request args "POST" ("/api/states/" ++ entity_id) (Some payload).

Definition _set_input_number (args : Args) (entity_id : string)
           (value : PyVal) : M Json :=
  _call_service args "input_number" "set_value"
    [("entity_id", JStr entity_id); ("value", json_of_val value)].

Definition _set_input_text (args : Args) (entity_id : string)
           (value : string) : M Json :=
  _call_service args "input_text" "set_value"
    [("entity_id", JStr entity_id); ("value", JStr value)].

Definition _set_input_select (args : Args) (entity_id : string)
           (value : string) : M Json :=
  _call_service args "input_select" "select_option"
    [("entity_id", JStr entity_id); ("option", JStr value)].

Definition _set_input_boolean (args : Args) (entity_id : string)
           (value : string) : M Json :=
  let service :=
    if PyStr.in_set (PyStr.lower value) ["on"; "true"; "1"]
    then "turn_on" else "turn_off" in
  _call_service args "input_boolean" service [("entity_id", JStr entity_id)].

Definition _set_by_domain (args : Args) (entity_id : string)
           (value : PyVal) : M Json :=
  let domain := _domain entity_id in
  if String.eqb domain "input_number" then
    f <- py_float value ;;
    _set_input_number args entity_id (PFloat f)
  else if String.eqb domain "input_text" then
    _set_input_text args entity_id (py_str value)
  else if String.eqb domain "input_select" then
    _set_input_select args entity_id (py_str value)
  else if String.eqb domain "input_boolean" then
    _set_input_boolean args entity_id (py_str value)
  else
    _set_state args entity_id value None.

Definition _get_state (args : Args) (entity_id : string) : M Json :=
  _request args "GET" ("/api/states/" ++ entity_id) None.

Definition _parse_start_iso (value : string) : M datetime :=
  match fromisoformat rt value with
  | Some dt => ret dt
  | None => raise (RuntimeError ("Invalid --start-iso value: " ++ value))
  end.

Definition _local_midnight (now : datetime) : datetime :=
  Dt.replace_time now 0 0 0 0.

(** [dt.timestamp()]: [s + self.microsecond / 1e6] with [s =
    self._mktime()] for a naive value; [(self - _EPOCH).total_seconds()]
    for an aware one, whose [timedelta] is divided by [10**6] as an
    [int]. *)
Definition timestamp (dt : datetime) : M spec_float :=
  match tzoffset dt with
  | None =>
      match mktime rt dt with
      | Some s =>
          frac <- lift (int_over_1e6 (microsecond dt)) ;;
          lift (int_plus_float s frac)
      | None => raise (mktime_exn (mktime_error rt dt))
      end
  | Some off =>
      lift (int_truediv
              (Dt.to_us dt - Dt.EPOCH_ORDINAL * Dt.US_PER_DAY - off)%Z
              1000000)
  end.

Definition _timestamp (dt : datetime) : M Z :=
  t <- timestamp dt ;;
  lift (py_int t).

(** Reading [args.energy_write_entity] where a [str] is expected. *)
Definition _entity (attr : option string) : M string :=
  match attr with
  | Some e => ret e
  | None => raise AttributeError
  end.

Definition _init_helpers (args : Args) (energy_wh : PyVal) : M unit :=
  _set_input_number args (lifetime_helper args) (PInt 0) ;;;
  _set_input_number args (daily_active_helper args) (PInt 0) ;;;
  _set_input_text args (durations_helper args) "[]" ;;;
  _set_input_text args (last_processed_helper args) "" ;;;
  _call_service args "input_datetime" "set_datetime"
    [("entity_id", JStr (cycle_start_helper args)); ("timestamp", JInt 0)] ;;;
  _set_by_domain args (status_entity args) (PStr (inactive_state args)) ;;;
  match energy_wh with
  | PNone => ret tt
  | _ =>
      target <- _entity (energy_write_entity args) ;;
      _set_by_domain args target energy_wh ;;;
      ret tt
  end.

Definition cmd_init (args : Args) : M unit :=
  _init_helpers args (energy_wh args) ;;;
  print "Initialized helpers and set status to inactive.".

Definition cmd_start (args : Args) : M unit :=
  _set_by_domain args (status_entity args) (PStr (active_state args)) ;;;
  print ("Set status to " ++ active_state args ++ ".").

Definition cmd_end (args : Args) : M unit :=
  match duration_sec args with
  | Some d =>
      let now := clock w in
      td <- timedelta_seconds d ;;
      start <- datetime_sub now td ;;
      ts <- _timestamp start ;;
      _call_service args "input_datetime" "set_datetime"
        [("entity_id", JStr (cycle_start_helper args));
         ("timestamp", JInt ts)] ;;;
      ret tt
  | None => ret tt
  end ;;;
  _set_by_domain args (status_entity args) (PStr (inactive_state args)) ;;;
  print ("Set status to " ++ inactive_state args ++ ".").

Definition cmd_energy (args : Args) : M unit :=
  target <- _entity (energy_write_entity args) ;;
  _set_by_domain args target (energy_wh args) ;;;
  print ("Set energy to " ++ py_str (energy_wh args) ++ " Wh.").

Definition cmd_split (args : Args) : M unit :=
  let now := clock w in
  start <-
    match start_iso args with
    | Some (String _ _ as v) => _parse_start_iso v
    | _ =>
        td <- timedelta_minutes 10 ;;
        datetime_sub (_local_midnight now) td
    end ;;
  ts <- _timestamp start ;;
  _call_service args "input_datetime" "set_datetime"
    [("entity_id", JStr (cycle_start_helper args)); ("timestamp", JInt ts)] ;;;
  _set_by_domain args (status_entity args) (PStr (active_state args)) ;;;
  target <- _entity (energy_write_entity args) ;;
  _set_by_domain args target (energy_wh args) ;;;
  print "Set a pre-midnight start, set status active, and updated energy.".

Definition cmd_scenario (args : Args) : M unit :=
  (if init args then _init_helpers args (PInt 0) else ret tt) ;;;
  start <-
    match start_iso args with
    | Some (String _ _ as v) => _parse_start_iso v
    | _ =>
        let now := clock w in
        match duration_sec args with
        | Some d =>
            td <- timedelta_seconds d ;;
            datetime_sub now td
        | None => raise TypeError
        end
    end ;;
  ts <- _timestamp start ;;
  _call_service args "input_datetime" "set_datetime"
    [("entity_id", JStr (cycle_start_helper args)); ("timestamp", JInt ts)] ;;;
  _set_by_domain args (status_entity args) (PStr (active_state args)) ;;;
  _set_by_domain args (status_entity args) (PStr (inactive_state args)) ;;;
  target <- _entity (energy_write_entity args) ;;
  _set_by_domain args target (energy_wh args) ;;;
  print "Ran scenario: start -> end -> energy update.".

(** The [for entity_id in entities] loop of [cmd_dump]. *)
Fixpoint dump_each (args : Args) (entities : list string) : M unit :=
  match entities with
  | [] => ret tt
  | entity_id :: rest =>
      state <- _get_state args entity_id ;;
      print (json_dumps rt state) ;;;
      dump_each args rest
  end.

Definition cmd_dump (args : Args) : M unit :=
  let entities :=
    [ energy_sensor args; status_entity args; lifetime_helper args;
      cycle_start_helper args; daily_active_helper args;
      durations_helper args; last_processed_helper args ] in
  dump_each args entities.

(* ---------------------------------------------------------------- *)
(** *** Argument parsing and [main] *)

(** [os.environ.get(name)] and [os.environ.get(name, default)] *)
Definition environ_get (name : string) : option string := environ w name.

Definition environ_get_or (name default : string) : string :=
  match environ w name with
  | Some v => v
  | None => default
  end.

(** An option given on the command line wins over its [default=]. *)
Definition flag_or {A} (flag : option A) (default : A) : A :=
  match flag with
  | Some v => v
  | None => default
  end.

(** [parser.error(message)] of the parser of the subcommand [cmd]: the
    usage, then the program name with the message, both on stderr; exit
    status 2. *)
Definition argparse_error {A} (cmd message : string) : M A :=
  eprint (argparse_usage rt cmd) ;;;
  eprint (argparse_prog rt cmd ++ ": error: " ++ message) ;;;
  raise (SystemExit 2).

(** An option declared with [type=float] *)
Definition arg_float (cmd name raw : string) : M PyVal :=
  match float_of_str rt raw with
  | Some f => ret (PFloat f)
  | None =>
      argparse_error cmd ("argument " ++ name ++ ": invalid float value: "
                          ++ str_repr rt raw)
  end.

(** An option declared with [type=int] *)
Definition arg_int (cmd name raw : string) : M Z :=
  match int_of_str rt raw with
  | Some n => ret n
  | None =>
      argparse_error cmd ("argument " ++ name ++ ": invalid int value: "
                          ++ str_repr rt raw)
  end.

(** [--energy-wh] with [type=float, default=0]: the default is not a
    string, so it is stored as it is. *)
Definition energy_wh_default0 (cmd : string) (raw : option string) : M PyVal :=
  match raw with
  | Some r => arg_float cmd "--energy-wh" r
  | None => ret (PInt 0)
  end.

(** [--energy-wh] with [type=float, required=True]: the value is
    converted where the option stands on the command line, its presence is
    checked once the command line has been read. *)
Definition energy_wh_given (cmd : string) (raw : option string)
  : M (option PyVal) :=
  match raw with
  | Some r => v <- arg_float cmd "--energy-wh" r ;; ret (Some v)
  | None => ret None
  end.

Definition energy_wh_present (cmd : string) (given : option PyVal) : M PyVal :=
  match given with
  | Some v => ret v
  | None =>
      argparse_error cmd "the following arguments are required: --energy-wh"
  end.

Definition energy_wh_required (cmd : string) (raw : option string) : M PyVal :=
  given <- energy_wh_given cmd raw ;;
  energy_wh_present cmd given.

(** [--duration-sec] with [type=int] and an optional [default=] *)
Definition duration_sec_arg (cmd : string) (raw : option string)
           (default : option Z) : M (option Z) :=
  match raw with
  | Some r => n <- arg_int cmd "--duration-sec" r ;; ret (Some n)
  | None => ret default
  end.

End Harness.

(** The options every subparser takes ([_add_common_args]), as given on the
    command line. *)
Record CommonFlags : Type := mkCommonFlags {
  flag_base_url : option string;
  flag_token : option string;
  flag_energy_sensor : option string;
  flag_energy_write_entity : option string;
  flag_status_entity : option string;
  flag_lifetime_helper : option string;
  flag_cycle_start_helper : option string;
  flag_daily_active_helper : option string;
  flag_durations_helper : option string;
  flag_last_processed_helper : option string;
  flag_active_state : option string;
  flag_inactive_state : option string
}.

(** The subcommand with the options of its own parser, still as text. *)
Inductive SubCommand : Type :=
| Init (energy_wh_flag : option string)
| Start
| End_ (duration_sec_flag : option string)
| Energy (energy_wh_flag : option string)
| Split (energy_wh_flag : option string) (start_iso_flag : option string)
| Scenario (energy_wh_flag : option string) (duration_sec_flag : option string)
           (start_iso_flag : option string) (init_flag : bool)
| Dump.

(** A command line on which no option is given twice.  Options are
    converted in the order they are given in; of that order, only whether
    [--energy-wh] stands before [--duration-sec] can show. *)
Record CommandLine : Type := mkCommandLine {
  sub : SubCommand;
  common : CommonFlags;
  energy_wh_first : bool
}.

Section Main.

Variable rt : Runtime.
Variable w : World.

(** [_add_common_args] followed by the subparser's own options.  Values
    are converted in the order of the command line, and required options
    are checked after that. *)
Definition parse_args (cl : CommandLine) : M Args :=
  let c := common cl in
  let with_own (energy_wh : PyVal) (duration_sec : option Z)
               (start_iso : option string) (init : bool) : Args :=
    {| base_url :=
         match flag_base_url c with
         | Some v => Some v
         | None => environ_get w "HA_BASE_URL"
         end;
       token :=
         match flag_token c with
         | Some v => Some v
         | None => environ_get w "HA_TOKEN"
         end;
       energy_sensor :=
         flag_or (flag_energy_sensor c)
           (environ_get_or w "HA_ENERGY_SENSOR"
              (getitem DEFAULTS "energy_sensor"));
       energy_write_entity :=
         match flag_energy_write_entity c with
         | Some v => Some v
         | None => environ_get w "HA_ENERGY_WRITE_ENTITY"
         end;
       status_entity :=
         flag_or (flag_status_entity c)
           (environ_get_or w "HA_STATUS_ENTITY"
              (getitem DEFAULTS "status_entity"));
       lifetime_helper :=
         flag_or (flag_lifetime_helper c)
           (environ_get_or w "HA_LIFETIME_HELPER"
              (getitem DEFAULTS "lifetime_helper"));
       cycle_start_helper :=
         flag_or (flag_cycle_start_helper c)
           (environ_get_or w "HA_CYCLE_START_HELPER"
              (getitem DEFAULTS "cycle_start_helper"));
       daily_active_helper :=
         flag_or (flag_daily_active_helper c)
           (environ_get_or w "HA_DAILY_ACTIVE_HELPER"
              (getitem DEFAULTS "daily_active_helper"));
       durations_helper :=
         flag_or (flag_durations_helper c)
           (environ_get_or w "HA_DURATIONS_HELPER"
              (getitem DEFAULTS "durations_helper"));
       last_processed_helper :=
         flag_or (flag_last_processed_helper c)
           (environ_get_or w "HA_LAST_PROCESSED_HELPER"
              (getitem DEFAULTS "last_processed_helper"));
       active_state :=
         flag_or (flag_active_state c)
           (environ_get_or w "HA_ACTIVE_STATE"
              (getitem DEFAULTS "active_state"));
       inactive_state :=
         flag_or (flag_inactive_state c)
           (environ_get_or w "HA_INACTIVE_STATE"
              (getitem DEFAULTS "inactive_state"));
       energy_wh := energy_wh;
       duration_sec := duration_sec;
       start_iso := start_iso;
       init := init |} in
  match sub cl with
  | Init e =>
      energy <- energy_wh_default0 rt "init" e ;;
      ret (with_own energy None None false)
  | Start => ret (with_own PNone None None false)
  | End_ d =>
      duration <- duration_sec_arg rt "end" d None ;;
      ret (with_own PNone duration None false)
  | Energy e =>
      energy <- energy_wh_required rt "energy" e ;;
      ret (with_own energy None None false)
  | Split e iso =>
      energy <- energy_wh_required rt "split" e ;;
      ret (with_own energy None iso false)
  | Scenario e d iso i =>
      if energy_wh_first cl then
        given <- energy_wh_given rt "scenario" e ;;
        duration <- duration_sec_arg rt "scenario" d (Some 1800%Z) ;;
        energy <- energy_wh_present rt "scenario" given ;;
        ret (with_own energy duration iso i)
      else
        duration <- duration_sec_arg rt "scenario" d (Some 1800%Z) ;;
        given <- energy_wh_given rt "scenario" e ;;
        energy <- energy_wh_present rt "scenario" given ;;
        ret (with_own energy duration iso i)
  | Dump => ret (with_own PNone None None false)
  end.

(** [set_defaults(func=...)] *)
Definition func (s : SubCommand) : Args -> M unit :=
  match s with
  | Init _ => cmd_init rt w
  | Start => cmd_start rt w
  | End_ _ => cmd_end rt w
  | Energy _ => cmd_energy rt w
  | Split _ _ => cmd_split rt w
  | Scenario _ _ _ _ => cmd_scenario rt w
  | Dump => cmd_dump rt w
  end.

(** [args.energy_write_entity = args.energy_sensor] *)
Definition set_energy_write_entity (args : Args) (v : string) : Args :=
  {| base_url := base_url args; token := token args;
     energy_sensor := energy_sensor args;
     energy_write_entity := Some v;
     status_entity := status_entity args;
     lifetime_helper := lifetime_helper args;
     cycle_start_helper := cycle_start_helper args;
     daily_active_helper := daily_active_helper args;
     durations_helper := durations_helper args;
     last_processed_helper := last_processed_helper args;
     active_state := active_state args;
     inactive_state := inactive_state args;
     energy_wh := energy_wh args;
     duration_sec := duration_sec args;
     start_iso := start_iso args;
     init := init args |}.

(** [try: ... except RuntimeError as exc: print(str(exc), file=sys.stderr);
    sys.exit(1)] *)
Definition except_RuntimeError (body : M unit) : M unit :=
  fun t =>
    match body t with
    | (Raised (RuntimeError msg), t') =>
        (eprint msg ;;; raise (SystemExit 1)) t'
    | other => other
    end.

(** [if not args.energy_write_entity: args.energy_write_entity =
    args.energy_sensor] *)
Definition default_energy_write_entity (args : Args) : Args :=
  if negb (PyStr.truthy (energy_write_entity args))
  then set_energy_write_entity args (energy_sensor args)
  else args.

Definition main (cl : CommandLine) : M unit :=
  args <- parse_args cl ;;
  let args := default_energy_write_entity args in
  except_RuntimeError (func (sub cl) args).

(** One run of the process: its exit status and everything it did.  An
    exception that reaches the top level is printed as a traceback and
    the status is 1. *)
Definition run (cl : CommandLine) : Z * Trace :=
  match main cl [] with
  | (Returned _, t) => (0%Z, t)
  | (Raised (SystemExit code), t) => (code, t)
  | (Raised e, t) => (1%Z, (t ++ [EvTraceback e])%list)
  end.

End Main.

(* ================================================================== *)
(** ** Vocabulary of the statements *)

(** [Request] can be built for every path under the base URL. *)
Definition usable (rt : Runtime) (b : string) : Prop :=
  forall path, request_accepts rt (PyStr.rstrip "/" b ++ path) = true.

(** The connection settings are present and usable: a non-empty base URL
    that [Request] accepts and a non-empty token. *)
Definition configured (rt : Runtime) (args : Args) (b tk : string) : Prop :=
  base_url args = Some b /\ b <> "" /\ usable rt b
  /\ token args = Some tk /\ tk <> "".

(** The request [_request] hands to [urlopen]. *)
Definition http_request (b tk method path : string) (payload : option dict)
  : Request :=
  {| req_method := method;
     req_url := PyStr.rstrip "/" b ++ path;
     req_data := payload;
     req_headers := [("Authorization", "Bearer " ++ tk);
                     ("Content-Type", "application/json")] |}.

(** A service invocation and a direct state overwrite, as HTTP requests. *)
Definition service_call (b tk domain service : string) (data : dict) : Request :=
  http_request b tk "POST" ("/api/services/" ++ domain ++ "/" ++ service)
               (Some data).

Definition state_overwrite (b tk entity_id state : string) : Request :=
  http_request b tk "POST" ("/api/states/" ++ entity_id)
               (Some [("state", JStr state)]).

(** What [_request] makes of the server's answer. *)
Definition response_result (rt : Runtime) (method path : string)
           (resp : Response) : Result Json :=
  match resp with
  | Resp2xx "" => Returned JNull
  | Resp2xx body =>
      match json_loads rt body with
      | Some j => Returned j
      | None => Raised ValueError
      end
  | RespHTTPError code detail =>
      Raised (RuntimeError (method ++ " " ++ path ++ " failed: "
                            ++ PyStr.of_Z code ++ " " ++ detail))
  | RespURLError reason =>
      Raised (RuntimeError (method ++ " " ++ path ++ " failed: " ++ reason))
  | RespRaises name => Raised (OtherError name)
  end.

(** The server answers every request with a 2xx status and a body that is
    empty or well-formed JSON. *)
Definition accepts (rt : Runtime) (w : World) : Prop :=
  forall history req,
    exists body, urlopen w history req = Resp2xx body
                 /\ (body = "" \/ exists j, json_loads rt body = Some j).

(** The request a write through [_set_by_domain] amounts to, when the value
    suits the entity's domain. *)
Definition write_request (rt : Runtime) (b tk entity_id : string) (value : PyVal)
  : option Request :=
  let domain := PyStr.split1_head "." entity_id in
  if String.eqb domain "input_number" then
    match float_conv rt value with
    | Returned f =>
        Some (service_call b tk "input_number" "set_value"
                [("entity_id", JStr entity_id); ("value", JFloat f)])
    | Raised _ => None
    end
  else if String.eqb domain "input_text" then
    Some (service_call b tk "input_text" "set_value"
            [("entity_id", JStr entity_id); ("value", JStr (py_str rt value))])
  else if String.eqb domain "input_select" then
    Some (service_call b tk "input_select" "select_option"
            [("entity_id", JStr entity_id); ("option", JStr (py_str rt value))])
  else if String.eqb domain "input_boolean" then
    Some (service_call b tk "input_boolean"
            (if PyStr.in_set (PyStr.lower (py_str rt value)) ["on"; "true"; "1"]
             then "turn_on" else "turn_off")
            [("entity_id", JStr entity_id)])
  else
    Some (state_overwrite b tk entity_id (py_str rt value)).

(** The six resets of [init], in the order they are sent. *)
Definition baseline_requests (b tk : string) (args : Args) (status : Request)
  : list Request :=
  [ service_call b tk "input_number" "set_value"
      [("entity_id", JStr (lifetime_helper args)); ("value", JInt 0)];
    service_call b tk "input_number" "set_value"
      [("entity_id", JStr (daily_active_helper args)); ("value", JInt 0)];
    service_call b tk "input_text" "set_value"
      [("entity_id", JStr (durations_helper args)); ("value", JStr "[]")];
    service_call b tk "input_text" "set_value"
      [("entity_id", JStr (last_processed_helper args)); ("value", JStr "")];
    service_call b tk "input_datetime" "set_datetime"
      [("entity_id", JStr (cycle_start_helper args)); ("timestamp", JInt 0)];
    status ].

(** The date-time-set call that carries a cycle start. *)
Definition set_cycle_start (b tk : string) (args : Args) (ts : Z) : Request :=
  service_call b tk "input_datetime" "set_datetime"
    [("entity_id", JStr (cycle_start_helper args)); ("timestamp", JInt ts)].

(** The write of the energy value [init] ends with, if any. *)
Definition energy_requests (rt : Runtime) (b tk : string) (args : Args)
           (energy : PyVal) : list Request :=
  match energy with
  | PNone => []
  | _ =>
      match energy_write_entity args with
      | Some target =>
          match write_request rt b tk target energy with
          | Some req => [req]
          | None => []
          end
      | None => []
      end
  end.

(** [m] returns from every trace, and the requests it adds are [reqs]. *)
Definition issues {A : Type} (m : M A) (reqs : list Request) : Prop :=
  forall t, exists a t',
    m t = (Returned a, t') /\ requests_of t' = (requests_of t ++ reqs)%list.

(** Neither base URL nor token can be asked for in vain. *)
Definition missing_label (args : Args) : string :=
  if PyStr.truthy (base_url args)
  then "HA_TOKEN or --token" else "HA_BASE_URL or --base-url".

(** A failure that comes before the first request of a subcommand: an
    unparseable [--start-iso], or an exception that is neither
    [RuntimeError] nor [SystemExit]. *)
Definition early_failure (e : Exn) : Prop :=
  match e with
  | SystemExit _ => False
  | RuntimeError msg => exists v, msg = "Invalid --start-iso value: " ++ v
  | _ => True
  end.

(** The exceptions of arithmetic and of the conversion of a time. *)
Definition conversion_failure (e : Exn) : Prop :=
  match e with
  | OverflowError | ValueError | OtherError _ => True
  | _ => False
  end.

(** [m] has no effect: it returns, or fails early, with the trace as it
    was. *)
Definition quiet {A : Type} (m : M A) : Prop :=
  forall t, (exists a, m t = (Returned a, t))
            \/ (exists e, m t = (Raised e, t) /\ early_failure e).

(** [m] never gets past the missing connection setting: it reports it and
    exits with status 2, or fails early; either way nothing is sent. *)
Definition blocked {A : Type} (label : string) (m : M A) : Prop :=
  forall t,
    m t = (Raised (SystemExit 2),
           (t ++ [EvStderr ("Missing required value: " ++ label)])%list)
    \/ (exists e, m t = (Raised e, t) /\ early_failure e).

(** [m] only ever adds to the trace. *)
Definition extends {A : Type} (m : M A) : Prop :=
  forall t, exists ext, snd (m t) = (t ++ ext)%list.

(** [m] stops at the missing connection setting at once. *)
Definition halted {A : Type} (label : string) (m : M A) : Prop :=
  forall t,
    m t = (Raised (SystemExit 2),
           (t ++ [EvStderr ("Missing required value: " ++ label)])%list).

(** A connection setting is missing. *)
Definition unconfigured (args : Args) : Prop :=
  PyStr.truthy (base_url args) = false \/ PyStr.truthy (token args) = false.

(** The subcommands whose first step is a request. *)
Definition starts_with_request (s : SubCommand) : Prop :=
  match s with
  | Init _ | Energy _ | Dump => True
  | Scenario _ _ _ i => i = true
  | _ => False
  end.

(** A state read, as an HTTP request. *)
Definition state_read (b tk entity_id : string) : Request :=
  http_request b tk "GET" ("/api/states/" ++ entity_id) None.

(** The same world at another time of day, the same namespace with another
    [--duration-sec]. *)
Definition with_clock (w : World) (c : datetime) : World :=
  {| environ := environ w; clock := c; urlopen := urlopen w |}.

Definition with_duration_sec (args : Args) (d : option Z) : Args :=
  {| base_url := base_url args; token := token args;
     energy_sensor := energy_sensor args;
     energy_write_entity := energy_write_entity args;
     status_entity := status_entity args;
     lifetime_helper := lifetime_helper args;
     cycle_start_helper := cycle_start_helper args;
     daily_active_helper := daily_active_helper args;
     durations_helper := durations_helper args;
     last_processed_helper := last_processed_helper args;
     active_state := active_state args;
     inactive_state := inactive_state args;
     energy_wh := energy_wh args;
     duration_sec := d;
     start_iso := start_iso args;
     init := init args |}.

(** The entities [dump] reads, in order. *)
Definition dumped_entities (args : Args) : list string :=
  [ energy_sensor args; status_entity args; lifetime_helper args;
    cycle_start_helper args; daily_active_helper args;
    durations_helper args; last_processed_helper args ].

(** An exchange succeeded: status 2xx and a body that is empty or decodes. *)
Definition resp_ok (rt : Runtime) (resp : Response) : bool :=
  match resp with
  | Resp2xx "" => true
  | Resp2xx body =>
      match json_loads rt body with Some _ => true | None => false end
  | _ => false
  end.

Definition ok_event (rt : Runtime) (ev : Event) : Prop :=
  match ev with
  | EvHttp _ resp => resp_ok rt resp = true
  | _ => True
  end.

(** [m] stops at the first exchange that fails: when it returns, every
    exchange it added succeeded; when it raises, all but what it added last
    did, what it added last holds at most one request, and an exit it asks
    for has status 2. *)
Definition strict (rt : Runtime) {A : Type} (m : M A) : Prop :=
  forall t, exists ext,
    snd (m t) = (t ++ ext)%list
    /\ match fst (m t) with
       | Returned _ => Forall (ok_event rt) ext
       | Raised e =>
           (forall code, e = SystemExit code -> code = 2%Z)
           /\ exists before last,
               ext = (before ++ last)%list
               /\ Forall (ok_event rt) before
               /\ (List.length (requests_of last) <= 1)%nat
       end.

(** A request built by [_request] for this connection: GET or POST on a
    path under /api/, with the bearer token and the JSON content type. *)
Definition well_formed (b tk : string) (req : Request) : Prop :=
  exists method path payload,
    req = http_request b tk method path payload
    /\ (method = "GET" \/ method = "POST")
    /\ String.prefix "/api/" path = true.

Definition keeps_well_formed (b tk : string) {A : Type} (m : M A) : Prop :=
  forall t,
    Forall (well_formed b tk) (requests_of t) ->
    Forall (well_formed b tk) (requests_of (snd (m t))).

(** The [--energy-wh] of a subcommand that requires one. *)
Definition required_energy_flag (s : SubCommand) : option (option string) :=
  match s with
  | Energy e | Split e _ | Scenario e _ _ _ => Some e
  | _ => None
  end.

(* ================================================================== *)
(** ** A concrete runtime and world

    Used to run the model on examples.  Each function is a fragment of the
    Python function it stands for: it agrees with Python on the inputs it
    accepts and rejects the rest. *)

Module Demo.
Local Open Scope Z_scope.

(** [float(s)] on plain decimal integers: the nearest binary64, which is
    an infinity for a number too large and keeps the sign of a zero. *)
Definition float_of_str (s : string) : option float :=
  match NilZero.int_of_string s with
  | Some (Decimal.Pos u) =>
      Some (SF2Prim (binary_normalize prec emax (Z.of_uint u) 0 false))
  | Some (Decimal.Neg u) =>
      Some (SF2Prim (binary_normalize prec emax (- Z.of_uint u) 0 true))
  | None => None
  end.

(** [repr(f)] on integral floats below 1e16; any other float is shown as
    the placeholder <float>. *)
Definition float_repr (f : float) : string :=
  let whole (neg : bool) (n : Z) : string :=
    if n <? 10000000000000000
    then ((if neg then "-" else "") ++ PyStr.of_Z n ++ ".0")%string
    else "<float>"%string in
  match Prim2SF f with
  | S754_zero neg => whole neg 0
  | S754_infinity neg => if neg then "-inf"%string else "inf"%string
  | S754_nan => "nan"%string
  | S754_finite neg m e =>
      if 0 <=? e then whole neg (Z.pos m * 2 ^ e)
      else if Z.pos m mod 2 ^ (- e) =? 0 then whole neg (Z.pos m / 2 ^ (- e))
      else "<float>"%string
  end.

(** [int(s)] on plain decimal integers of at most 4300 characters, the
    default limit on the digits of a converted string. *)
Definition int_of_str (s : string) : option Z :=
  if (4300 <? String.length s)%nat then None
  else option_map Z.of_int (NilZero.int_of_string s).

Definition is_leap (y : Z) : bool :=
  (y mod 4 =? 0) && (negb (y mod 100 =? 0) || (y mod 400 =? 0)).

Definition month_lengths (y : Z) : list Z :=
  [31; if is_leap y then 29 else 28; 31; 30; 31; 30; 31; 31; 30; 31; 30; 31].

Definition ymd2ord (y m d : Z) : Z :=
  let y1 := y - 1 in
  y1 * 365 + y1 / 4 - y1 / 100 + y1 / 400
  + fold_right Z.add 0 (firstn (Z.to_nat (m - 1)) (month_lengths y))
  + d.

Definition digits (s : string) : option Z :=
  option_map Z.of_uint (NilZero.uint_of_string s).

(** [datetime.fromisoformat(s)] on the form YYYY-MM-DD. *)
Definition fromisoformat (s : string) : option datetime :=
  if negb (Nat.eqb (String.length s) 10) then None
  else if negb (String.eqb (substring 4 1 s) "-"
                && String.eqb (substring 7 1 s) "-") then None
  else
    match digits (substring 0 4 s), digits (substring 5 2 s),
          digits (substring 8 2 s) with
    | Some y, Some m, Some d =>
        if (1 <=? y) && (1 <=? m) && (m <=? 12) && (1 <=? d)
           && (d <=? nth (Z.to_nat (m - 1)) (month_lengths y) 0)
        then Some {| ordinal := ymd2ord y m d; hour := 0; minute := 0;
                     second := 0; microsecond := 0; tzoffset := None;
                     fold := false |}
        else None
    | _, _, _ => None
    end.

(** Whether the fields are those of a [datetime] object. *)
Definition is_datetime (dt : datetime) : bool :=
  (1 <=? ordinal dt) && (ordinal dt <=? Dt.MAXORDINAL)
  && (0 <=? hour dt) && (hour dt <? 24)
  && (0 <=? minute dt) && (minute dt <? 60)
  && (0 <=? second dt) && (second dt <? 60).

(** Local time is UTC. *)
Definition mktime (dt : datetime) : option Z :=
  if is_datetime dt
  then Some ((ordinal dt - Dt.EPOCH_ORDINAL) * 86400
             + hour dt * 3600 + minute dt * 60 + second dt)
  else None.

Definition mktime_range (dt : datetime) (s : Z) :
  mktime dt = Some s -> Z.abs s <= Dt.MAX_MKTIME.
Proof.
  unfold mktime, is_datetime, Dt.MAX_MKTIME, Dt.MAXORDINAL, Dt.EPOCH_ORDINAL.
  destruct (_ && _) eqn:E; [| discriminate].
  intros [= <-].
  repeat (apply andb_prop in E; destruct E as [E ?]).
  repeat match goal with
         | H : (_ <=? _) = true |- _ => apply Z.leb_le in H
         | H : (_ <? _) = true |- _ => apply Z.ltb_lt in H
         end.
  lia.
Qed.

Definition mktime_error (dt : datetime) : MktimeError := MktimeOverflow.

Definition json_loads (body : string) : option Json :=
  if String.eqb body "null" then Some JNull
  else if String.eqb body "[]" then Some (JList [])
  else if String.eqb body "{}" then Some (JDict [])
  else if String.eqb body "true" then Some (JBool true)
  else if String.eqb body "false" then Some (JBool false)
  else None.

(** [json.dumps] on scalars and empty containers; anything else is shown as
    the placeholder <json>. *)
Definition json_dumps (j : Json) : string :=
  match j with
  | JNull => "null"
  | JBool true => "true"
  | JBool false => "false"
  | JInt z => PyStr.of_Z z
  | JList [] => "[]"
  | JDict [] => "{}"
  | _ => "<json>"
  end%string.

(** Whether a url begins with a type: one character or more, none of
    them a slash, before the first colon. *)
Fixpoint has_type (seen : bool) (url : string) : bool :=
  match url with
  | EmptyString => false
  | String c rest =>
      if Ascii.eqb c ":" then seen
      else if Ascii.eqb c "/" then false
      else has_type true rest
  end.

(** [Request(url)] on urls that begin with a printable character other
    than a space or an angle bracket and not with the text URL:, so that
    nothing is removed in front of the type. *)
Definition request_accepts (url : string) : bool :=
  match url with
  | EmptyString => false
  | String c _ =>
      let n := nat_of_ascii c in
      (33 <=? n)%nat && (n <=? 126)%nat && negb (Ascii.eqb c "<")
      && negb (String.prefix "URL:" url) && has_type false url
  end.

(** [repr(s)] on printable ASCII without quote or backslash; any other
    string is shown as the placeholder <str>. *)
Fixpoint plain (s : string) : bool :=
  match s with
  | EmptyString => true
  | String c rest =>
      let n := nat_of_ascii c in
      (32 <=? n)%nat && (n <=? 126)%nat
      && negb (Nat.eqb n 39) && negb (Nat.eqb n 92) && plain rest
  end.

Definition str_repr (s : string) : string :=
  (if plain s then "'" ++ s ++ "'" else "<str>")%string.

(** The script is run as ha_test_harness.py, on a terminal wide enough
    for the usage to stay on one line. *)
Definition argparse_prog (cmd : string) : string :=
  ("ha_test_harness.py " ++ cmd)%string.

Definition argparse_usage (cmd : string) : string :=
  ("usage: " ++ argparse_prog cmd
   ++ " [-h] [--base-url BASE_URL] [--token TOKEN]"
   ++ " [--energy-sensor ENERGY_SENSOR]"
   ++ " [--energy-write-entity ENERGY_WRITE_ENTITY]"
   ++ " [--status-entity STATUS_ENTITY]"
   ++ " [--lifetime-helper LIFETIME_HELPER]"
   ++ " [--cycle-start-helper CYCLE_START_HELPER]"
   ++ " [--daily-active-helper DAILY_ACTIVE_HELPER]"
   ++ " [--durations-helper DURATIONS_HELPER]"
   ++ " [--last-processed-helper LAST_PROCESSED_HELPER]"
   ++ " [--active-state ACTIVE_STATE] [--inactive-state INACTIVE_STATE]"
   ++ (if String.eqb cmd "init" then " [--energy-wh ENERGY_WH]"
       else if String.eqb cmd "end" then " [--duration-sec DURATION_SEC]"
       else if String.eqb cmd "energy" then " --energy-wh ENERGY_WH"
       else if String.eqb cmd "split"
            then " --energy-wh ENERGY_WH [--start-iso START_ISO]"
       else if String.eqb cmd "scenario"
            then " --energy-wh ENERGY_WH [--duration-sec DURATION_SEC]"
                 ++ " [--start-iso START_ISO] [--init]"
       else ""))%string.

Definition rt : Runtime :=
  mkRuntime float_of_str float_repr int_of_str fromisoformat
            mktime mktime_range mktime_error
            json_loads json_dumps request_accepts
            str_repr argparse_prog argparse_usage.

(** 2024-03-10 14:30:15.250000 *)
Definition afternoon : datetime :=
  {| ordinal := ymd2ord 2024 3 10; hour := 14; minute := 30; second := 15;
     microsecond := 250000; tzoffset := None; fold := false |}.

Definition env (name : string) : option string :=
  if String.eqb name "HA_BASE_URL" then Some "http://homeassistant.local:8123/"%string
  else if String.eqb name "HA_TOKEN" then Some "secret"%string
  else None.

(** A configured process talking to a server that accepts everything. *)
Definition world : World :=
  {| environ := env; clock := afternoon;
     urlopen := fun _ _ => Resp2xx "[]" |}.

(** A configured process talking to a server that answers with empty
    bodies. *)
Definition silent_world : World :=
  {| environ := env; clock := afternoon;
     urlopen := fun _ _ => Resp2xx "" |}.

(** A configured process talking to a server that knows no entity, and to
    one that answers with something that is not JSON. *)
Definition failing_world : World :=
  {| environ := env; clock := afternoon;
     urlopen := fun _ _ => RespHTTPError 404 "Entity not found." |}.

Definition garbled_world : World :=
  {| environ := env; clock := afternoon;
     urlopen := fun _ _ => Resp2xx "<html>" |}.

(** The same, with neither environment variable set. *)
Definition bare_world : World :=
  {| environ := fun _ => None; clock := afternoon;
     urlopen := fun _ _ => Resp2xx "[]" |}.

Definition no_flags : CommonFlags :=
  {| flag_base_url := None; flag_token := None; flag_energy_sensor := None;
     flag_energy_write_entity := None; flag_status_entity := None;
     flag_lifetime_helper := None; flag_cycle_start_helper := None;
     flag_daily_active_helper := None; flag_durations_helper := None;
     flag_last_processed_helper := None; flag_active_state := None;
     flag_inactive_state := None |}.

(** A command line with a subcommand and no common option. *)
Definition cli (s : SubCommand) : CommandLine :=
  {| sub := s; common := no_flags; energy_wh_first := true |}.

Definition base : string := "http://homeassistant.local:8123/".
Definition tok : string := "secret".

(** The namespace of a command line without common options. *)
Definition args_of (energy : PyVal) (duration : option Z)
           (iso : option string) (i : bool) : Args :=
  {| base_url := Some base; token := Some tok;
     energy_sensor := "sensor.test_energy_yesterday";
     energy_write_entity := Some "sensor.test_energy_yesterday"%string;
     status_entity := "input_select.test_status";
     lifetime_helper := "input_number.test_lifetime_energy";
     cycle_start_helper := "input_datetime.test_cycle_start";
     daily_active_helper := "input_number.test_daily_active_seconds";
     durations_helper := "input_text.test_cycle_durations";
     last_processed_helper := "input_text.test_last_processed_date";
     active_state := "running";
     inactive_state := "off";
     energy_wh := energy; duration_sec := duration; start_iso := iso;
     init := i |}.
End Demo.

(* ================================================================== *)
(** ** Facts about the string helpers *)

Section StringFacts.

Example rstrip_ex1 : PyStr.rstrip "/" "http://ha.local:8123//" = "http://ha.local:8123"%string.
Proof. reflexivity. Qed.

Example split1_ex1 : PyStr.split1_head "." "input_number.a.b" = "input_number"%string.
Proof. reflexivity. Qed.

Example lower_ex1 : PyStr.lower "TrUe" = "true"%string.
Proof. reflexivity. Qed.

Example of_Z_ex1 : PyStr.of_Z 0 = "0"%string /\ PyStr.of_Z (-42) = "-42"%string.
Proof. split; reflexivity. Qed.

Lemma append_nil_r (s : string) : s ++ "" = s.
Proof. induction s as [|c s IH]; simpl; [reflexivity | now rewrite IH]. Qed.

(** Stripping is insensitive to one more trailing slash. *)
Lemma rstrip_app_slash (b : string) :
  PyStr.rstrip "/" (b ++ "/") = PyStr.rstrip "/" b.
Proof.
  induction b as [|c b IH]; simpl; [reflexivity |].
  now rewrite IH.
Qed.

(** What was stripped is a run of slashes. *)
Lemma rstrip_decompose (b : string) :
  exists n, b = PyStr.rstrip "/" b ++ PyStr.repeat "/" n.
Proof.
  induction b as [|c b [n IH]]; simpl.
  - exists O. reflexivity.
  - destruct (PyStr.rstrip "/" b) as [|k kept] eqn:E.
    + simpl in IH. destruct (Ascii.eqb_spec c "/") as [->|Hc]; simpl.
      * exists (S n). simpl. now rewrite <- IH.
      * exists n. simpl. now rewrite <- IH.
    + exists n. simpl. simpl in IH. now rewrite <- IH.
Qed.

(** Nothing strippable is left. *)
Lemma rstrip_no_trailing (b r : string) : PyStr.rstrip "/" b <> r ++ "/".
Proof.
  revert r. induction b as [|c b IH]; intros r; simpl.
  - destruct r; discriminate.
  - destruct (PyStr.rstrip "/" b) as [|k kept] eqn:E.
    + destruct (Ascii.eqb_spec c "/") as [->|Hc]; simpl.
      * destruct r; discriminate.
      * destruct r as [|x r]; simpl; [congruence |].
        destruct r; discriminate.
    + destruct r as [|x r]; simpl; [discriminate |].
      intros H. injection H as _ H. exact (IH r H).
Qed.

Lemma append_inj_l (a x y : string) : a ++ x = a ++ y -> x = y.
Proof.
  induction a as [|c a IH]; simpl; [trivial |].
  intros H. injection H as H. now apply IH.
Qed.

End StringFacts.

(* ================================================================== *)
(** ** Facts about the monad and the request helper *)

Lemma requests_of_app (t u : Trace) :
  requests_of (t ++ u)%list = (requests_of t ++ requests_of u)%list.
Proof.
  induction t as [|ev t IH]; simpl; [reflexivity |].
  destruct ev; simpl; now rewrite IH.
Qed.

Lemma requests_of_snoc (t : Trace) (req : Request) (resp : Response) :
  requests_of (t ++ [EvHttp req resp])%list = (requests_of t ++ [req])%list.
Proof. now rewrite requests_of_app. Qed.

Lemma bind_returned {A B} (m : M A) (k : A -> M B) (t t' : Trace) (a : A) :
  m t = (Returned a, t') -> bind m k t = k a t'.
Proof. unfold bind. now intros ->. Qed.

Lemma bind_raised {A B} (m : M A) (k : A -> M B) (t t' : Trace) (e : Exn) :
  m t = (Raised e, t') -> bind m k t = (Raised e, t').
Proof. unfold bind. now intros ->. Qed.

(** Settle [configured] on concrete settings. *)
Ltac configured_by_computation :=
  repeat first [reflexivity | discriminate | split | intros ?].

(** Run the first computation of a [bind] with an equation for it. *)
Ltac step H := rewrite (bind_returned _ _ _ _ _ H).
Ltac stop H := rewrite (bind_raised _ _ _ _ _ H).

Section RequestFacts.

Variable rt : Runtime.
Variable w : World.

Lemma require_present (v label : string) (t : Trace) :
  v <> "" -> _require (Some v) label t = (Returned v, t).
Proof. destruct v; [congruence | reflexivity]. Qed.

Lemma require_absent (v : option string) (label : string) (t : Trace) :
  PyStr.truthy v = false ->
  _require v label t
  = (Raised (SystemExit 2),
     (t ++ [EvStderr ("Missing required value: " ++ label)])%list).
Proof. destruct v as [[|c v]|]; [reflexivity | discriminate | reflexivity]. Qed.

Lemma Request_new_typed (url : string) (data : option dict) (method : string)
      (t : Trace) :
  request_accepts rt url = true ->
  Request_new rt url data method t
  = (Returned {| req_method := method; req_url := url; req_data := data;
                 req_headers := [] |}, t).
Proof. unfold Request_new. now intros ->. Qed.

Lemma do_urlopen_eq (req : Request) (t : Trace) :
  do_urlopen w req t
  = (Returned (urlopen w (requests_of t) req),
     (t ++ [EvHttp req (urlopen w (requests_of t) req)])%list).
Proof. reflexivity. Qed.

(** With the connection configured, [_request] performs exactly one
    exchange and its outcome is read off the response. *)
Lemma request_configured (args : Args) (b tk method path : string)
      (payload : option dict) (t : Trace) :
  configured rt args b tk ->
  let req := http_request b tk method path payload in
  let resp := urlopen w (requests_of t) req in
  _request rt w args method path payload t
  = (response_result rt method path resp, t ++ [EvHttp req resp])%list.
Proof.
  intros (Hb & Hbne & Hty & Htk & Hne) req resp.
  unfold _request, _base_url, _token. rewrite Hb, Htk.
  step (require_present b "HA_BASE_URL or --base-url" t Hbne).
  step (Request_new_typed _ payload method t (Hty path)).
  step (require_present tk "HA_TOKEN or --token" t Hne).
  rewrite (bind_returned _ _ _ _ _ (do_urlopen_eq _ t)).
  unfold add_header; cbn [req_method req_url req_data req_headers app].
  fold (http_request b tk method path payload). fold req. fold resp.
  destruct resp as [body|code detail|reason|name]; try reflexivity.
  destruct body; [reflexivity |].
  cbn [response_result].
  destruct (json_loads rt (String a body)); reflexivity.
Qed.

(** When the server accepts, the outcome is a value. *)
Lemma accepted_result (method path : string) (history : list Request)
      (req : Request) :
  accepts rt w ->
  exists j, response_result rt method path (urlopen w history req) = Returned j.
Proof.
  intros Hacc. destruct (Hacc history req) as (body & -> & Hbody).
  destruct Hbody as [-> | [j Hj]].
  - exists JNull. reflexivity.
  - destruct body; [exists JNull; reflexivity |].
    exists j. simpl. now rewrite Hj.
Qed.

End RequestFacts.

(* ================================================================== *)
(** ** The request helper: URL and empty bodies *)

(** C9.  For every base URL that is configured and every request path, the
    request helper issues one request whose URL is the base URL without its
    trailing slashes followed by the path: what is removed is a run of
    slashes, nothing strippable remains, and a base URL written with one
    more trailing slash gives the same URL. *)
Theorem request_url_strips_trailing_slashes :
  forall (rt : Runtime) (w : World) (args : Args) (b tk method path : string)
         (payload : option dict) (t : Trace),
    configured rt args b tk ->
    exists req resp result,
      _request rt w args method path payload t
      = (result, (t ++ [EvHttp req resp])%list)
      /\ req_url req = PyStr.rstrip "/" b ++ path
      /\ (exists n, b = PyStr.rstrip "/" b ++ PyStr.repeat "/" n)
      /\ (forall r, PyStr.rstrip "/" b <> r ++ "/")
      /\ PyStr.rstrip "/" (b ++ "/") ++ path = req_url req.
Proof.
  intros rt w args b tk method path payload t Hcfg.
  eexists _, _, _. split; [apply (request_configured rt w _ _ _ _ _ _ _ Hcfg) |].
  cbn [http_request req_url].
  repeat split.
  - apply rstrip_decompose.
  - intros r. apply rstrip_no_trailing.
  - now rewrite rstrip_app_slash.
Qed.


Lemma request_url_strips_trailing_slashes_witness :
  exists req resp result,
    _request Demo.rt Demo.world (Demo.args_of PNone None None false)
             "GET" "/api/states/sensor.test_energy_yesterday" None []
    = (result, ([] ++ [EvHttp req resp])%list)
    /\ req_url req
       = PyStr.rstrip "/" Demo.base ++ "/api/states/sensor.test_energy_yesterday"
    /\ (exists n, Demo.base = PyStr.rstrip "/" Demo.base ++ PyStr.repeat "/" n)
    /\ (forall r, PyStr.rstrip "/" Demo.base <> r ++ "/")
    /\ PyStr.rstrip "/" (Demo.base ++ "/")
         ++ "/api/states/sensor.test_energy_yesterday" = req_url req.
Proof.
  apply (request_url_strips_trailing_slashes Demo.rt Demo.world
           (Demo.args_of PNone None None false) Demo.base Demo.tok).
  configured_by_computation.
Defined.

(** C10.  A 2xx response with an empty body makes the request helper return
    [None] whatever the JSON decoder would do with it; the decoder is
    consulted only for a non-empty body, whose decoding is then the
    outcome. *)
Theorem empty_body_returns_none :
  forall (rt : Runtime) (w : World) (args : Args) (b tk method path : string)
         (payload : option dict) (t : Trace) (body : string),
    configured rt args b tk ->
    urlopen w (requests_of t) (http_request b tk method path payload)
    = Resp2xx body ->
    (body = "" ->
     fst (_request rt w args method path payload t) = Returned JNull)
    /\ (body <> "" ->
        fst (_request rt w args method path payload t)
        = match json_loads rt body with
          | Some j => Returned j
          | None => Raised ValueError
          end).
Proof.
  intros rt w args b tk method path payload t body Hcfg Hresp.
  rewrite (request_configured rt w _ _ _ _ _ _ _ Hcfg). cbn [fst].
  rewrite Hresp. split.
  - intros ->. reflexivity.
  - intros Hne. destruct body; [congruence | reflexivity].
Qed.

Lemma empty_body_returns_none_witness :
  ("" = "" ->
   fst (_request Demo.rt Demo.silent_world (Demo.args_of PNone None None false)
                 "POST" "/api/services/input_text/set_value" None [])
   = Returned JNull)
  /\ ("" <> "" ->
      fst (_request Demo.rt Demo.silent_world
                    (Demo.args_of PNone None None false)
                    "POST" "/api/services/input_text/set_value" None [])
      = match json_loads Demo.rt "" with
        | Some j => Returned j
        | None => Raised ValueError
        end).
Proof.
  apply (empty_body_returns_none Demo.rt Demo.silent_world
           (Demo.args_of PNone None None false) Demo.base Demo.tok).
  - configured_by_computation.
  - reflexivity.
Defined.

(* ================================================================== *)
(** ** The entity-write dispatch *)

Lemma service_is_not_state (b tk domain service : string) (data : dict)
      (entity_id state : string) :
  service_call b tk domain service data <> state_overwrite b tk entity_id state.
Proof.
  unfold service_call, state_overwrite, http_request. intros H.
  injection H as Hurl _. apply append_inj_l in Hurl. discriminate Hurl.
Qed.

(** C3, amended.  For an entity identifier whose domain is [input_number],
    with the connection configured: a value that [float] converts is
    written by exactly one call of the service input_number/set_value that
    carries the converted number, and that call is no state overwrite; a
    value that [float] rejects raises before anything is sent. *)
Theorem input_number_write_is_one_service_call :
  forall (rt : Runtime) (w : World) (args : Args) (b tk entity_id : string)
         (v : PyVal) (t : Trace),
    configured rt args b tk ->
    _domain entity_id = "input_number" ->
    (forall f, float_conv rt v = Returned f ->
       let req := service_call b tk "input_number" "set_value"
                    [("entity_id", JStr entity_id); ("value", JFloat f)] in
       let resp := urlopen w (requests_of t) req in
       _set_by_domain rt w args entity_id v t
       = (response_result rt "POST" "/api/services/input_number/set_value" resp,
          (t ++ [EvHttp req resp])%list)
       /\ forall e s, req <> state_overwrite b tk e s)
    /\ (forall e, float_conv rt v = Raised e ->
        _set_by_domain rt w args entity_id v t = (Raised e, t)).
Proof.
  intros rt w args b tk entity_id v t Hcfg Hdom.
  assert (Hrun : _set_by_domain rt w args entity_id v
                 = bind (py_float rt v)
                        (fun f => _set_input_number rt w args entity_id (PFloat f))).
  { unfold _set_by_domain. now rewrite Hdom. }
  rewrite Hrun. unfold py_float, lift, bind. split.
  - intros f Hf. split.
    + rewrite Hf. apply (request_configured rt w _ _ _ _ _ _ _ Hcfg).
    + intros e s. apply service_is_not_state.
  - intros e He. now rewrite He.
Qed.

Lemma input_number_write_is_one_service_call_witness :
  (forall f, float_conv Demo.rt (PStr "750") = Returned f ->
     let req := service_call Demo.base Demo.tok "input_number" "set_value"
                  [("entity_id", JStr "input_number.test_energy");
                   ("value", JFloat f)] in
     let resp := urlopen Demo.world (requests_of []) req in
     _set_by_domain Demo.rt Demo.world (Demo.args_of PNone None None false)
                    "input_number.test_energy" (PStr "750") []
     = (response_result Demo.rt "POST" "/api/services/input_number/set_value"
                        resp,
        ([] ++ [EvHttp req resp])%list)
     /\ forall e s, req <> state_overwrite Demo.base Demo.tok e s)
  /\ (forall e, float_conv Demo.rt (PStr "750") = Raised e ->
      _set_by_domain Demo.rt Demo.world (Demo.args_of PNone None None false)
                     "input_number.test_energy" (PStr "750") []
      = (Raised e, [])).
Proof.
  apply (input_number_write_is_one_service_call Demo.rt Demo.world
           (Demo.args_of PNone None None false) Demo.base Demo.tok).
  - configured_by_computation.
  - reflexivity.
Defined.

(** C3 as stated fails: the state label "running" written to an entity of
    domain [input_number] raises [ValueError] and no service call is made. *)
Lemma input_number_write_rejects_label :
  _domain "input_number.test_status" = "input_number"
  /\ _set_by_domain Demo.rt Demo.world (Demo.args_of PNone None None false)
                    "input_number.test_status" (PStr "running") []
     = (Raised ValueError, []).
Proof. split; reflexivity. Qed.

(** C4.  For an entity identifier whose domain is none of [input_number],
    [input_text], [input_select], [input_boolean], with the connection
    configured, writing any value [v] performs exactly one exchange: a
    direct state overwrite of that entity whose payload is [state = str(v)];
    it is no service call. *)
Theorem unrecognized_domain_write_is_one_state_overwrite :
  forall (rt : Runtime) (w : World) (args : Args) (b tk entity_id : string)
         (v : PyVal) (t : Trace),
    configured rt args b tk ->
    _domain entity_id <> "input_number" ->
    _domain entity_id <> "input_text" ->
    _domain entity_id <> "input_select" ->
    _domain entity_id <> "input_boolean" ->
    let req := http_request b tk "POST" ("/api/states/" ++ entity_id)
                 (Some [("state", JStr (py_str rt v))]) in
    let resp := urlopen w (requests_of t) req in
    _set_by_domain rt w args entity_id v t
    = (response_result rt "POST" ("/api/states/" ++ entity_id) resp,
       (t ++ [EvHttp req resp])%list)
    /\ forall domain service data,
         req <> service_call b tk domain service data.
Proof.
  intros rt w args b tk entity_id v t Hcfg Hn Ht Hs Hb req resp.
  unfold _set_by_domain.
  apply String.eqb_neq in Hn, Ht, Hs, Hb. rewrite Hn, Ht, Hs, Hb.
  split.
  - apply (request_configured rt w _ _ _ _ _ _ _ Hcfg).
  - intros domain service data H. symmetry in H.
    exact (service_is_not_state _ _ _ _ _ _ _ H).
Qed.

Lemma unrecognized_domain_write_is_one_state_overwrite_witness :
  let req := http_request Demo.base Demo.tok "POST"
               ("/api/states/" ++ "sensor.test_energy_yesterday")
               (Some [("state", JStr (py_str Demo.rt (PInt 0)))]) in
  let resp := urlopen Demo.world (requests_of []) req in
  _set_by_domain Demo.rt Demo.world (Demo.args_of PNone None None false)
                 "sensor.test_energy_yesterday" (PInt 0) []
  = (response_result Demo.rt "POST"
                     ("/api/states/" ++ "sensor.test_energy_yesterday") resp,
     ([] ++ [EvHttp req resp])%list)
  /\ forall domain service data,
       req <> service_call Demo.base Demo.tok domain service data.
Proof.
  apply (unrecognized_domain_write_is_one_state_overwrite Demo.rt Demo.world
           (Demo.args_of PNone None None false) Demo.base Demo.tok).
  - configured_by_computation.
  - discriminate.
  - discriminate.
  - discriminate.
  - discriminate.
Defined.

(* ================================================================== *)
(** ** Sequences of requests *)

Lemma issues_ret {A} (a : A) : issues (ret a) [].
Proof. intros t. exists a, t. split; [reflexivity | now rewrite app_nil_r]. Qed.

Lemma issues_print (line : string) : issues (print line) [].
Proof.
  intros t. eexists tt, _. split; [reflexivity |].
  rewrite requests_of_app. reflexivity.
Qed.

Lemma issues_bind {A B} (m : M A) (k : A -> M B) (r1 r2 : list Request) :
  issues m r1 -> (forall a, issues (k a) r2) -> issues (bind m k) (r1 ++ r2).
Proof.
  intros Hm Hk t.
  destruct (Hm t) as (a & t1 & E1 & R1).
  destruct (Hk a t1) as (c & t2 & E2 & R2).
  exists c, t2. split.
  - step E1. exact E2.
  - rewrite R2, R1. now rewrite app_assoc.
Qed.

Section SequenceFacts.

Variable rt : Runtime.
Variable w : World.
Variable args : Args.
Variables b tk : string.
Hypothesis Hcfg : configured rt args b tk.
Hypothesis Hacc : accepts rt w.

Lemma issues_request (method path : string) (payload : option dict) :
  issues (_request rt w args method path payload)
         [http_request b tk method path payload].
Proof.
  intros t. rewrite (request_configured rt w _ _ _ _ _ _ _ Hcfg).
  destruct (accepted_result rt w method path (requests_of t)
              (http_request b tk method path payload) Hacc) as [j Hj].
  rewrite Hj. eexists j, _. split; [reflexivity | apply requests_of_snoc].
Qed.

Lemma issues_call_service (domain service : string) (data : dict) :
  issues (_call_service rt w args domain service data)
         [service_call b tk domain service data].
Proof. apply issues_request. Qed.

Lemma issues_set_by_domain (entity_id : string) (v : PyVal) (req : Request) :
  write_request rt b tk entity_id v = Some req ->
  issues (_set_by_domain rt w args entity_id v) [req].
Proof.
  unfold write_request, _set_by_domain, _domain.
  destruct (String.eqb _ "input_number").
  { destruct (float_conv rt v) as [f|e] eqn:Ef; [| discriminate].
    intros [= <-] t. unfold py_float, lift, bind. rewrite Ef.
    apply issues_call_service. }
  destruct (String.eqb _ "input_text");
    [intros [= <-]; apply issues_call_service |].
  destruct (String.eqb _ "input_select");
    [intros [= <-]; apply issues_call_service |].
  destruct (String.eqb _ "input_boolean");
    [intros [= <-]; apply issues_call_service |].
  intros [= <-]. apply issues_request.
Qed.

(** A write whose value does not suit the domain raises at once. *)
Lemma set_by_domain_unsuited (entity_id : string) (v : PyVal) (t : Trace) :
  write_request rt b tk entity_id v = None ->
  exists e, _set_by_domain rt w args entity_id v t = (Raised e, t).
Proof.
  unfold write_request, _set_by_domain, _domain.
  destruct (String.eqb _ "input_number").
  { destruct (float_conv rt v) as [f|e] eqn:Ef; [discriminate |].
    intros _. exists e. unfold py_float, lift, bind. now rewrite Ef. }
  destruct (String.eqb _ "input_text"); [discriminate |].
  destruct (String.eqb _ "input_select"); [discriminate |].
  destruct (String.eqb _ "input_boolean"); discriminate.
Qed.

(** The six resets, then the energy write when there is one. *)
Lemma init_helpers_requests (status : Request) (energy : PyVal) (t : Trace) :
  write_request rt b tk (status_entity args) (PStr (inactive_state args))
  = Some status ->
  exists r t',
    _init_helpers rt w args energy t = (r, t')
    /\ requests_of t'
       = (requests_of t ++ baseline_requests b tk args status
          ++ energy_requests rt b tk args energy)%list
    /\ (forall q, energy_requests rt b tk args energy = [q] ->
        r = Returned tt).
Proof.
  intros Hst. unfold _init_helpers, _set_input_number, _set_input_text.
  destruct (issues_call_service "input_number" "set_value"
              [("entity_id", JStr (lifetime_helper args)); ("value", json_of_val (PInt 0))] t)
    as (a1 & t1 & E1 & R1). step E1.
  destruct (issues_call_service "input_number" "set_value"
              [("entity_id", JStr (daily_active_helper args)); ("value", json_of_val (PInt 0))] t1)
    as (a2 & t2 & E2 & R2). step E2.
  destruct (issues_call_service "input_text" "set_value"
              [("entity_id", JStr (durations_helper args)); ("value", JStr "[]")] t2)
    as (a3 & t3 & E3 & R3). step E3.
  destruct (issues_call_service "input_text" "set_value"
              [("entity_id", JStr (last_processed_helper args)); ("value", JStr "")] t3)
    as (a4 & t4 & E4 & R4). step E4.
  destruct (issues_call_service "input_datetime" "set_datetime"
              [("entity_id", JStr (cycle_start_helper args)); ("timestamp", JInt 0)] t4)
    as (a5 & t5 & E5 & R5). step E5.
  destruct (issues_set_by_domain _ _ _ Hst t5) as (a6 & t6 & E6 & R6). step E6.
  assert (Rbase : requests_of t6
                  = (requests_of t ++ baseline_requests b tk args status)%list).
  { rewrite R6, R5, R4, R3, R2, R1. unfold baseline_requests.
    cbn [json_of_val]. repeat rewrite <- app_assoc. reflexivity. }
  unfold energy_requests.
  destruct energy as [|z|f|s0];
    [ exists (Returned tt), t6; split; [reflexivity |];
      split; [now rewrite app_nil_r | reflexivity] | | | ].
  all: unfold _entity; destruct (energy_write_entity args) as [target|];
    [| eexists _, t6; split; [reflexivity |];
       split; [now rewrite app_nil_r | discriminate] ].
  all: match goal with
       | |- context [write_request rt b tk ?tg ?v] =>
           destruct (write_request rt b tk tg v) as [q|] eqn:Ew
       end.
  all: try (destruct (issues_set_by_domain _ _ _ Ew t6) as (a7 & t7 & E7 & R7);
            unfold ret at 1; unfold bind at 1; step E7;
            eexists _, t7; split; [reflexivity |];
            split; [rewrite R7, Rbase; now rewrite app_assoc | reflexivity]).
  all: destruct (set_by_domain_unsuited _ _ t6 Ew) as [e Ee];
    unfold ret at 1; unfold bind at 1; stop Ee;
    eexists _, t6; split; [reflexivity |];
    split; [now rewrite app_nil_r | discriminate].
Qed.

End SequenceFacts.

(* ================================================================== *)
(** ** The [init] subcommand *)

(** A number can be written to an entity of any domain. *)
Lemma write_request_number (rt : Runtime) (b tk entity_id : string) (v : PyVal)
      (f : float) :
  float_conv rt v = Returned f ->
  exists q, write_request rt b tk entity_id v = Some q.
Proof.
  intros Hf. unfold write_request. rewrite Hf.
  repeat match goal with
         | |- context [if ?c then _ else _] => destruct c
         end; eexists; reflexivity.
Qed.

Lemma default_energy_write_entity_some (ns : Args) :
  exists target,
    energy_write_entity (default_energy_write_entity ns) = Some target.
Proof.
  unfold default_energy_write_entity.
  destruct (energy_write_entity ns) as [[|c e]|] eqn:E; cbn [PyStr.truthy negb].
  - eexists. reflexivity.
  - exists (String c e). exact E.
  - eexists. reflexivity.
Qed.

(** What [argparse] stores for the [--energy-wh] of [init]. *)
Lemma parse_args_init (rt : Runtime) (w : World) (cl : CommandLine)
      (flag : option string) (ns : Args) (t t' : Trace) :
  sub cl = Init flag ->
  parse_args rt w cl t = (Returned ns, t') ->
  (flag = None -> energy_wh ns = PInt 0)
  /\ (forall raw, flag = Some raw ->
      exists f, float_of_str rt raw = Some f /\ energy_wh ns = PFloat f).
Proof.
  intros Hsub. unfold parse_args. rewrite Hsub.
  unfold energy_wh_default0, arg_float, argparse_error.
  destruct flag as [raw|].
  - destruct (float_of_str rt raw) as [f|] eqn:Ef.
    + unfold bind, ret. intros [= <- _]. split; [discriminate |].
      intros raw' [= <-]. exists f. now split.
    + unfold bind, eprint, emit, raise. discriminate.
  - unfold bind, ret. intros [= <- _]. split; [reflexivity | discriminate].
Qed.

(** C8.  With the connection configured and a server that accepts, [init]
    sends, in this order: lifetime-energy helper to 0, daily-active-seconds
    helper to 0, durations helper to the text "[]", last-processed-date
    helper to the empty text, cycle-start helper to timestamp 0, and the
    status entity to the configured inactive value (through its selector
    service when the entity is an [input_select]); only the energy write
    may follow. *)
Theorem init_resets_every_helper :
  forall (rt : Runtime) (w : World) (args : Args) (b tk : string)
         (status : Request) (t : Trace),
    configured rt args b tk ->
    accepts rt w ->
    write_request rt b tk (status_entity args) (PStr (inactive_state args))
    = Some status ->
    requests_of (snd (cmd_init rt w args t))
    = (requests_of t
       ++ [ service_call b tk "input_number" "set_value"
              [("entity_id", JStr (lifetime_helper args)); ("value", JInt 0)];
            service_call b tk "input_number" "set_value"
              [("entity_id", JStr (daily_active_helper args)); ("value", JInt 0)];
            service_call b tk "input_text" "set_value"
              [("entity_id", JStr (durations_helper args)); ("value", JStr "[]")];
            service_call b tk "input_text" "set_value"
              [("entity_id", JStr (last_processed_helper args)); ("value", JStr "")];
            service_call b tk "input_datetime" "set_datetime"
              [("entity_id", JStr (cycle_start_helper args)); ("timestamp", JInt 0)];
            status ]
       ++ energy_requests rt b tk args (energy_wh args))%list
    /\ (_domain (status_entity args) = "input_select" ->
        status = service_call b tk "input_select" "select_option"
                   [("entity_id", JStr (status_entity args));
                    ("option", JStr (inactive_state args))]).
Proof.
  intros rt w args b tk status t Hcfg Hacc Hst. split.
  - destruct (init_helpers_requests rt w args b tk Hcfg Hacc status
                (energy_wh args) t Hst) as (r & t' & E & R & _).
    fold (baseline_requests b tk args status). rewrite <- R.
    unfold cmd_init, bind. rewrite E.
    destruct r as [[]|e]; cbn [snd]; [| reflexivity].
    unfold print, emit. cbn [snd]. rewrite requests_of_app. cbn [requests_of].
    now rewrite app_nil_r.
  - intros Hdom. revert Hst. unfold write_request.
    fold (_domain (status_entity args)). rewrite Hdom.
    cbn [String.eqb Ascii.eqb Bool.eqb].
    intros [= <-]. reflexivity.
Qed.

Lemma init_resets_every_helper_witness :
  requests_of (snd (cmd_init Demo.rt Demo.world
                             (Demo.args_of (PInt 0) None None false) []))
  = [ service_call Demo.base Demo.tok "input_number" "set_value"
        [("entity_id", JStr "input_number.test_lifetime_energy");
         ("value", JInt 0)];
      service_call Demo.base Demo.tok "input_number" "set_value"
        [("entity_id", JStr "input_number.test_daily_active_seconds");
         ("value", JInt 0)];
      service_call Demo.base Demo.tok "input_text" "set_value"
        [("entity_id", JStr "input_text.test_cycle_durations");
         ("value", JStr "[]")];
      service_call Demo.base Demo.tok "input_text" "set_value"
        [("entity_id", JStr "input_text.test_last_processed_date");
         ("value", JStr "")];
      service_call Demo.base Demo.tok "input_datetime" "set_datetime"
        [("entity_id", JStr "input_datetime.test_cycle_start");
         ("timestamp", JInt 0)];
      service_call Demo.base Demo.tok "input_select" "select_option"
        [("entity_id", JStr "input_select.test_status");
         ("option", JStr "off")];
      state_overwrite Demo.base Demo.tok "sensor.test_energy_yesterday" "0" ].
Proof.
  refine (proj1 (init_resets_every_helper Demo.rt Demo.world
                   (Demo.args_of (PInt 0) None None false)
                   Demo.base Demo.tok _ [] _ _ _)).
  - configured_by_computation.
  - intros history req. exists "[]". split; [reflexivity |].
    right. eexists. reflexivity.
  - reflexivity.
Defined.

(** C1, amended.  [init] always ends with exactly one write to the energy
    write target, issued after the six resets: of the default 0 when no
    energy value is supplied, of the supplied number otherwise (750 for
    [--energy-wh 750]). *)
Theorem init_writes_energy_once :
  forall (rt : Runtime) (w : World) (cl : CommandLine) (flag : option string)
         (ns : Args) (b tk : string) (status : Request),
    sub cl = Init flag ->
    parse_args rt w cl [] = (Returned ns, []) ->
    let args := default_energy_write_entity ns in
    configured rt args b tk ->
    accepts rt w ->
    write_request rt b tk (status_entity args) (PStr (inactive_state args))
    = Some status ->
    exists target q,
      energy_write_entity args = Some target
      /\ (flag = None -> energy_wh args = PInt 0)
      /\ (forall raw, flag = Some raw ->
          exists f, float_of_str rt raw = Some f /\ energy_wh args = PFloat f)
      /\ write_request rt b tk target (energy_wh args) = Some q
      /\ fst (run rt w cl) = 0%Z
      /\ requests_of (snd (run rt w cl))
         = (baseline_requests b tk args status ++ [q])%list.
Proof.
  intros rt w cl flag ns b tk status Hsub Hparse args Hcfg Hacc Hst.
  destruct (default_energy_write_entity_some ns) as [target Htarget].
  fold args in Htarget.
  destruct (parse_args_init rt w cl flag ns [] [] Hsub Hparse) as [Hnone Hsome].
  assert (Hwh : energy_wh args = energy_wh ns).
  { unfold args, default_energy_write_entity.
    destruct (negb _); reflexivity. }
  assert (Hnum : exists f, float_conv rt (energy_wh args) = Returned f
                           /\ energy_wh args <> PNone).
  { rewrite Hwh. destruct flag as [raw|].
    - destruct (Hsome raw eq_refl) as (f & _ & ->).
      exists f. split; [reflexivity | discriminate].
    - rewrite (Hnone eq_refl). eexists. split; [reflexivity | discriminate]. }
  destruct Hnum as (f & Hf & Hnn).
  destruct (write_request_number rt b tk target _ f Hf) as [q Hq].
  exists target, q.
  split; [exact Htarget |].
  split; [intros H; rewrite Hwh; now apply Hnone |].
  split; [intros raw H; rewrite Hwh; now apply Hsome |].
  split; [exact Hq |].
  assert (Hen : energy_requests rt b tk args (energy_wh args) = [q]).
  { unfold energy_requests. rewrite Htarget, Hq.
    destruct (energy_wh args); [congruence | reflexivity ..]. }
  destruct (init_helpers_requests rt w args b tk Hcfg Hacc status
              (energy_wh args) [] Hst) as (r & t' & E & R & Hr).
  rewrite Hen in R. specialize (Hr q Hen). subst r.
  unfold run, main. step Hparse. fold args.
  rewrite Hsub. cbn [func]. unfold except_RuntimeError, cmd_init.
  step E. unfold print, emit. cbn [fst snd].
  split; [reflexivity |].
  rewrite requests_of_app, R. cbn [requests_of]. now rewrite app_nil_r.
Qed.

Lemma init_writes_energy_once_witness :
  exists ns target q,
    parse_args Demo.rt Demo.world (Demo.cli (Init (Some "750"))) []
    = (Returned ns, [])
    /\ energy_write_entity (default_energy_write_entity ns) = Some target
    /\ energy_wh (default_energy_write_entity ns) = PFloat 750%float
    /\ write_request Demo.rt Demo.base Demo.tok target (PFloat 750%float) = Some q
    /\ q = state_overwrite Demo.base Demo.tok "sensor.test_energy_yesterday" "750.0"
    /\ fst (run Demo.rt Demo.world (Demo.cli (Init (Some "750")))) = 0%Z
    /\ exists status,
        requests_of (snd (run Demo.rt Demo.world (Demo.cli (Init (Some "750")))))
        = (baseline_requests Demo.base Demo.tok
             (default_energy_write_entity ns) status ++ [q])%list.
Proof.
  pose (ns := match parse_args Demo.rt Demo.world
                      (Demo.cli (Init (Some "750"))) [] with
              | (Returned ns, _) => ns
              | _ => Demo.args_of PNone None None false
              end).
  assert (Hcfg : configured Demo.rt (default_energy_write_entity ns) Demo.base Demo.tok).
  { configured_by_computation. }
  assert (Hacc : accepts Demo.rt Demo.world).
  { intros history req. exists "[]". split; [reflexivity |].
    right. eexists. reflexivity. }
  destruct (init_writes_energy_once Demo.rt Demo.world
              (Demo.cli (Init (Some "750"))) (Some "750") ns
              Demo.base Demo.tok _ eq_refl eq_refl Hcfg Hacc eq_refl)
    as (target & q & Htarget & _ & Hsome & Hq & Hcode & Hreqs).
  exists ns, target, q.
  split; [reflexivity |].
  split; [exact Htarget |].
  split; [reflexivity |].
  split; [exact Hq |].
  split.
  - injection Htarget as <-. injection Hq as <-. reflexivity.
  - split; [exact Hcode |]. eexists. exact Hreqs.
Defined.

(** C1 as stated fails: [init] without an energy value ends with a write of
    0 to the energy write target. *)
Lemma init_without_energy_writes_zero :
  fst (run Demo.rt Demo.world (Demo.cli (Init None))) = 0%Z
  /\ nth_error (requests_of (snd (run Demo.rt Demo.world (Demo.cli (Init None)))))
               6
     = Some (state_overwrite Demo.base Demo.tok
                             "sensor.test_energy_yesterday" "0").
Proof. split; reflexivity. Qed.

(* ================================================================== *)
(** ** Date arithmetic *)

Local Open Scope Z_scope.

Lemma dt_days_bounds (x lo hi : Z) :
  (lo * Dt.US_PER_DAY <= x < (hi + 1) * Dt.US_PER_DAY)%Z ->
  (lo <= Dt.days x <= hi)%Z.
Proof.
  unfold Dt.days, Dt.US_PER_DAY, Dt.US_PER_SECOND. intros H.
  Z.div_mod_to_equations. lia.
Qed.

Lemma dt_to_us_bounds (dt : datetime) :
  Dt.valid dt ->
  (ordinal dt * Dt.US_PER_DAY <= Dt.to_us dt
   < (ordinal dt + 1) * Dt.US_PER_DAY)%Z.
Proof.
  unfold Dt.valid, Dt.to_us, Dt.US_PER_DAY, Dt.US_PER_SECOND. lia.
Qed.

Lemma timedelta_new_in_range (us : Z) (t : Trace) :
  (- Dt.MAX_DELTA_DAYS * Dt.US_PER_DAY <= us
   < (Dt.MAX_DELTA_DAYS + 1) * Dt.US_PER_DAY)%Z ->
  timedelta_new us t = (Returned us, t).
Proof.
  intros H. unfold timedelta_new, Dt.in_range.
  destruct (dt_days_bounds us (- Dt.MAX_DELTA_DAYS) Dt.MAX_DELTA_DAYS H)
    as [Hlo Hhi].
  apply Z.leb_le in Hlo, Hhi. now rewrite Hlo, Hhi.
Qed.

(** Splitting a count of microseconds into date and time fields and
    putting it together again changes nothing. *)
Lemma split_fields_to_us (x : Z) (tz : option Z) (fd : bool) :
  let rem := (Dt.seconds x mod 3600)%Z in
  let dt := {| ordinal := Dt.days x;
               hour := (Dt.seconds x / 3600)%Z;
               minute := (rem / 60)%Z;
               second := (rem mod 60)%Z;
               microsecond := Dt.microseconds x;
               tzoffset := tz; fold := fd |} in
  Dt.to_us dt = x
  /\ (0 <= hour dt < 24 /\ 0 <= minute dt < 60 /\ 0 <= second dt < 60
      /\ 0 <= microsecond dt < Dt.US_PER_SECOND)%Z.
Proof.
  cbv zeta.
  unfold Dt.to_us, Dt.days, Dt.seconds, Dt.microseconds, Dt.US_PER_DAY,
    Dt.US_PER_SECOND.
  cbn [ordinal hour minute second microsecond].
  Z.div_mod_to_equations. lia.
Qed.

(** Subtracting a duration that keeps the date in range yields the
    [datetime] that many microseconds earlier. *)
Lemma datetime_sub_in_range (dt : datetime) (td : timedelta) (t : Trace) :
  Dt.valid dt ->
  (Dt.US_PER_DAY <= Dt.to_us dt - td < (Dt.MAXORDINAL + 1) * Dt.US_PER_DAY)%Z ->
  exists start,
    datetime_sub dt td t = (Returned start, t)
    /\ Dt.to_us start = (Dt.to_us dt - td)%Z
    /\ Dt.valid start
    /\ tzoffset start = tzoffset dt.
Proof.
  intros Hvalid Hrange.
  pose proof (dt_to_us_bounds dt Hvalid) as Hus.
  assert (Hord : (1 <= ordinal dt <= Dt.MAXORDINAL)%Z) by apply Hvalid.
  unfold datetime_sub.
  assert (E1 : timedelta_new (- td) t = (Returned (- td)%Z, t)).
  { apply timedelta_new_in_range.
    unfold Dt.MAX_DELTA_DAYS, Dt.MAXORDINAL, Dt.US_PER_DAY, Dt.US_PER_SECOND in *.
    lia. }
  step E1.
  assert (E2 : timedelta_new (Dt.to_us dt + - td) t
               = (Returned (Dt.to_us dt + - td)%Z, t)).
  { apply timedelta_new_in_range.
    unfold Dt.MAX_DELTA_DAYS, Dt.MAXORDINAL, Dt.US_PER_DAY, Dt.US_PER_SECOND in *.
    lia. }
  step E2.
  replace (Dt.to_us dt + - td)%Z with (Dt.to_us dt - td)%Z by lia.
  set (x := (Dt.to_us dt - td)%Z) in *.
  destruct (dt_days_bounds x 1 Dt.MAXORDINAL) as [Hlo Hhi].
  { unfold Dt.MAXORDINAL, Dt.US_PER_DAY, Dt.US_PER_SECOND in *. lia. }
  assert (Hpos : (0 <? Dt.days x)%Z = true) by (apply Z.ltb_lt; lia).
  apply Z.leb_le in Hhi as Hle. rewrite Hpos, Hle. cbn [andb].
  destruct (split_fields_to_us x (tzoffset dt) false) as [Hto Hfields].
  cbv zeta in Hto, Hfields.
  eexists. split; [reflexivity |].
  split; [exact Hto |].
  split; [| reflexivity].
  unfold Dt.valid. cbn [ordinal]. split; [lia | exact Hfields].
Qed.

(** Ten minutes before midnight is 23:50:00 of the previous day. *)
Lemma midnight_minus_ten_minutes (now : datetime) (t : Trace) :
  (1 < ordinal now <= Dt.MAXORDINAL)%Z ->
  timedelta_minutes 10 t = (Returned 600000000%Z, t)
  /\ datetime_sub (_local_midnight now) 600000000 t
     = (Returned {| ordinal := ordinal now - 1; hour := 23; minute := 50;
                    second := 0; microsecond := 0;
                    tzoffset := tzoffset now; fold := false |}, t).
Proof.
  intros Hord. split; [reflexivity |].
  assert (Hvalid : Dt.valid (_local_midnight now)).
  { unfold Dt.valid, _local_midnight, Dt.replace_time, Dt.US_PER_SECOND.
    cbn [ordinal hour minute second microsecond]. lia. }
  assert (Hus : Dt.to_us (_local_midnight now)
                = (ordinal now * Dt.US_PER_DAY)%Z).
  { unfold Dt.to_us, _local_midnight, Dt.replace_time.
    cbn [ordinal hour minute second microsecond]. lia. }
  destruct (datetime_sub_in_range (_local_midnight now) 600000000 t Hvalid)
    as (start & E & _ & _ & _).
  { rewrite Hus. unfold Dt.MAXORDINAL, Dt.US_PER_DAY, Dt.US_PER_SECOND in *.
    lia. }
  rewrite E. f_equal. f_equal.
  revert E. unfold datetime_sub.
  rewrite (bind_returned _ _ _ _ _
             (timedelta_new_in_range (- 600000000) t ltac:(vm_compute; split; congruence))).
  replace (Dt.to_us (_local_midnight now) + - 600000000)%Z
    with (ordinal now * Dt.US_PER_DAY - 600000000)%Z by lia.
  set (x := (ordinal now * Dt.US_PER_DAY - 600000000)%Z).
  assert (Ex : timedelta_new x t = (Returned x, t)).
  { apply timedelta_new_in_range. subst x.
    unfold Dt.MAX_DELTA_DAYS, Dt.MAXORDINAL, Dt.US_PER_DAY, Dt.US_PER_SECOND in *.
    lia. }
  step Ex.
  assert (Hd : Dt.days x = (ordinal now - 1)%Z).
  { subst x. unfold Dt.days, Dt.US_PER_DAY, Dt.US_PER_SECOND.
    Z.div_mod_to_equations. lia. }
  assert (Hs : Dt.seconds x = 85800%Z).
  { subst x. unfold Dt.seconds, Dt.US_PER_DAY, Dt.US_PER_SECOND.
    Z.div_mod_to_equations. lia. }
  assert (Hm : Dt.microseconds x = 0%Z).
  { subst x. unfold Dt.microseconds, Dt.US_PER_DAY, Dt.US_PER_SECOND.
    Z.div_mod_to_equations. lia. }
  rewrite Hd, Hs, Hm.
  assert (Hpos : (0 <? ordinal now - 1)%Z = true) by (apply Z.ltb_lt; lia).
  assert (Hle : (ordinal now - 1 <=? Dt.MAXORDINAL)%Z = true)
    by (apply Z.leb_le; lia).
  rewrite Hpos, Hle. cbn [andb].
  intros [= <-]. reflexivity.
Qed.

(* ================================================================== *)
(** ** Binary64 arithmetic of [datetime.timestamp] *)

(** The model against the primitive floats of the kernel, and against
    CPython on times where an exact sum and the binary64 sum differ. *)
Example timestamp_sum_agrees_with_primitive_floats :
  Prim2SF (19880899200 + 999999 / 1000000)%float
  = SFadd prec emax (binary_normalize prec emax 19880899200 0 false)
      (SFdiv prec emax (binary_normalize prec emax 999999 0 false) b64_1e6)
  /\ Prim2SF (-17987443200 + 1 / 1000000)%float
     = SFadd prec emax (binary_normalize prec emax (-17987443200) 0 false)
         (SFdiv prec emax (binary_normalize prec emax 1 0 false) b64_1e6)
  /\ Prim2SF (1710077415 + 250000 / 1000000)%float
     = SFadd prec emax (binary_normalize prec emax 1710077415 0 false)
         (SFdiv prec emax (binary_normalize prec emax 250000 0 false) b64_1e6).
Proof. vm_compute. repeat split. Qed.

(** 2600-01-01 00:00:00.999999 and 1400-01-01 00:00:00.000001, local time
    being UTC: the sum rounds up to the next second in the first case and
    down to the second itself in the other. *)
Example timestamp_rounds_as_binary64 :
  _timestamp Demo.rt
    {| ordinal := Demo.ymd2ord 2600 1 1; hour := 0; minute := 0; second := 0;
       microsecond := 999999; tzoffset := None; fold := false |} []
  = (Returned 19880899201, [])
  /\ _timestamp Demo.rt
       {| ordinal := Demo.ymd2ord 1400 1 1; hour := 0; minute := 0; second := 0;
          microsecond := 1; tzoffset := None; fold := false |} []
     = (Returned (-17987443200), [])
  /\ _timestamp Demo.rt
       {| ordinal := Dt.EPOCH_ORDINAL - 1; hour := 23; minute := 59;
          second := 59; microsecond := 500000; tzoffset := None;
          fold := false |} []
     = (Returned 0, []).
Proof. vm_compute. repeat split. Qed.

(** An aware time: the quotient of two [int]s is rounded once.
    [76982702851.241020] seconds after the epoch, at UTC. *)
Example total_seconds_is_rounded_once :
  int_truediv 76982702851241020 1000000
  = Returned (S754_finite false 5045138414058931 (-16))
  /\ int_truediv (-62135596800000001) 1000000
     = Returned (S754_finite true 8144236943769600 (-17))
  /\ int_truediv 0 1000000 = Returned (S754_zero false).
Proof. vm_compute. repeat split. Qed.

Lemma digits2_size (m : positive) : digits2_pos m = Pos.size m.
Proof. induction m; simpl; congruence. Qed.

Lemma digits_iter_xO (m k : positive) :
  digits2_pos (Pos.iter xO m k) = (digits2_pos m + k)%positive.
Proof.
  revert m. induction k using Pos.peano_ind; intros m.
  - simpl. lia.
  - rewrite Pos.iter_succ. simpl. rewrite IHk. lia.
Qed.

Lemma iter_xO_val (m k : positive) :
  Z.pos (Pos.iter xO m k) = Z.pos m * 2 ^ Z.pos k.
Proof.
  revert m. induction k using Pos.peano_ind; intros m.
  - simpl. lia.
  - rewrite Pos.iter_succ, Pos2Z.inj_xO, IHk.
    rewrite Pos2Z.inj_succ, Z.pow_succ_r by lia. lia.
Qed.

(** A number below [2^53] has at most 53 binary digits. *)
Lemma digits_below_2p53 (m : positive) :
  Z.pos m < 2 ^ 53 -> Z.pos (digits2_pos m) <= 53.
Proof.
  intros Hm. rewrite digits2_size.
  pose proof (Pos.size_le m) as Hle.
  apply Pos2Z.pos_le_pos in Hle.
  rewrite Pos2Z.inj_pow in Hle.
  change (Z.pos m~0) with (2 * Z.pos m) in Hle.
  assert (H : 2 ^ Z.pos (Pos.size m) < 2 ^ 54).
  { change (2 ^ 54) with (2 * 2 ^ 53). lia. }
  apply Z.pow_lt_mono_r_iff in H; lia.
Qed.

(** Rounding a number of at most 53 digits changes nothing: the
    mantissa is the number shifted to 53 digits. *)
Lemma binary_round_exact (sx : bool) (m : positive) :
  Z.pos (digits2_pos m) <= 53 ->
  exists mz ez,
    binary_round prec emax sx m 0 = S754_finite sx mz ez
    /\ ez <= 0 /\ Z.pos mz = Z.pos m * 2 ^ (- ez).
Proof.
  intros Hd. unfold binary_round, shl_align.
  set (d := Z.pos (digits2_pos m)) in *.
  assert (Hf : fexp prec emax (d + 0) = d - 53).
  { unfold fexp, emin, prec, emax. lia. }
  rewrite Hf.
  destruct (d - 53 - 0) eqn:E; try lia.
  - exists m, 0. split; [| split; [lia | simpl; lia]].
    unfold binary_round_aux, shr_fexp, shr. cbn [Zdigits2 shr_record_of_loc].
    fold d. replace (fexp prec emax (d + 0) - 0) with 0 by (rewrite Hf; lia).
    cbn [shr_m loc_of_shr_record round_nearest_even Zdigits2].
    fold d. replace (fexp prec emax (d + 0) - 0) with 0 by (rewrite Hf; lia).
    cbn [shr_m]. reflexivity.
  - exists (Pos.iter xO m p), (d - 53).
    assert (Hp : Z.pos p = 53 - d) by lia.
    split; [| split; [lia | rewrite iter_xO_val; f_equal; f_equal; lia]].
    unfold binary_round_aux, shr_fexp, shr. cbn [Zdigits2 shr_record_of_loc].
    rewrite digits_iter_xO, Pos2Z.inj_add. fold d.
    assert (Hz : fexp prec emax (d + Z.pos p + (d - 53)) - (d - 53) = 0).
    { unfold fexp, emin, prec, emax. lia. }
    rewrite Hz.
    cbn [shr_m loc_of_shr_record round_nearest_even Zdigits2].
    rewrite digits_iter_xO, Pos2Z.inj_add. fold d. rewrite Hz.
    cbn [shr_m].
    assert (Hle : (d - 53 <=? emax - prec) = true).
    { apply Z.leb_le. unfold emax, prec. lia. }
    now rewrite Hle.
Qed.

(** An [int] below [2^53] in magnitude is a binary64: [float] keeps it,
    adding [0.0] keeps it, and [int] gives it back. *)
Lemma float_of_small_int (s : Z) :
  Z.abs s < 2 ^ 53 ->
  exists f,
    b64_of_int s = Returned f
    /\ SFadd prec emax f (S754_zero false) = f
    /\ py_int f = Returned s.
Proof.
  intros Hs. unfold b64_of_int, binary_normalize.
  destruct s as [|m|m].
  - exists (S754_zero false). repeat split.
  - destruct (binary_round_exact false m) as (mz & ez & E & Hez & Hmz).
    { apply digits_below_2p53. lia. }
    rewrite E. exists (S754_finite false mz ez). repeat split.
    unfold py_int, cond_Zopp. f_equal.
    destruct (Z.leb_spec 0 ez).
    + replace ez with 0 in * by lia. cbn in Hmz. lia.
    + rewrite Hmz. apply Z.div_mul. apply Z.pow_nonzero; lia.
  - destruct (binary_round_exact true m) as (mz & ez & E & Hez & Hmz).
    { apply digits_below_2p53. lia. }
    rewrite E. exists (S754_finite true mz ez). repeat split.
    unfold py_int, cond_Zopp. f_equal.
    destruct (Z.leb_spec 0 ez).
    + replace ez with 0 in * by lia. cbn in Hmz. lia.
    + rewrite Hmz, Z.div_mul; [lia | apply Z.pow_nonzero; lia].
Qed.

(** [int(dt.timestamp())] of a naive time that falls on a whole second is
    the count of seconds [_mktime()] gives: the sum with [0 / 1e6] is
    exact. *)
Lemma timestamp_on_the_second (rt : Runtime) (dt : datetime) (s : Z)
      (t : Trace) :
  tzoffset dt = None ->
  microsecond dt = 0 ->
  mktime rt dt = Some s ->
  _timestamp rt dt t = (Returned s, t).
Proof.
  intros Htz Hus Hmk.
  pose proof (mktime_range rt dt s Hmk) as Hb.
  destruct (float_of_small_int s) as (f & Ef & Eadd & Eint).
  { unfold Dt.MAX_MKTIME, Dt.MAXORDINAL in Hb. lia. }
  unfold _timestamp, timestamp, bind, lift.
  rewrite Htz, Hmk, Hus.
  change (int_over_1e6 0) with (Returned (S754_zero false)).
  unfold int_plus_float. rewrite Ef, Eadd, Eint. reflexivity.
Qed.

(** [_timestamp] neither reads nor changes the trace. *)
Lemma timestamp_any_trace (rt : Runtime) (dt : datetime) (t : Trace) :
  _timestamp rt dt t = (fst (_timestamp rt dt []), t).
Proof.
  unfold _timestamp, timestamp, bind, lift, raise.
  destruct (tzoffset dt).
  - destruct (int_truediv _ _); reflexivity.
  - destruct (mktime rt dt); [| reflexivity].
    destruct (int_over_1e6 _); [| reflexivity].
    destruct (int_plus_float _ _); reflexivity.
Qed.

(** [_timestamp] fails with an error of arithmetic or of the conversion,
    never with an exit or a [RuntimeError]. *)
Lemma b64_of_int_failure (n : Z) (e : Exn) :
  b64_of_int n = Raised e -> conversion_failure e.
Proof.
  unfold b64_of_int. destruct (binary_normalize _ _ _ _ _);
    try discriminate. now intros [= <-].
Qed.

Lemma py_int_failure (x : spec_float) (e : Exn) :
  py_int x = Raised e -> conversion_failure e.
Proof. destruct x; cbn; try discriminate; now intros [= <-]. Qed.

Lemma timestamp_failure (rt : Runtime) (dt : datetime) (e : Exn) :
  fst (_timestamp rt dt []) = Raised e -> conversion_failure e.
Proof.
  unfold _timestamp, timestamp, bind, lift, raise.
  destruct (tzoffset dt).
  - destruct (int_truediv _ _) as [f|e0] eqn:E; cbn [fst].
    + apply py_int_failure.
    + intros [= <-]. revert E. unfold int_truediv.
      destruct (_ =? _); [now intros [= <-] |].
      destruct (SFdiv _ _ _ _); try discriminate. now intros [= <-].
  - destruct (mktime rt dt); cbn [fst].
    + destruct (int_over_1e6 _) as [frac|e0] eqn:E; cbn [fst].
      * destruct (int_plus_float _ _) as [f|e1] eqn:E1; cbn [fst].
        -- apply py_int_failure.
        -- intros [= <-]. revert E1. unfold int_plus_float.
           destruct (b64_of_int z) eqn:Ez; [discriminate |].
           intros [= <-]. exact (b64_of_int_failure _ _ Ez).
      * intros [= <-]. revert E. unfold int_over_1e6.
        destruct (b64_of_int _) eqn:Ez; [discriminate |].
        intros [= <-]. exact (b64_of_int_failure _ _ Ez).
    + intros [= <-]. now destruct (mktime_error rt dt).
Qed.

Lemma conversion_failure_early (e : Exn) :
  conversion_failure e -> early_failure e.
Proof. destruct e; cbn; auto; contradiction. Qed.

Lemma conversion_failure_no_exit (e : Exn) (code : Z) :
  conversion_failure e -> e <> SystemExit code.
Proof. destruct e; cbn; try discriminate; contradiction. Qed.

(** A time the platform cannot convert raises what [_mktime()] raises. *)
Lemma timestamp_unconvertible (rt : Runtime) (dt : datetime) (t : Trace) :
  tzoffset dt = None ->
  mktime rt dt = None ->
  _timestamp rt dt t = (Raised (mktime_exn (mktime_error rt dt)), t).
Proof.
  intros Htz Hmk. unfold _timestamp, timestamp, bind, raise.
  now rewrite Htz, Hmk.
Qed.

(* ================================================================== *)
(** ** Computations only add to the trace *)

Lemma extends_ret {A} (a : A) : extends (ret a).
Proof. intros t. exists []. cbn. now rewrite app_nil_r. Qed.

Lemma extends_raise {A} (e : Exn) : extends (@raise A e).
Proof. intros t. exists []. cbn. now rewrite app_nil_r. Qed.

Lemma extends_lift {A} (r : Result A) : extends (lift r).
Proof. intros t. exists []. cbn. now rewrite app_nil_r. Qed.

Lemma extends_emit (ev : Event) : extends (emit ev).
Proof. intros t. exists [ev]. reflexivity. Qed.

Lemma extends_bind {A B} (m : M A) (k : A -> M B) :
  extends m -> (forall a, extends (k a)) -> extends (bind m k).
Proof.
  intros Hm Hk t. destruct (Hm t) as [e1 H1]. unfold bind.
  destruct (m t) as [[a|e] t1]; cbn [snd] in *; subst t1.
  - destruct (Hk a (t ++ e1)%list) as [e2 H2]. exists (e1 ++ e2)%list.
    now rewrite H2, app_assoc.
  - now exists e1.
Qed.

Ltac extends_tac :=
  repeat first
    [ apply extends_ret | apply extends_raise | apply extends_lift
    | apply extends_emit
    | apply extends_bind; [| intros ?]
    | match goal with
      | |- extends (match ?x with _ => _ end) => destruct x
      | |- extends (if ?c then _ else _) => destruct c
      end ].

Section ExtendsFacts.

Variable rt : Runtime.
Variable w : World.

Lemma extends_request (args : Args) (method path : string)
      (payload : option dict) :
  extends (_request rt w args method path payload).
Proof.
  unfold _request, _base_url, _token, _require, Request_new, do_urlopen,
    eprint.
  apply extends_bind; [extends_tac |]. intros base.
  apply extends_bind; [extends_tac |]. intros req.
  apply extends_bind; [extends_tac |]. intros tk.
  apply extends_bind.
  - intros t. exists [EvHttp (add_header (add_header req "Authorization" ("Bearer " ++ tk)) "Content-Type" "application/json")
                        (urlopen w (requests_of t) (add_header (add_header req "Authorization" ("Bearer " ++ tk)) "Content-Type" "application/json"))].
    reflexivity.
  - intros resp. extends_tac.
Qed.

Lemma extends_set_by_domain (args : Args) (entity_id : string) (v : PyVal) :
  extends (_set_by_domain rt w args entity_id v).
Proof.
  unfold _set_by_domain, _set_input_number, _set_input_text,
    _set_input_select, _set_input_boolean, _set_state, _call_service,
    py_float.
  repeat match goal with
         | |- extends (if ?c then _ else _) => destruct c
         end;
    try (apply extends_bind; [apply extends_lift | intros ?]);
    apply extends_request.
Qed.

End ExtendsFacts.

(* ================================================================== *)
(** ** The [split] subcommand *)

(** C5.  [split] without [--start-iso], with the connection configured:
    the start is the local midnight of the invocation day minus ten
    minutes, which is 23:50:00 of the day before; its integer
    epoch-seconds value is what the first request, the date-time-set call
    for the cycle-start helper, carries. *)
Theorem split_default_start_is_ten_minutes_before_midnight :
  forall (rt : Runtime) (w : World) (args : Args) (b tk : string) (s : Z)
         (t : Trace),
    configured rt args b tk ->
    PyStr.truthy (start_iso args) = false ->
    tzoffset (clock w) = None ->
    1 < ordinal (clock w) <= Dt.MAXORDINAL ->
    let start := {| ordinal := ordinal (clock w) - 1; hour := 23;
                    minute := 50; second := 0; microsecond := 0;
                    tzoffset := None; fold := false |} in
    mktime rt start = Some s ->
    datetime_sub (_local_midnight (clock w)) (10 * 60 * Dt.US_PER_SECOND) t
    = (Returned start, t)
    /\ Dt.to_us start
       = Dt.to_us (_local_midnight (clock w)) - 10 * 60 * Dt.US_PER_SECOND
    /\ _timestamp rt start t = (Returned s, t)
    /\ exists resp rest,
        snd (cmd_split rt w args t)
        = (t ++ EvHttp (service_call b tk "input_datetime" "set_datetime"
                          [("entity_id", JStr (cycle_start_helper args));
                           ("timestamp", JInt s)]) resp :: rest)%list.
Proof.
  intros rt w args b tk s t Hcfg Hiso Htz Hord start Hmk.
  destruct (midnight_minus_ten_minutes (clock w) t Hord) as [Etd Esub].
  rewrite Htz in Esub. fold start in Esub.
  assert (Ets : _timestamp rt start t = (Returned s, t)).
  { apply timestamp_on_the_second; [reflexivity | reflexivity | exact Hmk]. }
  split; [exact Esub |].
  split.
  { unfold Dt.to_us, _local_midnight, Dt.replace_time, start, Dt.US_PER_DAY,
      Dt.US_PER_SECOND. cbn [ordinal hour minute second microsecond]. lia. }
  split; [exact Ets |].
  assert (Estart :
            (match start_iso args with
             | Some (String _ _ as v) => _parse_start_iso rt v
             | _ => bind (timedelta_minutes 10)
                      (fun td => datetime_sub (_local_midnight (clock w)) td)
             end) t = (Returned start, t)).
  { destruct (start_iso args) as [[|c v]|]; try discriminate Hiso;
      step Etd; exact Esub. }
  unfold cmd_split. step Estart. step Ets.
  unfold _call_service.
  unfold bind at 1.
  rewrite (request_configured rt w _ _ _ _ _ _ t Hcfg).
  fold (service_call b tk "input_datetime" "set_datetime"
          [("entity_id", JStr (cycle_start_helper args)); ("timestamp", JInt s)]).
  set (req := service_call _ _ _ _ _).
  set (resp := urlopen w (requests_of t) req).
  exists resp.
  destruct (response_result rt _ _ resp) as [j|e]; cbn [snd].
  - match goal with
    | |- context [snd (?k ?t1)] =>
        assert (Hext : extends k)
    end.
    { apply extends_bind; [apply extends_set_by_domain | intros ?].
      apply extends_bind; [unfold _entity; extends_tac | intros ?].
      apply extends_bind; [apply extends_set_by_domain | intros ?].
      apply extends_emit. }
    destruct (Hext (t ++ [EvHttp req resp])%list) as [ext Hx].
    exists ext. rewrite Hx. now rewrite <- app_assoc.
  - exists []. reflexivity.
Qed.

Lemma split_default_start_is_ten_minutes_before_midnight_witness :
  _timestamp Demo.rt
    {| ordinal := ordinal (clock Demo.world) - 1; hour := 23; minute := 50;
       second := 0; microsecond := 0; tzoffset := None; fold := false |} []
  = (Returned 1710028200, [])
  /\ exists resp rest,
      snd (cmd_split Demo.rt Demo.world
                     (Demo.args_of (PFloat 900%float) None None false) [])
      = ([] ++ EvHttp (service_call Demo.base Demo.tok
                         "input_datetime" "set_datetime"
                         [("entity_id", JStr "input_datetime.test_cycle_start");
                          ("timestamp", JInt 1710028200)]) resp :: rest)%list.
Proof.
  refine (proj2 (proj2 (split_default_start_is_ten_minutes_before_midnight
                          Demo.rt Demo.world
                          (Demo.args_of (PFloat 900%float) None None false)
                          Demo.base Demo.tok 1710028200 [] _ _ _ _ _))).
  - configured_by_computation.
  - reflexivity.
  - reflexivity.
  - vm_compute. split; [reflexivity | discriminate].
  - reflexivity.
Defined.

(* ================================================================== *)
(** ** The [end] subcommand *)



(** At 2600-01-01 01:00:00.999999 the start is 00:00:00.999999, which is
    19880899200.999999 seconds after the epoch; the nearest binary64 is
    19880899201, and that is what is sent. *)
Example end_sends_the_binary64_seconds :
  requests_of
    (snd (cmd_end Demo.rt
            (with_clock Demo.world
               {| ordinal := Demo.ymd2ord 2600 1 1; hour := 1; minute := 0;
                  second := 0; microsecond := 999999; tzoffset := None;
                  fold := false |})
            (Demo.args_of PNone (Some 3600) None false) []))
  = [ service_call Demo.base Demo.tok "input_datetime" "set_datetime"
        [("entity_id", JStr "input_datetime.test_cycle_start");
         ("timestamp", JInt 19880899201)];
      service_call Demo.base Demo.tok "input_select" "select_option"
        [("entity_id", JStr "input_select.test_status");
         ("option", JStr "off")] ].
Proof. vm_compute. reflexivity. Qed.

(* ================================================================== *)
(** ** An unparseable [--start-iso] *)

Lemma default_energy_write_entity_keeps (ns : Args) :
  let args := default_energy_write_entity ns in
  base_url args = base_url ns /\ token args = token ns
  /\ start_iso args = start_iso ns /\ init args = init ns
  /\ duration_sec args = duration_sec ns /\ energy_wh args = energy_wh ns.
Proof.
  unfold default_energy_write_entity.
  destruct (negb _); repeat split.
Qed.

(** What [argparse] stores for [--start-iso] and [--init]. *)
Lemma parse_args_start_iso (rt : Runtime) (w : World) (cl : CommandLine)
      (ns : Args) (t t' : Trace) :
  parse_args rt w cl t = (Returned ns, t') ->
  (forall e iso, sub cl = Split e iso -> start_iso ns = iso)
  /\ (forall e d iso i, sub cl = Scenario e d iso i ->
      start_iso ns = iso /\ init ns = i).
Proof.
  unfold parse_args.
  destruct (sub cl) as [e| |d|e|e iso|e d iso i|];
    intros H; (split; [intros e' iso' | intros e' d' iso' i']);
    try discriminate.
  - intros [= _ <-]. revert H.
    unfold energy_wh_required, energy_wh_given,
      energy_wh_present, arg_float, argparse_error, bind, ret.
    destruct e as [raw|]; [destruct (float_of_str rt raw) |];
      cbn; try discriminate; now intros [= <- _].
  - intros [= _ _ <- <-]. revert H.
    unfold duration_sec_arg, arg_int, energy_wh_required, energy_wh_given,
      energy_wh_present, arg_float,
      argparse_error, bind, ret.
    destruct (energy_wh_first cl);
    destruct d as [rd|]; [destruct (int_of_str rt rd) | |destruct (int_of_str rt rd) |];
      (destruct e as [raw|]; [destruct (float_of_str rt raw) |]);
      cbn; try discriminate; now intros [= <- _].
Qed.

(** C2, amended.  For [split], and for [scenario] without [--init], given a
    non-empty [--start-iso] value that [datetime.fromisoformat] rejects,
    the process issues no HTTP call, writes one line to stderr that names
    the value, and exits with status 1. *)
Theorem invalid_start_iso_aborts_before_any_request :
  forall (rt : Runtime) (w : World) (cl : CommandLine) (ns : Args) (v : string),
    parse_args rt w cl [] = (Returned ns, []) ->
    (exists e, sub cl = Split e (Some v))
    \/ (exists e d, sub cl = Scenario e d (Some v) false) ->
    v <> "" ->
    fromisoformat rt v = None ->
    run rt w cl = (1, [EvStderr ("Invalid --start-iso value: " ++ v)])
    /\ requests_of (snd (run rt w cl)) = [].
Proof.
  intros rt w cl ns v Hparse Hsub Hne Hbad.
  destruct (parse_args_start_iso rt w cl ns [] [] Hparse) as [Hsplit Hscen].
  destruct (default_energy_write_entity_keeps ns)
    as (_ & _ & Hiso & Hinit & _ & _).
  assert (Hraise : _parse_start_iso rt v []
                   = (Raised (RuntimeError ("Invalid --start-iso value: " ++ v)),
                      [])).
  { unfold _parse_start_iso. now rewrite Hbad. }
  assert (Hrun : run rt w cl
                 = (1, [EvStderr ("Invalid --start-iso value: " ++ v)])).
  { unfold run, main. step Hparse. unfold except_RuntimeError.
    destruct Hsub as [[e Hs] | (e & d & Hs)]; rewrite Hs; cbn [func].
    - unfold cmd_split. rewrite Hiso, (Hsplit e (Some v) Hs).
      destruct v as [|c v]; [congruence |].
      stop Hraise. reflexivity.
    - unfold cmd_scenario.
      destruct (Hscen e d (Some v) false Hs) as [Hi Hf].
      rewrite Hiso, Hinit, Hi, Hf.
      destruct v as [|c v]; [congruence |].
      unfold bind at 1. unfold ret at 1.
      stop Hraise. reflexivity. }
  split; [exact Hrun | now rewrite Hrun].
Qed.

Lemma invalid_start_iso_aborts_before_any_request_witness :
  run Demo.rt Demo.world (Demo.cli (Split (Some "900") (Some "not-a-date")))
  = (1, [EvStderr ("Invalid --start-iso value: " ++ "not-a-date")])
  /\ requests_of
       (snd (run Demo.rt Demo.world
                 (Demo.cli (Split (Some "900") (Some "not-a-date"))))) = [].
Proof.
  pose (ns := match parse_args Demo.rt Demo.world
                      (Demo.cli (Split (Some "900") (Some "not-a-date"))) []
              with
              | (Returned ns, _) => ns
              | _ => Demo.args_of PNone None None false
              end).
  apply (invalid_start_iso_aborts_before_any_request Demo.rt Demo.world
           (Demo.cli (Split (Some "900") (Some "not-a-date"))) ns
           "not-a-date").
  - reflexivity.
  - left. exists (Some "900"%string). reflexivity.
  - discriminate.
  - reflexivity.
Defined.

(** C2 as stated fails twice over: [scenario --init] with an unparseable
    [--start-iso] has sent the seven requests of [init] by the time it
    reports the value, and an empty [--start-iso], which [fromisoformat]
    rejects as well, is taken for an absent one. *)
Lemma invalid_start_iso_after_init_requests :
  fromisoformat Demo.rt "not-a-date" = None
  /\ fst (run Demo.rt Demo.world
              (Demo.cli (Scenario (Some "900") None (Some "not-a-date") true)))
     = 1
  /\ List.length
       (requests_of
          (snd (run Demo.rt Demo.world
                    (Demo.cli (Scenario (Some "900") None
                                        (Some "not-a-date") true))))) = 7%nat
  /\ fromisoformat Demo.rt "" = None
  /\ fst (run Demo.rt Demo.world (Demo.cli (Split (Some "900") (Some ""))))
     = 0
  /\ List.length
       (requests_of
          (snd (run Demo.rt Demo.world
                    (Demo.cli (Split (Some "900") (Some "")))))) = 3%nat.
Proof. repeat split. Qed.

(* ================================================================== *)
(** ** A missing connection setting *)

Lemma quiet_ret {A} (a : A) : quiet (ret a).
Proof. intros t. left. now exists a. Qed.

Lemma quiet_bind {A B} (m : M A) (k : A -> M B) :
  quiet m -> (forall a, quiet (k a)) -> quiet (bind m k).
Proof.
  intros Hm Hk t. unfold bind.
  destruct (Hm t) as [[a ->] | (e & -> & He)]; [apply Hk |].
  right. now exists e.
Qed.

Lemma blocked_bind {A B} (label : string) (m : M A) (k : A -> M B) :
  blocked label m -> blocked label (bind m k).
Proof.
  intros Hm t. unfold bind.
  destruct (Hm t) as [-> | (e & -> & He)]; [now left |].
  right. now exists e.
Qed.

Lemma quiet_then_blocked {A B} (label : string) (m : M A) (k : A -> M B) :
  quiet m -> (forall a, blocked label (k a)) -> blocked label (bind m k).
Proof.
  intros Hm Hk t. unfold bind.
  destruct (Hm t) as [[a ->] | (e & -> & He)]; [apply Hk |].
  right. now exists e.
Qed.

Lemma halted_bind {A B} (label : string) (m : M A) (k : A -> M B) :
  halted label m -> halted label (bind m k).
Proof. intros Hm t. unfold bind. now rewrite Hm. Qed.

Lemma quiet_timedelta_new (us : Z) : quiet (timedelta_new us).
Proof.
  intros t. unfold timedelta_new. destruct (Dt.in_range us).
  - left. now eexists.
  - right. eexists. split; [reflexivity | exact I].
Qed.

Lemma quiet_datetime_sub (dt : datetime) (td : timedelta) :
  quiet (datetime_sub dt td).
Proof.
  unfold datetime_sub.
  apply quiet_bind; [apply quiet_timedelta_new | intros neg].
  apply quiet_bind; [apply quiet_timedelta_new | intros delta].
  intros t. destruct (_ && _)%bool.
  - left. now eexists.
  - right. eexists. split; [reflexivity | exact I].
Qed.

Section BlockedFacts.

Variable rt : Runtime.
Variable w : World.

Lemma quiet_py_float (v : PyVal) : quiet (py_float rt v).
Proof.
  intros t. unfold py_float, lift.
  destruct (float_conv rt v) as [f|e] eqn:E; [left; now exists f |].
  right. exists e. split; [reflexivity |].
  destruct v as [|z|f|s0]; cbn in E.
  - now injection E as <-.
  - destruct (float_of_Z z); [discriminate | now injection E as <-].
  - discriminate.
  - destruct (float_of_str rt s0); [discriminate | now injection E as <-].
Qed.

Lemma quiet_entity (attr : option string) : quiet (_entity attr).
Proof.
  intros t. destruct attr as [e|]; [left; now exists e |].
  right. eexists. split; [reflexivity | exact I].
Qed.

Lemma quiet_timestamp (dt : datetime) : quiet (_timestamp rt dt).
Proof.
  intros t. rewrite timestamp_any_trace.
  destruct (fst (_timestamp rt dt [])) as [ts|e] eqn:E; [left; now exists ts |].
  right. exists e. split; [reflexivity |].
  apply conversion_failure_early, (timestamp_failure rt dt e E).
Qed.

Lemma quiet_parse_start_iso (v : string) : quiet (_parse_start_iso rt v).
Proof.
  intros t. unfold _parse_start_iso.
  destruct (fromisoformat rt v); [left; now eexists |].
  right. eexists. split; [reflexivity |]. now exists v.
Qed.

Section Unconfigured.

Variable args : Args.
Hypothesis Hun : unconfigured args.

(** Without base URL or token no request gets as far as [urlopen]. *)
Lemma blocked_request (method path : string) (payload : option dict) :
  blocked (missing_label args) (_request rt w args method path payload).
Proof.
  intros t. unfold _request, _base_url, _token, missing_label.
  destruct (base_url args) as [[|c b]|] eqn:Eb; cbn [PyStr.truthy].
  - left. now rewrite (bind_raised _ _ _ _ _ (require_absent (Some "") _ t eq_refl)).
  - step (require_present (String c b) "HA_BASE_URL or --base-url" t
            ltac:(discriminate)).
    unfold Request_new.
    destruct (request_accepts rt _).
    + unfold bind at 1. unfold ret at 1.
      assert (Htok : PyStr.truthy (token args) = false).
      { destruct Hun as [H|H]; [rewrite Eb in H; discriminate H | exact H]. }
      left. now rewrite (bind_raised _ _ _ _ _ (require_absent _ _ t Htok)).
    + right. exists ValueError. split; [reflexivity | exact I].
  - left. now rewrite (bind_raised _ _ _ _ _ (require_absent None _ t eq_refl)).
Qed.

(** With the base URL absent, or present and accepted by [Request], the
    request helper stops with status 2 at once. *)
Lemma halted_request (method path : string) (payload : option dict) :
  PyStr.truthy (base_url args) = false
  \/ (exists b, base_url args = Some b /\ b <> "" /\ usable rt b) ->
  halted (missing_label args) (_request rt w args method path payload).
Proof.
  intros Hbase t. unfold _request, _base_url, _token, missing_label.
  destruct Hbase as [Hb | (b & Hb & Hbne & Hty)].
  - rewrite Hb. now rewrite (bind_raised _ _ _ _ _ (require_absent _ _ t Hb)).
  - rewrite Hb.
    assert (Htrue : PyStr.truthy (Some b) = true).
    { destruct b; [congruence | reflexivity]. }
    rewrite Htrue.
    step (require_present b "HA_BASE_URL or --base-url" t Hbne).
    step (Request_new_typed rt _ payload method t (Hty path)).
    assert (Htok : PyStr.truthy (token args) = false).
    { destruct Hun as [H|H]; [rewrite Hb, Htrue in H; discriminate H | exact H]. }
    now rewrite (bind_raised _ _ _ _ _ (require_absent _ _ t Htok)).
Qed.

Lemma blocked_set_by_domain (entity_id : string) (v : PyVal) :
  blocked (missing_label args) (_set_by_domain rt w args entity_id v).
Proof.
  unfold _set_by_domain, _set_input_number, _set_input_text,
    _set_input_select, _set_input_boolean, _set_state, _call_service.
  repeat match goal with
         | |- blocked _ (if ?c then _ else _) => destruct c
         end;
    try (apply quiet_then_blocked; [apply quiet_py_float | intros ?]);
    apply blocked_request.
Qed.

Lemma blocked_init_helpers (energy : PyVal) :
  blocked (missing_label args) (_init_helpers rt w args energy).
Proof.
  unfold _init_helpers, _set_input_number, _call_service.
  apply blocked_bind, blocked_request.
Qed.

Lemma blocked_start_then_call (start : M datetime) (k : Json -> M unit) :
  quiet start ->
  blocked (missing_label args)
    (bind start (fun st =>
       bind (_timestamp rt st) (fun ts =>
         bind (_call_service rt w args "input_datetime" "set_datetime"
                 [("entity_id", JStr (cycle_start_helper args));
                  ("timestamp", JInt ts)]) k))).
Proof.
  intros Hq.
  apply quiet_then_blocked; [exact Hq | intros st].
  apply quiet_then_blocked; [apply quiet_timestamp | intros ts].
  apply blocked_bind, blocked_request.
Qed.

(** Every subcommand is stopped. *)
Lemma blocked_func (s : SubCommand) :
  blocked (missing_label args) (func rt w s args).
Proof.
  destruct s as [e| |d|e|e iso|e d iso i|]; cbn [func].
  - apply blocked_bind, blocked_init_helpers.
  - apply blocked_bind, blocked_set_by_domain.
  - unfold cmd_end. destruct (duration_sec args) as [dur|].
    + apply blocked_bind.
      apply quiet_then_blocked;
        [unfold timedelta_seconds; apply quiet_timedelta_new | intros td].
      apply quiet_then_blocked; [apply quiet_datetime_sub | intros st].
      apply quiet_then_blocked; [apply quiet_timestamp | intros ts].
      apply blocked_bind. unfold _call_service. apply blocked_request.
    + apply quiet_then_blocked; [apply quiet_ret | intros _].
      apply blocked_bind, blocked_set_by_domain.
  - unfold cmd_energy.
    apply quiet_then_blocked; [apply quiet_entity | intros target].
    apply blocked_bind, blocked_set_by_domain.
  - unfold cmd_split. apply blocked_start_then_call.
    destruct (start_iso args) as [[|c v]|];
      try apply quiet_parse_start_iso;
      (apply quiet_bind;
       [unfold timedelta_minutes; apply quiet_timedelta_new
       | intros td; apply quiet_datetime_sub]).
  - unfold cmd_scenario. destruct (init args).
    + apply blocked_bind, blocked_init_helpers.
    + apply quiet_then_blocked; [apply quiet_ret | intros _].
      apply blocked_start_then_call.
      destruct (start_iso args) as [[|c v]|];
        try apply quiet_parse_start_iso;
        (destruct (duration_sec args) as [dur|];
         [ apply quiet_bind;
           [unfold timedelta_seconds; apply quiet_timedelta_new
           | intros td; apply quiet_datetime_sub]
         | intros t; right; eexists; split; [reflexivity | exact I] ]).
  - unfold cmd_dump, dump_each. apply blocked_bind.
    unfold _get_state. apply blocked_request.
Qed.

End Unconfigured.

End BlockedFacts.

Section HaltedFacts.

Variable rt : Runtime.
Variable w : World.
Variable args : Args.
Hypothesis Hun : unconfigured args.
Hypothesis Hbase :
  PyStr.truthy (base_url args) = false
  \/ (exists b, base_url args = Some b /\ b <> "" /\ usable rt b).

Lemma halted_set_by_domain_number (entity_id : string) (v : PyVal) (f : float) :
  float_conv rt v = Returned f ->
  halted (missing_label args) (_set_by_domain rt w args entity_id v).
Proof.
  intros Hf.
  unfold _set_by_domain, _set_input_number, _set_input_text,
    _set_input_select, _set_input_boolean, _set_state, _call_service.
  repeat match goal with
         | |- halted _ (if ?c then _ else _) => destruct c
         end;
    try (intros t; unfold py_float, lift, bind; rewrite Hf);
    apply (halted_request rt w args Hun); exact Hbase.
Qed.

(** [init], [energy], [dump] and [scenario --init] begin with a request. *)
Lemma halted_func (s : SubCommand) :
  starts_with_request s ->
  (forall i e d iso, s = Scenario e d iso i -> init args = i) ->
  (forall e, s = Energy e ->
     exists target f, energy_write_entity args = Some target
                      /\ float_conv rt (energy_wh args) = Returned f) ->
  halted (missing_label args) (func rt w s args).
Proof.
  intros Hs Hinit Hen.
  destruct s as [e| |d|e|e iso|e d iso i|]; cbn [func];
    try contradiction Hs.
  - apply halted_bind. unfold _init_helpers, _set_input_number, _call_service.
    apply halted_bind, (halted_request rt w args Hun), Hbase.
  - destruct (Hen e eq_refl) as (target & f & Ht & Hf).
    unfold cmd_energy. rewrite Ht. intros t.
    unfold _entity. unfold bind at 1. unfold ret at 1.
    apply halted_bind, (halted_set_by_domain_number _ _ f Hf).
  - cbn in Hs. subst i. unfold cmd_scenario.
    rewrite (Hinit true e d iso eq_refl).
    apply halted_bind. unfold _init_helpers, _set_input_number, _call_service.
    apply halted_bind, (halted_request rt w args Hun), Hbase.
  - unfold cmd_dump, dump_each. apply halted_bind.
    unfold _get_state. apply (halted_request rt w args Hun), Hbase.
Qed.

End HaltedFacts.

(** What [argparse] stores for the connection settings and for a required
    [--energy-wh]. *)
Lemma parse_args_connection (rt : Runtime) (w : World) (cl : CommandLine)
      (ns : Args) (t t' : Trace) :
  parse_args rt w cl t = (Returned ns, t') ->
  base_url ns = match flag_base_url (common cl) with
                | Some v => Some v
                | None => environ w "HA_BASE_URL"
                end
  /\ token ns = match flag_token (common cl) with
                | Some v => Some v
                | None => environ w "HA_TOKEN"
                end
  /\ energy_write_entity ns
     = match flag_energy_write_entity (common cl) with
       | Some v => Some v
       | None => environ w "HA_ENERGY_WRITE_ENTITY"
       end
  /\ (forall e, sub cl = Energy e -> exists f, energy_wh ns = PFloat f).
Proof.
  unfold parse_args, environ_get.
  destruct (sub cl) as [e| |d|e|e iso|e d iso i|];
    unfold energy_wh_default0, energy_wh_required, energy_wh_given,
      energy_wh_present, duration_sec_arg, arg_int,
      arg_float, argparse_error, bind, ret;
    destruct (energy_wh_first cl);
    try (destruct d as [rd|]; [destruct (int_of_str rt rd) |]);
    try (destruct e as [raw|]; [destruct (float_of_str rt raw) |]);
    cbn; try discriminate; intros [= <- _];
    repeat split; try discriminate; try (intros ? [= <-]);
    try (eexists; reflexivity).
Qed.




(* ================================================================== *)
(** ** Further properties: domains, midnight, timestamps *)

Lemma split1_head_no_sep (sep : ascii) (s : string) :
  PyStr.mem sep (PyStr.split1_head sep s) = false.
Proof.
  induction s as [|c s IH]; [reflexivity |].
  cbn [PyStr.split1_head].
  destruct (Ascii.eqb c sep) eqn:E; [reflexivity |].
  cbn [PyStr.mem]. rewrite Ascii.eqb_sym, E. exact IH.
Qed.

Lemma split1_head_decompose (sep : ascii) (s : string) :
  s = PyStr.split1_head sep s
  \/ exists rest, s = PyStr.split1_head sep s ++ String sep rest.
Proof.
  induction s as [|c s IH]; [now left |].
  cbn [PyStr.split1_head].
  destruct (Ascii.eqb_spec c sep) as [->|Hc].
  - right. now exists s.
  - destruct IH as [IH | [rest IH]].
    + left. cbn. now rewrite <- IH.
    + right. exists rest. cbn. now rewrite <- IH.
Qed.

Lemma split1_head_app (sep : ascii) (d rest : string) :
  PyStr.mem sep d = false ->
  PyStr.split1_head sep (d ++ String sep rest) = d.
Proof.
  induction d as [|c d IH]; cbn [PyStr.mem append PyStr.split1_head].
  - intros _. now rewrite Ascii.eqb_refl.
  - intros H. apply orb_false_iff in H as [Hc Hd].
    rewrite Ascii.eqb_sym, Hc. now rewrite IH.
Qed.

(** X1.  The domain of an entity identifier contains no dot, is the
    identifier itself or what precedes its first dot, and is recovered from
    any identifier built as domain, dot, object id. *)
Theorem domain_is_text_before_first_dot :
  forall entity_id : string,
    PyStr.mem "." (_domain entity_id) = false
    /\ (entity_id = _domain entity_id
        \/ exists object_id,
            entity_id = _domain entity_id ++ "." ++ object_id)
    /\ forall d object_id,
        PyStr.mem "." d = false -> _domain (d ++ "." ++ object_id) = d.
Proof.
  intros entity_id. unfold _domain. split; [apply split1_head_no_sep |].
  split; [apply split1_head_decompose |].
  intros d object_id Hd. now apply split1_head_app.
Qed.

(** X2.  The local midnight of a valid time is a valid time of the same
    day and zone, at the very start of that day: it is not after the time
    it comes from and less than a day before it, and taking the midnight
    again changes nothing. *)
Theorem local_midnight_is_start_of_day :
  forall now : datetime,
    Dt.valid now ->
    Dt.valid (_local_midnight now)
    /\ ordinal (_local_midnight now) = ordinal now
    /\ tzoffset (_local_midnight now) = tzoffset now
    /\ Dt.to_us (_local_midnight now) = ordinal now * Dt.US_PER_DAY
    /\ 0 <= Dt.to_us now - Dt.to_us (_local_midnight now) < Dt.US_PER_DAY
    /\ _local_midnight (_local_midnight now) = _local_midnight now.
Proof.
  intros now Hv. pose proof (dt_to_us_bounds now Hv) as Hb.
  destruct Hv as (Ho & Hh & Hm & Hs & Hu).
  assert (Hmid : Dt.to_us (_local_midnight now) = ordinal now * Dt.US_PER_DAY).
  { unfold Dt.to_us, _local_midnight, Dt.replace_time.
    cbn [ordinal hour minute second microsecond]. lia. }
  repeat split; try reflexivity; try exact Hmid;
    unfold _local_midnight, Dt.replace_time, Dt.US_PER_SECOND in *;
    cbn [ordinal hour minute second microsecond] in *; lia.
Qed.

Lemma local_midnight_is_start_of_day_witness :
  Dt.valid (_local_midnight Demo.afternoon)
  /\ ordinal (_local_midnight Demo.afternoon) = ordinal Demo.afternoon
  /\ tzoffset (_local_midnight Demo.afternoon) = tzoffset Demo.afternoon
  /\ Dt.to_us (_local_midnight Demo.afternoon)
     = ordinal Demo.afternoon * Dt.US_PER_DAY
  /\ 0 <= Dt.to_us Demo.afternoon - Dt.to_us (_local_midnight Demo.afternoon)
     < Dt.US_PER_DAY
  /\ _local_midnight (_local_midnight Demo.afternoon)
     = _local_midnight Demo.afternoon.
Proof.
  apply (local_midnight_is_start_of_day Demo.afternoon).
  vm_compute. repeat split; congruence.
Defined.

(** X3.  [_timestamp] of a naive time that falls on a whole second is the
    count of seconds [_mktime()] gives for it, before the epoch as well as
    after it: the binary64 sum with [0 / 1e6] and the truncation lose
    nothing.  A time the platform cannot convert raises the exception of
    the conversion.  The trace is neither read nor changed. *)
Theorem timestamp_of_whole_second_is_mktime :
  forall (rt : Runtime) (dt : datetime) (t : Trace),
    tzoffset dt = None ->
    microsecond dt = 0 ->
    _timestamp rt dt t
    = (match mktime rt dt with
       | Some s => Returned s
       | None =>
           Raised (match mktime_error rt dt with
                   | MktimeOverflow => OverflowError
                   | MktimeValue => ValueError
                   | MktimeOS => OtherError "OSError"
                   end)
       end, t).
Proof.
  intros rt dt t Htz Hus. destruct (mktime rt dt) as [s|] eqn:Hmk.
  - now apply timestamp_on_the_second.
  - now apply timestamp_unconvertible.
Qed.

(** 1969-12-31 23:59:59, local time being UTC, is one second before the
    epoch. *)
Lemma timestamp_of_whole_second_is_mktime_witness :
  _timestamp Demo.rt
    {| ordinal := Dt.EPOCH_ORDINAL - 1; hour := 23; minute := 59;
       second := 59; microsecond := 0; tzoffset := None;
       fold := false |} []
  = (Returned (-1), []).
Proof.
  apply (timestamp_of_whole_second_is_mktime Demo.rt
           {| ordinal := Dt.EPOCH_ORDINAL - 1; hour := 23; minute := 59;
              second := 59; microsecond := 0; tzoffset := None;
              fold := false |} []).
  - reflexivity.
  - reflexivity.
Defined.

(* ================================================================== *)
(** ** Further properties: the other domains of the dispatch *)

Lemma lower_ascii_idempotent (c : ascii) :
  PyStr.lower_ascii (PyStr.lower_ascii c) = PyStr.lower_ascii c.
Proof. destruct c as [[] [] [] [] [] [] [] []]; reflexivity. Qed.

Lemma lower_idempotent (s : string) : PyStr.lower (PyStr.lower s) = PyStr.lower s.
Proof.
  induction s as [|c s IH]; [reflexivity |].
  cbn [PyStr.lower]. now rewrite lower_ascii_idempotent, IH.
Qed.

(** X4.  With the connection configured, a write to an [input_text] entity
    is exactly one call of input_text/set_value carrying [str(v)] as the
    value, and a write to an [input_select] entity is exactly one call of
    input_select/select_option carrying [str(v)] as the option. *)
Theorem text_and_select_writes_forward_str :
  forall (rt : Runtime) (w : World) (args : Args) (b tk entity_id : string)
         (v : PyVal) (t : Trace),
    configured rt args b tk ->
    (_domain entity_id = "input_text" ->
     let req := service_call b tk "input_text" "set_value"
                  [("entity_id", JStr entity_id);
                   ("value", JStr (py_str rt v))] in
     let resp := urlopen w (requests_of t) req in
     _set_by_domain rt w args entity_id v t
     = (response_result rt "POST" "/api/services/input_text/set_value" resp,
        (t ++ [EvHttp req resp])%list))
    /\ (_domain entity_id = "input_select" ->
        let req := service_call b tk "input_select" "select_option"
                     [("entity_id", JStr entity_id);
                      ("option", JStr (py_str rt v))] in
        let resp := urlopen w (requests_of t) req in
        _set_by_domain rt w args entity_id v t
        = (response_result rt "POST"
                           "/api/services/input_select/select_option" resp,
           (t ++ [EvHttp req resp])%list)).
Proof.
  intros rt w args b tk entity_id v t Hcfg. split; intros Hdom req resp.
  - assert (Hrun : _set_by_domain rt w args entity_id v
                   = _set_input_text rt w args entity_id (py_str rt v)).
    { unfold _set_by_domain. now rewrite Hdom. }
    rewrite Hrun. apply (request_configured rt w _ _ _ _ _ _ _ Hcfg).
  - assert (Hrun : _set_by_domain rt w args entity_id v
                   = _set_input_select rt w args entity_id (py_str rt v)).
    { unfold _set_by_domain. now rewrite Hdom. }
    rewrite Hrun. apply (request_configured rt w _ _ _ _ _ _ _ Hcfg).
Qed.

Lemma text_and_select_writes_forward_str_witness :
  _set_by_domain Demo.rt Demo.world (Demo.args_of PNone None None false)
                 "input_select.test_status" (PStr "running") []
  = (Returned (JList []),
     [EvHttp (service_call Demo.base Demo.tok "input_select" "select_option"
                [("entity_id", JStr "input_select.test_status");
                 ("option", JStr "running")])
             (Resp2xx "[]")]).
Proof.
  refine (proj2 (text_and_select_writes_forward_str Demo.rt Demo.world
                   (Demo.args_of PNone None None false) Demo.base Demo.tok
                   "input_select.test_status" (PStr "running") [] _) _).
  - configured_by_computation.
  - reflexivity.
Defined.

(** X5.  With the connection configured, a write to an [input_boolean]
    entity is exactly one call of input_boolean/turn_on when [str(v)] in
    lower case is one of "on", "true", "1", and of input_boolean/turn_off
    otherwise; the call carries the entity id alone, and the case of a
    text value makes no difference. *)
Theorem input_boolean_write_turns_on_or_off :
  forall (rt : Runtime) (w : World) (args : Args) (b tk entity_id : string)
         (v : PyVal) (t : Trace),
    configured rt args b tk ->
    _domain entity_id = "input_boolean" ->
    let service :=
      if PyStr.in_set (PyStr.lower (py_str rt v)) ["on"; "true"; "1"]
      then "turn_on" else "turn_off" in
    let req := service_call b tk "input_boolean" service
                 [("entity_id", JStr entity_id)] in
    let resp := urlopen w (requests_of t) req in
    _set_by_domain rt w args entity_id v t
    = (response_result rt "POST" ("/api/services/input_boolean/" ++ service)
                       resp,
       (t ++ [EvHttp req resp])%list)
    /\ forall s,
        _set_by_domain rt w args entity_id (PStr (PyStr.lower s)) t
        = _set_by_domain rt w args entity_id (PStr s) t.
Proof.
  intros rt w args b tk entity_id v t Hcfg Hdom service req resp.
  assert (Hrun : forall x, _set_by_domain rt w args entity_id x
                           = _set_input_boolean rt w args entity_id (py_str rt x)).
  { intros x. unfold _set_by_domain. now rewrite Hdom. }
  split.
  - rewrite Hrun. apply (request_configured rt w _ _ _ _ _ _ _ Hcfg).
  - intros s. rewrite !Hrun. unfold _set_input_boolean. cbn [py_str].
    now rewrite lower_idempotent.
Qed.

Lemma input_boolean_write_turns_on_or_off_witness :
  _set_by_domain Demo.rt Demo.world (Demo.args_of PNone None None false)
                 "input_boolean.test_flag" (PStr "TRUE") []
  = (Returned (JList []),
     [EvHttp (service_call Demo.base Demo.tok "input_boolean" "turn_on"
                [("entity_id", JStr "input_boolean.test_flag")])
             (Resp2xx "[]")]).
Proof.
  refine (proj1 (input_boolean_write_turns_on_or_off Demo.rt Demo.world
                   (Demo.args_of PNone None None false) Demo.base Demo.tok
                   "input_boolean.test_flag" (PStr "TRUE") [] _ _)).
  - configured_by_computation.
  - reflexivity.
Defined.

(** X6.  With the connection configured, a server that accepts and an
    inactive value that suits the status entity, [_init_helpers] called
    with no energy value returns after exactly the six resets: the
    energy write target is not written. *)
Theorem init_helpers_without_energy_sends_six :
  forall (rt : Runtime) (w : World) (args : Args) (b tk : string)
         (status : Request) (t : Trace),
    configured rt args b tk ->
    accepts rt w ->
    write_request rt b tk (status_entity args) (PStr (inactive_state args))
    = Some status ->
    exists t',
      _init_helpers rt w args PNone t = (Returned tt, t')
      /\ requests_of t'
         = (requests_of t ++ baseline_requests b tk args status)%list.
Proof.
  intros rt w args b tk status t Hcfg Hacc Hst.
  assert (H : issues (_init_helpers rt w args PNone)
                     (baseline_requests b tk args status)).
  { unfold _init_helpers, _set_input_number, _set_input_text,
      baseline_requests. cbn [json_of_val].
    apply (issues_bind _ _ [_] [_; _; _; _; _]);
      [apply (issues_call_service rt w args b tk Hcfg Hacc) | intros _].
    apply (issues_bind _ _ [_] [_; _; _; _]);
      [apply (issues_call_service rt w args b tk Hcfg Hacc) | intros _].
    apply (issues_bind _ _ [_] [_; _; _]);
      [apply (issues_call_service rt w args b tk Hcfg Hacc) | intros _].
    apply (issues_bind _ _ [_] [_; _]);
      [apply (issues_call_service rt w args b tk Hcfg Hacc) | intros _].
    apply (issues_bind _ _ [_] [_]);
      [apply (issues_call_service rt w args b tk Hcfg Hacc) | intros _].
    apply (issues_bind _ _ [_] []);
      [apply (issues_set_by_domain rt w args b tk Hcfg Hacc _ _ _ Hst)
      | intros _; apply issues_ret]. }
  destruct (H t) as ([] & t' & E & R). now exists t'.
Qed.

Lemma init_helpers_without_energy_sends_six_witness :
  exists t',
    _init_helpers Demo.rt Demo.world (Demo.args_of PNone None None false)
                  PNone [] = (Returned tt, t')
    /\ List.length (requests_of t') = 6%nat.
Proof.
  destruct (init_helpers_without_energy_sends_six Demo.rt Demo.world
              (Demo.args_of PNone None None false) Demo.base Demo.tok
              (service_call Demo.base Demo.tok "input_select" "select_option"
                 [("entity_id", JStr "input_select.test_status");
                  ("option", JStr "off")]) [])
    as (t' & E & R).
  - configured_by_computation.
  - intros history req. exists "[]". split; [reflexivity |].
    right. eexists. reflexivity.
  - reflexivity.
  - exists t'. split; [exact E |]. rewrite R. reflexivity.
Defined.

(* ================================================================== *)
(** ** Further properties: [start], [energy], [scenario], [dump] *)

Section ExchangeFacts.

Variable rt : Runtime.
Variable w : World.
Variable args : Args.
Variables b tk : string.
Hypothesis Hcfg : configured rt args b tk.
Hypothesis Hacc : accepts rt w.

(** A write that suits its domain is one accepted exchange. *)
Lemma set_by_domain_exchange (entity_id : string) (v : PyVal) (q : Request)
      (t : Trace) :
  write_request rt b tk entity_id v = Some q ->
  exists j,
    _set_by_domain rt w args entity_id v t
    = (Returned j, (t ++ [EvHttp q (urlopen w (requests_of t) q)])%list).
Proof.
  assert (Hreq : forall method path payload,
             exists j,
               _request rt w args method path payload t
               = (Returned j,
                  (t ++ [EvHttp (http_request b tk method path payload)
                           (urlopen w (requests_of t)
                              (http_request b tk method path payload))])%list)).
  { intros method path payload.
    rewrite (request_configured rt w _ _ _ _ _ _ _ Hcfg).
    destruct (accepted_result rt w method path (requests_of t)
                (http_request b tk method path payload) Hacc) as [j ->].
    now exists j. }
  unfold write_request, _set_by_domain, _domain.
  destruct (String.eqb _ "input_number").
  { destruct (float_conv rt v) as [f|e] eqn:Ef; [| discriminate].
    intros [= <-]. unfold py_float, lift, bind. rewrite Ef. apply Hreq. }
  destruct (String.eqb _ "input_text"); [intros [= <-]; apply Hreq |].
  destruct (String.eqb _ "input_select"); [intros [= <-]; apply Hreq |].
  destruct (String.eqb _ "input_boolean"); [intros [= <-]; apply Hreq |].
  intros [= <-]. apply Hreq.
Qed.

Lemma issues_dump_each (entities : list string) :
  issues (dump_each rt w args entities) (map (state_read b tk) entities).
Proof.
  induction entities as [|e es IH]; [apply issues_ret |].
  cbn [dump_each map].
  apply (issues_bind _ _ [_] _);
    [apply (issues_request rt w args b tk Hcfg Hacc) | intros state].
  apply (issues_bind _ _ [] _); [apply issues_print | intros _; exact IH].
Qed.

End ExchangeFacts.

(** An exchange succeeded exactly when [_request] returns a value. *)
Lemma response_result_ok (rt : Runtime) (method path : string)
      (resp : Response) :
  match response_result rt method path resp with
  | Returned _ => resp_ok rt resp = true
  | Raised _ => resp_ok rt resp = false
  end.
Proof.
  destruct resp as [body|code detail|reason|name]; try reflexivity.
  destruct body as [|c body]; [reflexivity |].
  cbn [response_result resp_ok].
  destruct (json_loads rt (String c body)); reflexivity.
Qed.

(** [dump] reads the entities in order and stops at the first read that
    fails: what it adds to the trace are the reads that succeeded, each
    followed by the state it printed, and then, when it raises, the read
    that failed and nothing more. *)
Lemma dump_each_stops (rt : Runtime) (w : World) (args : Args)
      (b tk : string) (entities : list string) :
  configured rt args b tk ->
  forall t, exists (k : nat) (ext : Trace),
    snd (dump_each rt w args entities t) = (t ++ ext)%list
    /\ requests_of ext = firstn k (map (state_read b tk) entities)
    /\ match fst (dump_each rt w args entities t) with
       | Returned _ => k = List.length entities /\ Forall (ok_event rt) ext
       | Raised e =>
           exists before entity resp,
             ext = (before ++ [EvHttp (state_read b tk entity) resp])%list
             /\ Forall (ok_event rt) before
             /\ resp_ok rt resp = false
             /\ response_result rt "GET" ("/api/states/" ++ entity) resp
                = Raised e
             /\ (1 <= k)%nat
             /\ nth_error entities (k - 1) = Some entity
       end.
Proof.
  intros Hcfg. induction entities as [|e es IH]; intros t.
  - exists 0%nat, []. cbn. rewrite app_nil_r. repeat split. constructor.
  - pose proof (request_configured rt w args b tk "GET" ("/api/states/" ++ e)
                  None t Hcfg) as Ereq.
    cbv zeta in Ereq. fold (state_read b tk e) in Ereq.
    set (resp := urlopen w (requests_of t) (state_read b tk e)) in *.
    pose proof (response_result_ok rt "GET" ("/api/states/" ++ e) resp) as Hok.
    destruct (response_result rt "GET" ("/api/states/" ++ e) resp)
      as [j|ex] eqn:Er.
    + set (t' := ((t ++ [EvHttp (state_read b tk e) resp])
                    ++ [EvStdout (json_dumps rt j)])%list).
      assert (Estep : dump_each rt w args (e :: es) t
                      = dump_each rt w args es t').
      { cbn [dump_each]. unfold _get_state. unfold bind at 1. rewrite Ereq.
        unfold bind at 1, print, emit. reflexivity. }
      rewrite Estep.
      destruct (IH t') as (k & ext & Hsnd & Hreqs & Hfst).
      exists (S k), ([EvHttp (state_read b tk e) resp;
                      EvStdout (json_dumps rt j)] ++ ext)%list.
      split.
      { rewrite Hsnd. subst t'. now rewrite <- !app_assoc. }
      split.
      { cbn [app requests_of map firstn]. now rewrite Hreqs. }
      destruct (fst (dump_each rt w args es t')) as [u|ex].
      * destruct Hfst as [-> Hall]. split; [reflexivity |].
        cbn [app].
        constructor; [exact Hok |]. constructor; [exact I | exact Hall].
      * destruct Hfst as (before & entity & r & -> & Hall & Hbad & Hres & Hk & Hnth).
        exists ([EvHttp (state_read b tk e) resp;
                 EvStdout (json_dumps rt j)] ++ before)%list, entity, r.
        split; [now rewrite <- app_assoc |].
        split.
        { cbn [app].
          constructor; [exact Hok |]. constructor; [exact I | exact Hall]. }
        split; [exact Hbad |]. split; [exact Hres |]. split; [lia |].
        destruct k as [|k]; [lia |].
        cbn [Nat.sub nth_error] in *. now rewrite Nat.sub_0_r in *.
    + assert (Estep : dump_each rt w args (e :: es) t
                      = (Raised ex, (t ++ [EvHttp (state_read b tk e) resp])%list)).
      { cbn [dump_each]. unfold _get_state. unfold bind at 1. now rewrite Ereq. }
      rewrite Estep.
      exists 1%nat, [EvHttp (state_read b tk e) resp].
      cbn [fst snd map firstn requests_of]. split; [reflexivity |].
      split; [reflexivity |].
      exists [], e, resp. cbn [app Nat.sub nth_error].
      repeat split; [constructor | exact Hok | exact Er | lia].
Qed.

Lemma parse_args_plain (rt : Runtime) (w : World) (cl : CommandLine)
      (ns : Args) (t t' : Trace) :
  parse_args rt w cl t = (Returned ns, t') -> t' = t.
Proof.
  unfold parse_args.
  destruct (sub cl) as [e| |d|e|e iso|e d iso i|];
    unfold energy_wh_default0, energy_wh_required, energy_wh_given,
      energy_wh_present, duration_sec_arg, arg_int,
      arg_float, argparse_error, bind, ret;
    destruct (energy_wh_first cl);
    try (destruct d as [rd|]; [destruct (int_of_str rt rd) |]);
    try (destruct e as [raw|]; [destruct (float_of_str rt raw) |]);
    cbn; try discriminate; now intros [= _ <-].
Qed.

(** X7.  [start], with the connection configured, a server that accepts
    and an active value that suits the status entity: the run consists of
    the one write of the active value to the status entity and the
    confirmation on stdout, and the exit status is 0. *)
Theorem start_writes_active_state :
  forall (rt : Runtime) (w : World) (cl : CommandLine) (ns : Args)
         (b tk : string) (q : Request),
    sub cl = Start ->
    parse_args rt w cl [] = (Returned ns, []) ->
    let args := default_energy_write_entity ns in
    configured rt args b tk ->
    accepts rt w ->
    write_request rt b tk (status_entity args) (PStr (active_state args))
    = Some q ->
    run rt w cl
    = (0, [EvHttp q (urlopen w [] q);
           EvStdout ("Set status to " ++ active_state args ++ ".")]).
Proof.
  intros rt w cl ns b tk q Hsub Hparse args Hcfg Hacc Hq.
  destruct (set_by_domain_exchange rt w args b tk Hcfg Hacc _ _ q [] Hq)
    as [j E].
  unfold run, main. step Hparse. fold args. rewrite Hsub. cbn [func].
  unfold except_RuntimeError, cmd_start. step E. reflexivity.
Qed.

Lemma start_writes_active_state_witness :
  run Demo.rt Demo.world (Demo.cli Start)
  = (0, [EvHttp (service_call Demo.base Demo.tok "input_select"
                   "select_option"
                   [("entity_id", JStr "input_select.test_status");
                    ("option", JStr "running")])
                (Resp2xx "[]");
         EvStdout "Set status to running."]).
Proof.
  pose (ns := match parse_args Demo.rt Demo.world (Demo.cli Start) [] with
              | (Returned ns, _) => ns
              | _ => Demo.args_of PNone None None false
              end).
  apply (start_writes_active_state Demo.rt Demo.world (Demo.cli Start) ns
           Demo.base Demo.tok).
  - reflexivity.
  - reflexivity.
  - configured_by_computation.
  - intros history req. exists "[]". split; [reflexivity |].
    right. eexists. reflexivity.
  - reflexivity.
Defined.

(** X8.  [energy], with the connection configured and a server that
    accepts: the run consists of one write of the parsed number and the
    confirmation on stdout, with exit status 0.  The write goes to the
    configured write entity when one is given and non-empty, and to the
    energy sensor otherwise. *)
Theorem energy_writes_to_write_entity_or_sensor :
  forall (rt : Runtime) (w : World) (cl : CommandLine) (ns : Args)
         (b tk raw : string),
    sub cl = Energy (Some raw) ->
    parse_args rt w cl [] = (Returned ns, []) ->
    let args := default_energy_write_entity ns in
    configured rt args b tk ->
    accepts rt w ->
    exists f target q,
      float_of_str rt raw = Some f
      /\ target = (if PyStr.truthy (energy_write_entity ns)
                   then match energy_write_entity ns with
                        | Some e => e
                        | None => energy_sensor ns
                        end
                   else energy_sensor ns)
      /\ write_request rt b tk target (PFloat f) = Some q
      /\ run rt w cl
         = (0, [EvHttp q (urlopen w [] q);
                EvStdout ("Set energy to " ++ float_repr rt f ++ " Wh.")]).
Proof.
  intros rt w cl ns b tk raw Hsub Hparse args Hcfg Hacc.
  assert (Hwh : exists f, float_of_str rt raw = Some f
                          /\ energy_wh ns = PFloat f).
  { revert Hparse. unfold parse_args. rewrite Hsub.
    unfold energy_wh_required, energy_wh_given,
      energy_wh_present, arg_float, argparse_error, bind, ret.
    destruct (float_of_str rt raw) as [f|]; cbn; [| discriminate].
    intros [= <-]. now exists f. }
  destruct Hwh as (f & Hf & Hwh).
  set (target := if PyStr.truthy (energy_write_entity ns)
                 then match energy_write_entity ns with
                      | Some e => e
                      | None => energy_sensor ns
                      end
                 else energy_sensor ns).
  assert (Ht : energy_write_entity args = Some target).
  { unfold args, default_energy_write_entity, target.
    destruct (energy_write_entity ns) as [[|c e]|] eqn:E;
      cbn [PyStr.truthy negb]; try reflexivity. exact E. }
  assert (Hw : energy_wh args = PFloat f).
  { unfold args, default_energy_write_entity.
    destruct (negb _); exact Hwh. }
  destruct (write_request_number rt b tk target (PFloat f) f eq_refl)
    as [q Hq].
  exists f, target, q. split; [exact Hf |]. split; [reflexivity |].
  split; [exact Hq |].
  destruct (set_by_domain_exchange rt w args b tk Hcfg Hacc _ _ q [] Hq)
    as [j E].
  unfold run, main. step Hparse. fold args. rewrite Hsub. cbn [func].
  unfold except_RuntimeError, cmd_energy. rewrite Ht, Hw.
  unfold _entity. unfold bind at 1. unfold ret at 1.
  step E. reflexivity.
Qed.

Lemma energy_writes_to_write_entity_or_sensor_witness :
  exists f target q,
    float_of_str Demo.rt "750" = Some f
    /\ target = "sensor.test_energy_yesterday"
    /\ write_request Demo.rt Demo.base Demo.tok target (PFloat f) = Some q
    /\ run Demo.rt Demo.world (Demo.cli (Energy (Some "750")))
       = (0, [EvHttp q (Resp2xx "[]");
              EvStdout ("Set energy to " ++ float_repr Demo.rt f ++ " Wh.")]).
Proof.
  pose (ns := match parse_args Demo.rt Demo.world
                      (Demo.cli (Energy (Some "750"))) [] with
              | (Returned ns, _) => ns
              | _ => Demo.args_of PNone None None false
              end).
  destruct (energy_writes_to_write_entity_or_sensor Demo.rt Demo.world
              (Demo.cli (Energy (Some "750"))) ns Demo.base Demo.tok "750"
              eq_refl eq_refl)
    as (f & target & q & Hf & Ht & Hq & Hrun).
  - configured_by_computation.
  - intros history req. exists "[]". split; [reflexivity |].
    right. eexists. reflexivity.
  - exists f, target, q. split; [exact Hf |]. split; [exact Ht |].
    split; [exact Hq | exact Hrun].
Defined.

Lemma issues_bind_ret {A B} (a : A) (k : A -> M B) (reqs : list Request) :
  issues (k a) reqs -> issues (bind (ret a) k) reqs.
Proof. intros H t. exact (H t). Qed.

(** Date arithmetic does not look at the trace. *)
Lemma datetime_sub_any_trace (dt : datetime) (td : timedelta) (start : datetime)
      (t t0 : Trace) :
  datetime_sub dt td t = (Returned start, t) ->
  datetime_sub dt td t0 = (Returned start, t0).
Proof.
  unfold datetime_sub, timedelta_new, bind, ret, raise.
  destruct (Dt.in_range _); [| discriminate].
  destruct (Dt.in_range _); [| discriminate].
  destruct (_ && _)%bool; [| discriminate].
  now intros [= <-].
Qed.



(** X10.  With a non-empty [--start-iso], neither [split] nor [scenario]
    depends on the time of the invocation, and [scenario] does not depend
    on [--duration-sec] either: the explicit start overrides both. *)
Theorem explicit_start_overrides_clock_and_duration :
  forall (rt : Runtime) (w : World) (args : Args) (c : datetime)
         (d : option Z) (t : Trace),
    PyStr.truthy (start_iso args) = true ->
    cmd_split rt (with_clock w c) args t = cmd_split rt w args t
    /\ cmd_scenario rt (with_clock w c) (with_duration_sec args d) t
       = cmd_scenario rt w args t.
Proof.
  intros rt w args c d t Hiso.
  unfold cmd_split, cmd_scenario.
  cbn [with_duration_sec with_clock start_iso init].
  destruct (start_iso args) as [[|c0 v]|]; try discriminate Hiso.
  split; reflexivity.
Qed.

Lemma explicit_start_overrides_clock_and_duration_witness :
  cmd_split Demo.rt (with_clock Demo.world (_local_midnight Demo.afternoon))
            (Demo.args_of (PFloat 900%float) None (Some "2024-03-09") false) []
  = cmd_split Demo.rt Demo.world
              (Demo.args_of (PFloat 900%float) None (Some "2024-03-09") false) []
  /\ cmd_scenario Demo.rt
                  (with_clock Demo.world (_local_midnight Demo.afternoon))
                  (with_duration_sec
                     (Demo.args_of (PFloat 900%float) None (Some "2024-03-09")
                                   false) (Some 60)) []
     = cmd_scenario Demo.rt Demo.world
                    (Demo.args_of (PFloat 900%float) None (Some "2024-03-09")
                                  false) [].
Proof.
  apply (explicit_start_overrides_clock_and_duration Demo.rt Demo.world
           (Demo.args_of (PFloat 900%float) None (Some "2024-03-09") false)).
  reflexivity.
Defined.

(** X11.  [dump], with the connection configured, only reads: its requests
    are state reads of the energy sensor, the status entity and the five
    helpers, in that order, up to the first one that fails and no further.
    When it returns, all seven reads were made and every one succeeded;
    when it raises, every exchange before the last succeeded, the last
    exchange is the read that failed and the last thing the command did,
    and the exception is what that read gave.  When the server accepts,
    all seven are read and the command returns. *)
Theorem dump_reads_the_seven_entities_in_order :
  forall (rt : Runtime) (w : World) (args : Args) (b tk : string) (t : Trace),
    configured rt args b tk ->
    (exists (k : nat) (ext : Trace),
        snd (cmd_dump rt w args t) = (t ++ ext)%list
        /\ requests_of ext
           = firstn k (map (state_read b tk)
                           [ energy_sensor args; status_entity args;
                             lifetime_helper args; cycle_start_helper args;
                             daily_active_helper args; durations_helper args;
                             last_processed_helper args ])
        /\ match fst (cmd_dump rt w args t) with
           | Returned _ => k = 7%nat /\ Forall (ok_event rt) ext
           | Raised e =>
               exists before entity resp,
                 ext = (before ++ [EvHttp (state_read b tk entity) resp])%list
                 /\ Forall (ok_event rt) before
                 /\ resp_ok rt resp = false
                 /\ response_result rt "GET" ("/api/states/" ++ entity) resp
                    = Raised e
                 /\ (1 <= k)%nat
                 /\ nth_error
                      [ energy_sensor args; status_entity args;
                        lifetime_helper args; cycle_start_helper args;
                        daily_active_helper args; durations_helper args;
                        last_processed_helper args ] (k - 1)
                    = Some entity
           end)
    /\ (accepts rt w ->
        fst (cmd_dump rt w args t) = Returned tt
        /\ requests_of (snd (cmd_dump rt w args t))
           = (requests_of t
              ++ map (state_read b tk)
                     [ energy_sensor args; status_entity args;
                       lifetime_helper args; cycle_start_helper args;
                       daily_active_helper args; durations_helper args;
                       last_processed_helper args ])%list).
Proof.
  intros rt w args b tk t Hcfg. unfold cmd_dump. split.
  - exact (dump_each_stops rt w args b tk _ Hcfg t).
  - intros Hacc.
    destruct (issues_dump_each rt w args b tk Hcfg Hacc
                [ energy_sensor args; status_entity args;
                  lifetime_helper args; cycle_start_helper args;
                  daily_active_helper args; durations_helper args;
                  last_processed_helper args ] t) as ([] & t' & E & R).
    rewrite E. split; [reflexivity | exact R].
Qed.

(** Against a server that accepts, seven reads; against one that knows no
    entity, the first read and nothing after it. *)
Lemma dump_reads_the_seven_entities_in_order_witness :
  (fst (cmd_dump Demo.rt Demo.world (Demo.args_of PNone None None false) [])
   = Returned tt
   /\ map req_url
          (requests_of
             (snd (cmd_dump Demo.rt Demo.world
                     (Demo.args_of PNone None None false) [])))
      = [ "http://homeassistant.local:8123/api/states/sensor.test_energy_yesterday";
          "http://homeassistant.local:8123/api/states/input_select.test_status";
          "http://homeassistant.local:8123/api/states/input_number.test_lifetime_energy";
          "http://homeassistant.local:8123/api/states/input_datetime.test_cycle_start";
          "http://homeassistant.local:8123/api/states/input_number.test_daily_active_seconds";
          "http://homeassistant.local:8123/api/states/input_text.test_cycle_durations";
          "http://homeassistant.local:8123/api/states/input_text.test_last_processed_date" ]%string)
  /\ exists (k : nat) (ext : Trace),
      snd (cmd_dump Demo.rt Demo.failing_world
             (Demo.args_of PNone None None false) []) = ([] ++ ext)%list
      /\ requests_of ext
         = firstn k (map (state_read Demo.base Demo.tok)
                         [ "sensor.test_energy_yesterday";
                           "input_select.test_status";
                           "input_number.test_lifetime_energy";
                           "input_datetime.test_cycle_start";
                           "input_number.test_daily_active_seconds";
                           "input_text.test_cycle_durations";
                           "input_text.test_last_processed_date" ]%string)
      /\ exists before entity resp,
          ext = (before ++ [EvHttp (state_read Demo.base Demo.tok entity) resp])%list
          /\ Forall (ok_event Demo.rt) before
          /\ resp_ok Demo.rt resp = false
          /\ response_result Demo.rt "GET" ("/api/states/" ++ entity) resp
             = Raised (RuntimeError
                         "GET /api/states/sensor.test_energy_yesterday failed: 404 Entity not found.")
          /\ (1 <= k)%nat
          /\ nth_error
               [ "sensor.test_energy_yesterday";
                 "input_select.test_status";
                 "input_number.test_lifetime_energy";
                 "input_datetime.test_cycle_start";
                 "input_number.test_daily_active_seconds";
                 "input_text.test_cycle_durations";
                 "input_text.test_last_processed_date" ]%string (k - 1)
             = Some entity.
Proof.
  split.
  - destruct (dump_reads_the_seven_entities_in_order Demo.rt Demo.world
                (Demo.args_of PNone None None false) Demo.base Demo.tok [])
      as [_ Hall].
    + configured_by_computation.
    + destruct Hall as [Hret Hreqs].
      * intros history req. exists "[]". split; [reflexivity |].
        right. eexists. reflexivity.
      * split; [exact Hret |]. rewrite Hreqs. reflexivity.
  - exact (proj1 (dump_reads_the_seven_entities_in_order Demo.rt
                    Demo.failing_world
                    (Demo.args_of PNone None None false) Demo.base Demo.tok []
                    ltac:(configured_by_computation))).
Defined.

(* ================================================================== *)
(** ** Further properties: every run stops at the first failure *)

Lemma strict_ret (rt : Runtime) {A} (a : A) : strict rt (ret a).
Proof.
  intros t. exists []. cbn. split; [now rewrite app_nil_r | constructor].
Qed.

Lemma strict_raise (rt : Runtime) {A} (e : Exn) :
  (forall code, e = SystemExit code -> code = 2) ->
  strict rt (@raise A e).
Proof.
  intros He t. exists []. cbn. split; [now rewrite app_nil_r |].
  split; [exact He |]. exists [], []. repeat split; [constructor | cbn; lia].
Qed.

Lemma strict_lift (rt : Runtime) {A} (r : Result A) :
  (forall e code, r = Raised e -> e = SystemExit code -> code = 2) ->
  strict rt (lift r).
Proof.
  intros Hr t. exists []. cbn. split; [now rewrite app_nil_r |].
  destruct r as [a|e]; [constructor |].
  split; [intros code; now apply Hr |].
  exists [], []. repeat split; [constructor | cbn; lia].
Qed.

Lemma strict_emit (rt : Runtime) (ev : Event) :
  ok_event rt ev -> strict rt (emit ev).
Proof.
  intros Hev t. exists [ev]. cbn. split; [reflexivity |].
  constructor; [exact Hev | constructor].
Qed.

Lemma strict_bind (rt : Runtime) {A B} (m : M A) (k : A -> M B) :
  strict rt m -> (forall a, strict rt (k a)) -> strict rt (bind m k).
Proof.
  intros Hm Hk t. destruct (Hm t) as (e1 & S1 & R1). unfold bind.
  destruct (m t) as [[a|ex] t1]; cbn [fst snd] in *; subst t1.
  - destruct (Hk a (t ++ e1)%list) as (e2 & S2 & R2).
    exists (e1 ++ e2)%list. split; [now rewrite S2, app_assoc |].
    destruct (fst (k a (t ++ e1)%list)) as [c|ex].
    + apply Forall_app. now split.
    + destruct R2 as (Hc & before & last & -> & Hb & Hl).
      split; [exact Hc |].
      exists (e1 ++ before)%list, last. split; [now rewrite app_assoc |].
      split; [apply Forall_app; now split | exact Hl].
  - exists e1. split; [reflexivity | exact R1].
Qed.

Ltac strict_tac :=
  repeat first
    [ apply strict_ret
    | apply strict_raise; discriminate
    | apply strict_raise; (intros ? [= <-]; reflexivity)
    | apply strict_emit; exact I
    | apply strict_bind; [| intros ?]
    | match goal with
      | |- strict _ (match ?x with _ => _ end) => destruct x
      | |- strict _ (if ?c then _ else _) => destruct c
      end ].

Section StrictFacts.

Variable rt : Runtime.
Variable w : World.

Lemma strict_request (args : Args) (method path : string)
      (payload : option dict) :
  strict rt (_request rt w args method path payload).
Proof.
  unfold _request, _base_url, _token, _require, Request_new, eprint.
  apply strict_bind; [strict_tac | intros base].
  apply strict_bind; [strict_tac | intros req].
  apply strict_bind; [strict_tac | intros tok].
  set (q := add_header _ "Content-Type" "application/json").
  intros t. exists [EvHttp q (urlopen w (requests_of t) q)].
  rewrite (bind_returned _ _ _ _ _ (do_urlopen_eq w q t)).
  assert (Hlast : forall e : Exn,
             (forall code, e = SystemExit code -> code = 2) ->
             (forall code, e = SystemExit code -> code = 2)
             /\ exists before last,
                 [EvHttp q (urlopen w (requests_of t) q)]
                 = (before ++ last)%list
                 /\ Forall (ok_event rt) before
                 /\ (List.length (requests_of last) <= 1)%nat).
  { intros e He. split; [exact He |].
    exists [], [EvHttp q (urlopen w (requests_of t) q)].
    repeat split; [constructor | cbn; lia]. }
  destruct (urlopen w (requests_of t) q) as [body|code detail|reason|name]
    eqn:Eresp; unfold ret, raise; cbn [fst snd].
  - destruct body as [|c body]; cbn [fst snd].
    + split; [reflexivity |]. constructor; [reflexivity | constructor].
    + destruct (json_loads rt (String c body)) eqn:Ej; cbn [fst snd].
      * split; [reflexivity |].
        constructor; [cbn; now rewrite Ej | constructor].
      * split; [reflexivity |]. apply Hlast. discriminate.
  - split; [reflexivity |]. apply Hlast. discriminate.
  - split; [reflexivity |]. apply Hlast. discriminate.
  - split; [reflexivity |]. apply Hlast. discriminate.
Qed.

Lemma strict_py_float (v : PyVal) : strict rt (py_float rt v).
Proof.
  apply strict_lift. intros e code He ->.
  destruct v as [|z|f|s0]; cbn in He; try discriminate.
  - destruct (float_of_Z z); discriminate.
  - destruct (float_of_str rt s0); discriminate.
Qed.

Lemma strict_set_by_domain (args : Args) (entity_id : string) (v : PyVal) :
  strict rt (_set_by_domain rt w args entity_id v).
Proof.
  unfold _set_by_domain, _set_input_number, _set_input_text,
    _set_input_select, _set_input_boolean, _set_state, _call_service.
  repeat match goal with
         | |- strict _ (if ?c then _ else _) => destruct c
         end;
    try (apply strict_bind; [apply strict_py_float | intros ?]);
    apply strict_request.
Qed.

Lemma strict_timedelta_new (us : Z) : strict rt (timedelta_new us).
Proof. unfold timedelta_new. strict_tac. Qed.

Lemma strict_datetime_sub (dt : datetime) (td : timedelta) :
  strict rt (datetime_sub dt td).
Proof.
  unfold datetime_sub.
  apply strict_bind; [apply strict_timedelta_new | intros neg].
  apply strict_bind; [apply strict_timedelta_new | intros delta].
  strict_tac.
Qed.

Lemma strict_timestamp (dt : datetime) : strict rt (_timestamp rt dt).
Proof.
  intros t. exists []. rewrite timestamp_any_trace. cbn [fst snd].
  split; [now rewrite app_nil_r |].
  destruct (fst (_timestamp rt dt [])) as [ts|e] eqn:E; [constructor |].
  split.
  - intros code ->.
    now destruct (conversion_failure_no_exit _ code (timestamp_failure rt dt _ E)).
  - exists [], []. repeat split; [constructor | cbn; lia].
Qed.

Lemma strict_init_helpers (args : Args) (energy : PyVal) :
  strict rt (_init_helpers rt w args energy).
Proof.
  unfold _init_helpers, _set_input_number, _set_input_text, _call_service,
    _entity.
  repeat (apply strict_bind; [apply strict_request | intros ?]).
  apply strict_bind; [apply strict_set_by_domain | intros ?].
  destruct energy;
    [ apply strict_ret
    | destruct (energy_write_entity args);
      [ apply strict_bind; [apply strict_ret | intros ?];
        apply strict_bind; [apply strict_set_by_domain | intros ?];
        apply strict_ret
      | apply strict_bind; [apply strict_raise; discriminate | intros ?];
        apply strict_bind; [apply strict_set_by_domain | intros ?];
        apply strict_ret ] .. ].
Qed.

Lemma strict_dump_each (args : Args) (entities : list string) :
  strict rt (dump_each rt w args entities).
Proof.
  induction entities as [|e es IH]; cbn [dump_each]; [apply strict_ret |].
  apply strict_bind; [apply strict_request | intros state].
  apply strict_bind; [apply strict_emit; exact I | intros _; exact IH].
Qed.

Lemma strict_start (args : Args) (duration_start : M datetime) :
  strict rt duration_start ->
  strict rt (match start_iso args with
             | Some (String _ _ as v) => _parse_start_iso rt v
             | _ => duration_start
             end).
Proof.
  intros H. unfold _parse_start_iso.
  destruct (start_iso args) as [[|c v]|]; try exact H. strict_tac.
Qed.

Lemma strict_func (s : SubCommand) (args : Args) :
  strict rt (func rt w s args).
Proof.
  destruct s as [e| |d|e|e iso|e d iso i|]; cbn [func].
  - unfold cmd_init. apply strict_bind; [apply strict_init_helpers | intros ?].
    apply strict_emit. exact I.
  - unfold cmd_start.
    apply strict_bind; [apply strict_set_by_domain | intros ?].
    apply strict_emit. exact I.
  - unfold cmd_end. apply strict_bind.
    + destruct (duration_sec args); [| apply strict_ret].
      apply strict_bind; [apply strict_timedelta_new | intros ?].
      apply strict_bind; [apply strict_datetime_sub | intros ?].
      apply strict_bind; [apply strict_timestamp | intros ?].
      apply strict_bind; [apply strict_request | intros ?]. apply strict_ret.
    + intros ?.
      apply strict_bind; [apply strict_set_by_domain | intros ?].
      apply strict_emit. exact I.
  - unfold cmd_energy, _entity.
    apply strict_bind; [strict_tac | intros ?].
    apply strict_bind; [apply strict_set_by_domain | intros ?].
    apply strict_emit. exact I.
  - unfold cmd_split, _entity. apply strict_bind.
    + apply strict_start.
      apply strict_bind; [apply strict_timedelta_new | intros ?].
      apply strict_datetime_sub.
    + intros ?. apply strict_bind; [apply strict_timestamp | intros ?].
      apply strict_bind; [apply strict_request | intros ?].
      apply strict_bind; [apply strict_set_by_domain | intros ?].
      apply strict_bind; [strict_tac | intros ?].
      apply strict_bind; [apply strict_set_by_domain | intros ?].
      apply strict_emit. exact I.
  - unfold cmd_scenario, _entity. apply strict_bind.
    + destruct (init args); [apply strict_init_helpers | apply strict_ret].
    + intros ?. apply strict_bind.
      * apply strict_start. destruct (duration_sec args); [| strict_tac].
        apply strict_bind; [apply strict_timedelta_new | intros ?].
        apply strict_datetime_sub.
      * intros ?. apply strict_bind; [apply strict_timestamp | intros ?].
        apply strict_bind; [apply strict_request | intros ?].
        apply strict_bind; [apply strict_set_by_domain | intros ?].
        apply strict_bind; [apply strict_set_by_domain | intros ?].
        apply strict_bind; [strict_tac | intros ?].
        apply strict_bind; [apply strict_set_by_domain | intros ?].
        apply strict_emit. exact I.
  - unfold cmd_dump. apply strict_dump_each.
Qed.

Lemma strict_parse_args (cl : CommandLine) : strict rt (parse_args rt w cl).
Proof.
  unfold parse_args, energy_wh_default0, energy_wh_required, energy_wh_given,
      energy_wh_present,
    duration_sec_arg, arg_float, arg_int, argparse_error, eprint.
  destruct (sub cl); strict_tac.
Qed.

End StrictFacts.

Lemma requests_of_snoc_stderr (t : Trace) (line : string) :
  requests_of (t ++ [EvStderr line])%list = requests_of t.
Proof. rewrite requests_of_app. cbn. now rewrite app_nil_r. Qed.

(** What [main] leaves behind, whatever the command line and the server. *)
Lemma main_outcome (rt : Runtime) (w : World) (cl : CommandLine) :
  match fst (main rt w cl []) with
  | Returned _ => Forall (ok_event rt) (snd (main rt w cl []))
  | Raised e =>
      (forall code, e = SystemExit code -> code = 1 \/ code = 2)
      /\ exists before last,
          snd (main rt w cl []) = (before ++ last)%list
          /\ Forall (ok_event rt) before
          /\ (List.length (requests_of last) <= 1)%nat
  end.
Proof.
  unfold main.
  destruct (strict_parse_args rt w cl []) as (e1 & S1 & R1).
  unfold bind.
  destruct (parse_args rt w cl []) as [[ns|ex] t1]; cbn [fst snd] in *;
    subst t1; cbn [app] in *.
  - destruct (strict_func rt w (sub cl) (default_energy_write_entity ns) e1)
      as (e2 & S2 & R2).
    unfold except_RuntimeError.
    destruct (func rt w (sub cl) (default_energy_write_entity ns) e1)
      as [[u|ex] t2]; cbn [fst snd] in *; subst t2.
    + apply Forall_app. now split.
    + destruct R2 as (Hc & before & last & -> & Hb & Hl).
      assert (Hkeep :
                (forall code, ex = SystemExit code -> code = 1 \/ code = 2)
                /\ exists before0 last0,
                    (e1 ++ before ++ last)%list = (before0 ++ last0)%list
                    /\ Forall (ok_event rt) before0
                    /\ (List.length (requests_of last0) <= 1)%nat).
      { split; [intros code H; right; now apply Hc |].
        exists (e1 ++ before)%list, last. split; [now rewrite app_assoc |].
        split; [apply Forall_app; now split | exact Hl]. }
      destruct ex as [code|msg| | | | |name]; try exact Hkeep.
      cbn [fst snd]. split; [intros code [= <-]; now left |].
      exists (e1 ++ before)%list, (last ++ [EvStderr msg])%list.
      split; [now rewrite !app_assoc |].
      split; [apply Forall_app; now split |].
      now rewrite requests_of_snoc_stderr.
  - destruct R1 as (Hc & before & last & -> & Hb & Hl).
    split; [intros code H; right; now apply Hc |].
    exists before, last. now repeat split.
Qed.

(** X12.  Whatever the command line, the environment and the server do:
    every exchange of a run succeeded except possibly the last request
    issued, after which nothing more was sent; the exit status is 0 only
    if every exchange succeeded, and it is always 0, 1 or 2. *)
Theorem run_stops_at_first_failed_exchange :
  forall (rt : Runtime) (w : World) (cl : CommandLine),
    (exists before last,
        snd (run rt w cl) = (before ++ last)%list
        /\ Forall (ok_event rt) before
        /\ (List.length (requests_of last) <= 1)%nat)
    /\ (fst (run rt w cl) = 0 -> Forall (ok_event rt) (snd (run rt w cl)))
    /\ (fst (run rt w cl) = 0 \/ fst (run rt w cl) = 1
        \/ fst (run rt w cl) = 2).
Proof.
  intros rt w cl. pose proof (main_outcome rt w cl) as H. unfold run.
  destruct (main rt w cl []) as [[u|ex] t]; cbn [fst snd] in *.
  - split; [exists t, []; rewrite app_nil_r; repeat split;
            [exact H | cbn; lia] |].
    split; [intros _; exact H | now left].
  - destruct H as (Hc & before & last & -> & Hb & Hl).
    assert (Htb : forall e,
               exists before0 last0,
                 ((before ++ last) ++ [EvTraceback e])%list
                 = (before0 ++ last0)%list
                 /\ Forall (ok_event rt) before0
                 /\ (List.length (requests_of last0) <= 1)%nat).
    { intros e. exists before, (last ++ [EvTraceback e])%list.
      split; [now rewrite app_assoc |]. split; [exact Hb |].
      rewrite requests_of_app. cbn. now rewrite app_nil_r. }
    destruct ex as [code|msg| | | | |name]; cbn [fst snd];
      try (split; [apply Htb | split; [discriminate | right; now left]]).
    destruct (Hc code eq_refl) as [-> | ->].
    + split; [exists before, last; now repeat split |].
      split; [discriminate | right; now left].
    + split; [exists before, last; now repeat split |].
      split; [discriminate | right; now right].
Qed.

(* ================================================================== *)
(** ** Further properties: every request is well formed *)

Lemma kwf_quiet (b tk : string) {A} (m : M A) :
  (forall t, requests_of (snd (m t)) = requests_of t) ->
  keeps_well_formed b tk m.
Proof. intros H t Ht. now rewrite H. Qed.

Lemma kwf_ret (b tk : string) {A} (a : A) : keeps_well_formed b tk (ret a).
Proof. now apply kwf_quiet. Qed.

Lemma kwf_raise (b tk : string) {A} (e : Exn) :
  keeps_well_formed b tk (@raise A e).
Proof. now apply kwf_quiet. Qed.

Lemma kwf_lift (b tk : string) {A} (r : Result A) :
  keeps_well_formed b tk (lift r).
Proof. now apply kwf_quiet. Qed.

Lemma kwf_print (b tk line : string) : keeps_well_formed b tk (print line).
Proof.
  apply kwf_quiet. intros t. cbn. rewrite requests_of_app. cbn.
  now rewrite app_nil_r.
Qed.

Lemma kwf_eprint (b tk line : string) : keeps_well_formed b tk (eprint line).
Proof. apply kwf_quiet. intros t. apply requests_of_snoc_stderr. Qed.

Lemma kwf_bind (b tk : string) {A B} (m : M A) (k : A -> M B) :
  keeps_well_formed b tk m -> (forall a, keeps_well_formed b tk (k a)) ->
  keeps_well_formed b tk (bind m k).
Proof.
  intros Hm Hk t Ht. specialize (Hm t Ht). unfold bind.
  destruct (m t) as [[a|e] t1]; cbn [snd] in *; [now apply Hk | exact Hm].
Qed.

Ltac kwf_tac :=
  repeat first
    [ apply kwf_ret | apply kwf_raise | apply kwf_lift | apply kwf_print
    | apply kwf_eprint
    | apply kwf_bind; [| intros ?]
    | match goal with
      | |- keeps_well_formed _ _ (match ?x with _ => _ end) => destruct x
      | |- keeps_well_formed _ _ (if ?c then _ else _) => destruct c
      end ].

Section WellFormedFacts.

Variable rt : Runtime.
Variable w : World.
Variable args : Args.
Variables b tk : string.
Hypothesis Hb : base_url args = Some b.
Hypothesis Htk : token args = Some tk.

Lemma kwf_request (method path : string) (payload : option dict) :
  method = "GET" \/ method = "POST" ->
  String.prefix "/api/" path = true ->
  keeps_well_formed b tk (_request rt w args method path payload).
Proof.
  intros Hm Hp t Ht.
  unfold _request, _base_url, _token. rewrite Hb, Htk.
  destruct b as [|b0 b'] eqn:Eb.
  { stop (require_absent (Some "") "HA_BASE_URL or --base-url" t eq_refl).
    cbn [snd]. now rewrite requests_of_snoc_stderr. }
  rewrite <- Eb in *.
  assert (Hbne : b <> "") by (rewrite Eb; discriminate).
  step (require_present b "HA_BASE_URL or --base-url" t Hbne).
  destruct (request_accepts rt (PyStr.rstrip "/" b ++ path)) eqn:Eacc.
  2: { unfold Request_new. rewrite Eacc. exact Ht. }
  step (Request_new_typed rt _ payload method t Eacc).
  destruct tk as [|k0 k'] eqn:Etk.
  { stop (require_absent (Some "") "HA_TOKEN or --token" t eq_refl).
    cbn [snd]. now rewrite requests_of_snoc_stderr. }
  rewrite <- Etk in *.
  assert (Htne : tk <> "") by (rewrite Etk; discriminate).
  step (require_present tk "HA_TOKEN or --token" t Htne).
  rewrite (bind_returned _ _ _ _ _ (do_urlopen_eq w _ t)).
  unfold add_header; cbn [req_method req_url req_data req_headers app].
  fold (http_request b tk method path payload).
  set (q := http_request b tk method path payload).
  assert (Hsnd : forall resp (t1 : Trace),
             snd (match resp with
                  | Resp2xx "" => ret JNull
                  | Resp2xx (String _ _ as body) =>
                      match json_loads rt body with
                      | Some j => ret j
                      | None => raise ValueError
                      end
                  | RespHTTPError code detail =>
                      raise (RuntimeError
                               (method ++ " " ++ path ++ " failed: "
                                ++ PyStr.of_Z code ++ " " ++ detail))
                  | RespURLError reason =>
                      raise (RuntimeError
                               (method ++ " " ++ path ++ " failed: " ++ reason))
                  | RespRaises name => raise (OtherError name)
                  end t1) = t1).
  { intros resp t1. destruct resp as [body|code detail|reason|name];
      try reflexivity.
    destruct body; [reflexivity |].
    destruct (json_loads rt (String a body)); reflexivity. }
  rewrite Hsnd, requests_of_snoc. apply Forall_app. split; [exact Ht |].
  constructor; [| constructor].
  exists method, path, payload. now repeat split.
Qed.

Lemma kwf_call_service (domain service : string) (data : dict) :
  keeps_well_formed b tk (_call_service rt w args domain service data).
Proof. apply kwf_request; [now right | reflexivity]. Qed.

Lemma kwf_set_by_domain (entity_id : string) (v : PyVal) :
  keeps_well_formed b tk (_set_by_domain rt w args entity_id v).
Proof.
  unfold _set_by_domain, _set_input_number, _set_input_text,
    _set_input_select, _set_input_boolean, _set_state, py_float.
  repeat match goal with
         | |- keeps_well_formed _ _ (if ?c then _ else _) => destruct c
         end;
    try (apply kwf_bind; [apply kwf_lift | intros ?]);
    try apply kwf_call_service.
  apply kwf_request; [now right | reflexivity].
Qed.

Lemma kwf_init_helpers (energy : PyVal) :
  keeps_well_formed b tk (_init_helpers rt w args energy).
Proof.
  unfold _init_helpers, _set_input_number, _set_input_text, _entity.
  repeat (apply kwf_bind; [apply kwf_call_service | intros ?]).
  apply kwf_bind; [apply kwf_set_by_domain | intros ?].
  destruct energy;
    [ apply kwf_ret
    | destruct (energy_write_entity args);
      (apply kwf_bind; [kwf_tac | intros ?];
       apply kwf_bind; [apply kwf_set_by_domain | intros ?];
       apply kwf_ret) .. ].
Qed.

Lemma kwf_dump_each (entities : list string) :
  keeps_well_formed b tk (dump_each rt w args entities).
Proof.
  induction entities as [|e es IH]; cbn [dump_each]; [apply kwf_ret |].
  apply kwf_bind;
    [unfold _get_state; apply kwf_request; [now left | reflexivity]
    | intros state].
  apply kwf_bind; [apply kwf_print | intros _; exact IH].
Qed.

Lemma kwf_start_then_rest (start : M datetime) (k : Json -> M unit) :
  keeps_well_formed b tk start ->
  (forall j, keeps_well_formed b tk (k j)) ->
  keeps_well_formed b tk
    (bind start (fun st =>
       bind (_timestamp rt st) (fun ts =>
         bind (_call_service rt w args "input_datetime" "set_datetime"
                 [("entity_id", JStr (cycle_start_helper args));
                  ("timestamp", JInt ts)]) k))).
Proof.
  intros Hs Hk.
  apply kwf_bind; [exact Hs | intros st].
  apply kwf_bind; [unfold _timestamp, timestamp; kwf_tac | intros ts].
  apply kwf_bind; [apply kwf_call_service | exact Hk].
Qed.

Lemma kwf_date_arithmetic (dt : datetime) (us : M timedelta) :
  keeps_well_formed b tk us ->
  keeps_well_formed b tk (bind us (fun td => datetime_sub dt td)).
Proof.
  intros H. apply kwf_bind; [exact H | intros td].
  unfold datetime_sub, timedelta_new. kwf_tac.
Qed.

Lemma kwf_func (s : SubCommand) :
  keeps_well_formed b tk (func rt w s args).
Proof.
  destruct s as [e| |d|e|e iso|e d iso i|]; cbn [func].
  - unfold cmd_init. apply kwf_bind; [apply kwf_init_helpers | intros ?].
    apply kwf_print.
  - unfold cmd_start. apply kwf_bind; [apply kwf_set_by_domain | intros ?].
    apply kwf_print.
  - unfold cmd_end. apply kwf_bind.
    + destruct (duration_sec args); [| apply kwf_ret].
      unfold timedelta_seconds, timedelta_new.
      apply kwf_bind; [kwf_tac | intros ?].
      apply kwf_bind; [unfold datetime_sub, timedelta_new; kwf_tac | intros ?].
      apply kwf_bind; [unfold _timestamp, timestamp; kwf_tac | intros ?].
      apply kwf_bind; [apply kwf_call_service | intros ?]. apply kwf_ret.
    + intros ?. apply kwf_bind; [apply kwf_set_by_domain | intros ?].
      apply kwf_print.
  - unfold cmd_energy, _entity. apply kwf_bind; [kwf_tac | intros ?].
    apply kwf_bind; [apply kwf_set_by_domain | intros ?]. apply kwf_print.
  - unfold cmd_split, _entity, _parse_start_iso. apply kwf_start_then_rest.
    + destruct (start_iso args) as [[|c v]|];
        try (apply kwf_date_arithmetic;
             unfold timedelta_minutes, timedelta_new; kwf_tac).
      kwf_tac.
    + intros ?. apply kwf_bind; [apply kwf_set_by_domain | intros ?].
      apply kwf_bind; [kwf_tac | intros ?].
      apply kwf_bind; [apply kwf_set_by_domain | intros ?]. apply kwf_print.
  - unfold cmd_scenario, _entity, _parse_start_iso. apply kwf_bind.
    + destruct (init args); [apply kwf_init_helpers | apply kwf_ret].
    + intros ?. apply kwf_start_then_rest.
      * destruct (start_iso args) as [[|c v]|];
          try (destruct (duration_sec args);
               [ apply kwf_date_arithmetic;
                 unfold timedelta_seconds, timedelta_new; kwf_tac
               | apply kwf_raise ]).
        kwf_tac.
      * intros ?. apply kwf_bind; [apply kwf_set_by_domain | intros ?].
        apply kwf_bind; [apply kwf_set_by_domain | intros ?].
        apply kwf_bind; [kwf_tac | intros ?].
        apply kwf_bind; [apply kwf_set_by_domain | intros ?]. apply kwf_print.
  - unfold cmd_dump. apply kwf_dump_each.
Qed.

End WellFormedFacts.

(** X13.  Every request of every run is a GET or a POST on a path under
    /api/ of the base URL without its trailing slashes, and carries the
    configured token as a bearer authorization together with the JSON
    content type. *)
Theorem every_request_is_well_formed :
  forall (rt : Runtime) (w : World) (cl : CommandLine) (ns : Args)
         (b tk : string),
    parse_args rt w cl [] = (Returned ns, []) ->
    base_url ns = Some b ->
    token ns = Some tk ->
    Forall (fun req =>
              exists method path,
                (method = "GET" \/ method = "POST")
                /\ String.prefix "/api/" path = true
                /\ req_method req = method
                /\ req_url req = PyStr.rstrip "/" b ++ path
                /\ req_headers req
                   = [("Authorization", "Bearer " ++ tk);
                      ("Content-Type", "application/json")])
           (requests_of (snd (run rt w cl))).
Proof.
  intros rt w cl ns b tk Hparse Hb Htk.
  destruct (default_energy_write_entity_keeps ns) as (Kb & Kt & _).
  assert (Hwf : Forall (well_formed b tk) (requests_of (snd (run rt w cl)))).
  { unfold run, main. step Hparse. unfold except_RuntimeError.
    pose proof (kwf_func rt w (default_energy_write_entity ns) b tk
                  (eq_trans Kb Hb) (eq_trans Kt Htk) (sub cl) []
                  (Forall_nil _)) as H.
    destruct (func rt w (sub cl) (default_energy_write_entity ns) [])
      as [[u|ex] t]; cbn [snd] in *; [exact H |].
    destruct ex as [code|msg| | | | |name];
      unfold eprint, emit, raise, bind; cbn [snd];
      rewrite ?requests_of_app; cbn [requests_of]; rewrite ?app_nil_r;
      exact H. }
  eapply Forall_impl; [| exact Hwf].
  intros req (method & path & payload & -> & Hm & Hp).
  exists method, path. now repeat split.
Qed.

Lemma every_request_is_well_formed_witness :
  Forall (fun req =>
            exists method path,
              (method = "GET" \/ method = "POST")
              /\ String.prefix "/api/" path = true
              /\ req_method req = method
              /\ req_url req = PyStr.rstrip "/" Demo.base ++ path
              /\ req_headers req
                 = [("Authorization", "Bearer " ++ Demo.tok);
                    ("Content-Type", "application/json")])
         (requests_of (snd (run Demo.rt Demo.world (Demo.cli (Init None))))).
Proof.
  pose (ns := match parse_args Demo.rt Demo.world (Demo.cli (Init None)) [] with
              | (Returned ns, _) => ns
              | _ => Demo.args_of PNone None None false
              end).
  apply (every_request_is_well_formed Demo.rt Demo.world
           (Demo.cli (Init None)) ns Demo.base Demo.tok);
    reflexivity.
Defined.

(* ================================================================== *)
(** ** Further properties: options and their defaults *)

(** X14.  Whatever the subcommand, each common option is the value of its
    flag when the flag is given, else the value of its environment
    variable when that is set, else its built-in default; base URL, token
    and energy write entity have no built-in default. *)
Theorem option_is_flag_then_environment_then_default :
  forall (rt : Runtime) (w : World) (cl : CommandLine) (ns : Args)
         (t t' : Trace),
    parse_args rt w cl t = (Returned ns, t') ->
    let layered (flag : option string) (name default : string) : string :=
      match flag, environ w name with
      | Some v, _ => v
      | None, Some v => v
      | None, None => default
      end in
    let optional (flag : option string) (name : string) : option string :=
      match flag with
      | Some v => Some v
      | None => environ w name
      end in
    let c := common cl in
    base_url ns = optional (flag_base_url c) "HA_BASE_URL"
    /\ token ns = optional (flag_token c) "HA_TOKEN"
    /\ energy_write_entity ns
       = optional (flag_energy_write_entity c) "HA_ENERGY_WRITE_ENTITY"
    /\ energy_sensor ns
       = layered (flag_energy_sensor c) "HA_ENERGY_SENSOR"
                 "sensor.test_energy_yesterday"
    /\ status_entity ns
       = layered (flag_status_entity c) "HA_STATUS_ENTITY"
                 "input_select.test_status"
    /\ lifetime_helper ns
       = layered (flag_lifetime_helper c) "HA_LIFETIME_HELPER"
                 "input_number.test_lifetime_energy"
    /\ cycle_start_helper ns
       = layered (flag_cycle_start_helper c) "HA_CYCLE_START_HELPER"
                 "input_datetime.test_cycle_start"
    /\ daily_active_helper ns
       = layered (flag_daily_active_helper c) "HA_DAILY_ACTIVE_HELPER"
                 "input_number.test_daily_active_seconds"
    /\ durations_helper ns
       = layered (flag_durations_helper c) "HA_DURATIONS_HELPER"
                 "input_text.test_cycle_durations"
    /\ last_processed_helper ns
       = layered (flag_last_processed_helper c) "HA_LAST_PROCESSED_HELPER"
                 "input_text.test_last_processed_date"
    /\ active_state ns = layered (flag_active_state c) "HA_ACTIVE_STATE" "running"
    /\ inactive_state ns
       = layered (flag_inactive_state c) "HA_INACTIVE_STATE" "off".
Proof.
  intros rt w cl ns t t' Hparse layered optional c. revert Hparse.
  unfold parse_args, environ_get.
  destruct (sub cl) as [e| |d|e|e iso|e d iso i|];
    unfold energy_wh_default0, energy_wh_required, energy_wh_given,
      energy_wh_present, duration_sec_arg, arg_int,
      arg_float, argparse_error, bind, ret;
    destruct (energy_wh_first cl);
    try (destruct d as [rd|]; [destruct (int_of_str rt rd) |]);
    try (destruct e as [raw|]; [destruct (float_of_str rt raw) |]);
    cbn; try discriminate; intros [= <- _];
    cbn [base_url token energy_sensor energy_write_entity status_entity
         lifetime_helper cycle_start_helper daily_active_helper
         durations_helper last_processed_helper active_state inactive_state];
    unfold layered, optional, flag_or, environ_get_or, c;
    repeat split;
    repeat match goal with
           | |- context [match ?x with Some _ => _ | None => _ end] =>
               destruct x
           end; reflexivity.
Qed.

Lemma option_is_flag_then_environment_then_default_witness :
  exists ns,
    parse_args Demo.rt Demo.world
      {| sub := Start;
         common := {| flag_base_url := None; flag_token := Some "other";
                      flag_energy_sensor := None;
                      flag_energy_write_entity := None;
                      flag_status_entity := Some "input_boolean.pump";
                      flag_lifetime_helper := None;
                      flag_cycle_start_helper := None;
                      flag_daily_active_helper := None;
                      flag_durations_helper := None;
                      flag_last_processed_helper := None;
                      flag_active_state := None;
                      flag_inactive_state := None |};
         energy_wh_first := true |} []
    = (Returned ns, [])
    /\ base_url ns = Some "http://homeassistant.local:8123/"
    /\ token ns = Some "other"
    /\ status_entity ns = "input_boolean.pump"
    /\ active_state ns = "running".
Proof.
  pose (cl := {| sub := Start;
                 common := {| flag_base_url := None; flag_token := Some "other";
                              flag_energy_sensor := None;
                              flag_energy_write_entity := None;
                              flag_status_entity := Some "input_boolean.pump";
                              flag_lifetime_helper := None;
                              flag_cycle_start_helper := None;
                              flag_daily_active_helper := None;
                              flag_durations_helper := None;
                              flag_last_processed_helper := None;
                              flag_active_state := None;
                              flag_inactive_state := None |};
         energy_wh_first := true |}).
  pose (ns := match parse_args Demo.rt Demo.world cl [] with
              | (Returned ns, _) => ns
              | _ => Demo.args_of PNone None None false
              end).
  destruct (option_is_flag_then_environment_then_default Demo.rt Demo.world
              cl ns [] [] eq_refl)
    as (Hb & Ht & _ & _ & Hs & _ & _ & _ & _ & _ & Ha & _).
  exists ns. split; [reflexivity |].
  split; [exact Hb |]. split; [exact Ht |]. split; [exact Hs | exact Ha].
Defined.

(** X15.  [energy], [split] and [scenario] given without [--energy-wh], or
    with one that is no number, end in the argument parser: the exit
    status is 2, something is reported on stderr and no request is issued,
    whatever the connection settings are. *)
Theorem missing_or_invalid_energy_exits_2 :
  forall (rt : Runtime) (w : World) (cl : CommandLine) (e : option string),
    required_energy_flag (sub cl) = Some e ->
    (e = None \/ exists raw, e = Some raw /\ float_of_str rt raw = None) ->
    fst (run rt w cl) = 2
    /\ requests_of (snd (run rt w cl)) = []
    /\ exists line lines, snd (run rt w cl) = EvStderr line :: lines.
Proof.
  intros rt w cl e Hreq He.
  assert (Hparse : exists usage line,
             parse_args rt w cl []
             = (Raised (SystemExit 2), [EvStderr usage; EvStderr line])).
  { unfold parse_args.
    destruct (sub cl) as [e0| |d|e0|e0 iso|e0 d iso i|]; cbn in Hreq;
      try discriminate; injection Hreq as ->;
      unfold energy_wh_required, energy_wh_given, energy_wh_present,
        duration_sec_arg, arg_int, arg_float, argparse_error, eprint, emit,
        bind, ret, raise;
      destruct (energy_wh_first cl);
      try (destruct d as [rd|]; [destruct (int_of_str rt rd) |]);
      (destruct He as [-> | (raw & -> & Hbad)]; [| try rewrite Hbad]);
      cbn [app]; eexists; eexists; reflexivity. }
  destruct Hparse as (usage & line & Hparse).
  unfold run, main. stop Hparse. repeat split.
  now exists usage, [EvStderr line].
Qed.

Lemma missing_or_invalid_energy_exits_2_witness :
  fst (run Demo.rt Demo.world (Demo.cli (Energy (Some "lots")))) = 2
  /\ requests_of (snd (run Demo.rt Demo.world (Demo.cli (Energy (Some "lots")))))
     = []
  /\ exists line lines,
      snd (run Demo.rt Demo.world (Demo.cli (Energy (Some "lots"))))
      = EvStderr line :: lines.
Proof.
  apply (missing_or_invalid_energy_exits_2 Demo.rt Demo.world
           (Demo.cli (Energy (Some "lots"))) (Some "lots")).
  - reflexivity.
  - right. exists "lots"%string. split; reflexivity.
Defined.

(* ================================================================== *)
(** ** Further properties: failures of the server *)

(** X16.  [dump] with the connection configured: when the first read is
    answered with an HTTP error status or fails on the network, the run
    consists of that one request and one line on stderr that gives the
    method, the path and the status code with the response body, or the
    reason; nothing is printed on stdout, the other six reads are not
    attempted, and the exit status is 1. *)
Theorem dump_reports_failed_read :
  forall (rt : Runtime) (w : World) (cl : CommandLine) (ns : Args)
         (b tk : string),
    sub cl = Dump ->
    parse_args rt w cl [] = (Returned ns, []) ->
    let args := default_energy_write_entity ns in
    configured rt args b tk ->
    let q := state_read b tk (energy_sensor args) in
    let path := "/api/states/" ++ energy_sensor args in
    (forall code detail,
        urlopen w [] q = RespHTTPError code detail ->
        run rt w cl
        = (1, [EvHttp q (RespHTTPError code detail);
               EvStderr ("GET " ++ path ++ " failed: " ++ PyStr.of_Z code
                         ++ " " ++ detail)]))
    /\ (forall reason,
          urlopen w [] q = RespURLError reason ->
          run rt w cl
          = (1, [EvHttp q (RespURLError reason);
                 EvStderr ("GET " ++ path ++ " failed: " ++ reason)])).
Proof.
  intros rt w cl ns b tk Hsub Hparse args Hcfg q path.
  assert (Hfirst : _get_state rt w args (energy_sensor args) []
                   = (response_result rt "GET" path (urlopen w [] q),
                      [EvHttp q (urlopen w [] q)])).
  { unfold _get_state.
    apply (request_configured rt w _ _ _ _ _ _ [] Hcfg). }
  split.
  - intros code detail Hresp. rewrite Hresp in Hfirst. cbn in Hfirst.
    unfold run, main. step Hparse. fold args. rewrite Hsub. cbn [func].
    unfold except_RuntimeError, cmd_dump. cbn [dump_each].
    stop Hfirst. reflexivity.
  - intros reason Hresp. rewrite Hresp in Hfirst. cbn in Hfirst.
    unfold run, main. step Hparse. fold args. rewrite Hsub. cbn [func].
    unfold except_RuntimeError, cmd_dump. cbn [dump_each].
    stop Hfirst. reflexivity.
Qed.

Lemma dump_reports_failed_read_witness :
  run Demo.rt Demo.failing_world (Demo.cli Dump)
  = (1, [EvHttp (state_read Demo.base Demo.tok "sensor.test_energy_yesterday")
                (RespHTTPError 404 "Entity not found.");
         EvStderr "GET /api/states/sensor.test_energy_yesterday failed: 404 Entity not found."]).
Proof.
  pose (ns := match parse_args Demo.rt Demo.failing_world (Demo.cli Dump) []
              with
              | (Returned ns, _) => ns
              | _ => Demo.args_of PNone None None false
              end).
  refine (proj1 (dump_reports_failed_read Demo.rt Demo.failing_world
                   (Demo.cli Dump) ns Demo.base Demo.tok eq_refl eq_refl _)
                404 "Entity not found." eq_refl).
  configured_by_computation.
Defined.

(** X17.  [start] with the connection configured: when the server answers
    the write with a 2xx status and a non-empty body that does not decode
    as JSON, the request has been made but the command dies of an uncaught
    [ValueError]: no confirmation is printed and the exit status is 1. *)
Theorem start_dies_on_undecodable_body :
  forall (rt : Runtime) (w : World) (cl : CommandLine) (ns : Args)
         (b tk body : string) (q : Request),
    sub cl = Start ->
    parse_args rt w cl [] = (Returned ns, []) ->
    let args := default_energy_write_entity ns in
    configured rt args b tk ->
    write_request rt b tk (status_entity args) (PStr (active_state args))
    = Some q ->
    urlopen w [] q = Resp2xx body ->
    body <> "" ->
    json_loads rt body = None ->
    run rt w cl = (1, [EvHttp q (Resp2xx body); EvTraceback ValueError]).
Proof.
  intros rt w cl ns b tk body q Hsub Hparse args Hcfg Hq Hresp Hne Hbad.
  assert (Hreq : forall method path payload,
             q = http_request b tk method path payload ->
             _request rt w args method path payload []
             = (Raised ValueError, [EvHttp q (Resp2xx body)])).
  { intros method path payload ->.
    rewrite (request_configured rt w _ _ _ _ _ _ [] Hcfg).
    cbn [requests_of app]. rewrite Hresp.
    destruct body; [congruence |]. cbn [response_result]. now rewrite Hbad. }
  assert (E : _set_by_domain rt w args (status_entity args)
                (PStr (active_state args)) []
              = (Raised ValueError, [EvHttp q (Resp2xx body)])).
  { revert Hq. unfold write_request, _set_by_domain, _domain.
    destruct (String.eqb _ "input_number").
    { destruct (float_conv rt (PStr (active_state args))) as [f|e] eqn:Ef;
        [| discriminate].
      intros [= Hq]. unfold py_float, lift, bind. rewrite Ef.
      now apply Hreq. }
    destruct (String.eqb _ "input_text");
      [intros [= Hq]; now apply Hreq |].
    destruct (String.eqb _ "input_select");
      [intros [= Hq]; now apply Hreq |].
    destruct (String.eqb _ "input_boolean");
      [intros [= Hq]; now apply Hreq |].
    intros [= Hq]. now apply Hreq. }
  unfold run, main. step Hparse. fold args. rewrite Hsub. cbn [func].
  unfold except_RuntimeError, cmd_start. stop E. reflexivity.
Qed.

Lemma start_dies_on_undecodable_body_witness :
  run Demo.rt Demo.garbled_world (Demo.cli Start)
  = (1, [EvHttp (service_call Demo.base Demo.tok "input_select"
                   "select_option"
                   [("entity_id", JStr "input_select.test_status");
                    ("option", JStr "running")])
                (Resp2xx "<html>");
         EvTraceback ValueError]).
Proof.
  pose (ns := match parse_args Demo.rt Demo.garbled_world (Demo.cli Start) []
              with
              | (Returned ns, _) => ns
              | _ => Demo.args_of PNone None None false
              end).
  apply (start_dies_on_undecodable_body Demo.rt Demo.garbled_world
           (Demo.cli Start) ns Demo.base Demo.tok "<html>").
  - reflexivity.
  - reflexivity.
  - configured_by_computation.
  - reflexivity.
  - reflexivity.
  - discriminate.
  - reflexivity.
Defined.

(* ================================================================== *)
(** ** Further properties: an explicit start *)

(** X18.  [split] with a non-empty [--start-iso] that parses, with the
    connection configured, a server that accepts and values that suit
    their entities: it sets the cycle-start helper to the integer epoch
    seconds of the parsed start, then the status entity to the active
    value, then the energy write target to the energy value, and sends
    nothing else. *)
Theorem split_with_explicit_start_sends_parsed_time :
  forall (rt : Runtime) (w : World) (args : Args) (b tk v target : string)
         (dt : datetime) (ts : Z) (qa qe : Request) (t : Trace),
    configured rt args b tk ->
    accepts rt w ->
    start_iso args = Some v ->
    v <> "" ->
    fromisoformat rt v = Some dt ->
    fst (_timestamp rt dt []) = Returned ts ->
    write_request rt b tk (status_entity args) (PStr (active_state args))
    = Some qa ->
    energy_write_entity args = Some target ->
    write_request rt b tk target (energy_wh args) = Some qe ->
    fst (cmd_split rt w args t) = Returned tt
    /\ requests_of (snd (cmd_split rt w args t))
       = (requests_of t ++ [set_cycle_start b tk args ts; qa; qe])%list.
Proof.
  intros rt w args b tk v target dt ts qa qe t Hcfg Hacc Hiso Hne Hdt Hts
         Hqa Ht Hqe.
  assert (H : issues (cmd_split rt w args)
                     [set_cycle_start b tk args ts; qa; qe]).
  { unfold cmd_split. rewrite Hiso.
    destruct v as [|c v]; [congruence |].
    unfold _parse_start_iso. rewrite Hdt. apply issues_bind_ret.
    intros t0. rewrite (bind_returned _ _ _ _ _
                          (eq_trans (timestamp_any_trace rt dt t0)
                                    (f_equal (fun r => (r, t0)) Hts))).
    revert t0.
    apply (issues_bind _ _ [_] [_; _]);
      [apply (issues_call_service rt w args b tk Hcfg Hacc) | intros _].
    apply (issues_bind _ _ [_] [_]);
      [apply (issues_set_by_domain rt w args b tk Hcfg Hacc _ _ _ Hqa)
      | intros _].
    rewrite Ht. unfold _entity. apply issues_bind_ret.
    apply (issues_bind _ _ [_] []);
      [apply (issues_set_by_domain rt w args b tk Hcfg Hacc _ _ _ Hqe)
      | intros _; apply issues_print]. }
  destruct (H t) as ([] & t' & E & R). rewrite E. now split.
Qed.

Lemma split_with_explicit_start_sends_parsed_time_witness :
  fst (cmd_split Demo.rt Demo.world
         (Demo.args_of (PFloat 900%float) None (Some "2024-03-09") false) [])
  = Returned tt
  /\ requests_of
       (snd (cmd_split Demo.rt Demo.world
               (Demo.args_of (PFloat 900%float) None (Some "2024-03-09") false)
               []))
     = (requests_of []
        ++ [ set_cycle_start Demo.base Demo.tok
               (Demo.args_of (PFloat 900%float) None (Some "2024-03-09") false)
               1709942400;
             service_call Demo.base Demo.tok "input_select" "select_option"
               [("entity_id", JStr "input_select.test_status");
                ("option", JStr "running")];
             state_overwrite Demo.base Demo.tok
               "sensor.test_energy_yesterday" "900.0" ])%list.
Proof.
  refine (split_with_explicit_start_sends_parsed_time Demo.rt Demo.world
            (Demo.args_of (PFloat 900%float) None (Some "2024-03-09") false)
            Demo.base Demo.tok "2024-03-09" "sensor.test_energy_yesterday"
            _ 1709942400 _ _ [] _ _ _ _ _ _ _ _ _).
  - configured_by_computation.
  - intros history req. exists "[]". split; [reflexivity |].
    right. eexists. reflexivity.
  - reflexivity.
  - discriminate.
  - reflexivity.
  - reflexivity.
  - reflexivity.
  - reflexivity.
  - reflexivity.
Defined.
